(** * libSBML MathML reader and writer (MathML.cpp): a shallow embedding

    The development follows [MathML.cpp]: the static tables, the recursive
    reader [readMathML] over an [XMLInputStream], the writer [writeNode]
    over an [XMLOutputStream], and the public entry points.  Classes that
    [MathML.cpp] only uses ([ASTNode], [XMLToken], [XMLInputStream],
    [XMLOutputStream], [SBMLErrorLog], [DefinitionURLRegistry]) are
    modelled next to their first use, each under a comment that says so.
    No AST plugin is loaded ([getASTPlugin] returns NULL) and [USE_MULTI]
    is not defined. *)

From Stdlib Require Import ZArith String Ascii Bool Lia List.
From Stdlib Require Import Floats.PrimFloat Floats.SpecFloat Floats.FloatOps.
From Stdlib Require Import DecimalString DecimalPos.
Import ListNotations.

Open Scope string_scope.
Open Scope list_scope.
Open Scope Z_scope.

(* ====================================================================== *)
(** ** Strings and the C++ stream extractions                              *)
(* ====================================================================== *)

Notation "a +++ b" := (String.append a b) (at level 60, right associativity).

(** The one-character string holding a double quote. *)
Definition dquote : string := String (ascii_of_nat 34) EmptyString.

(** The characters of [whitespace(" \t\r\n")] in [trim]. *)
Definition is_trim_ws (c : ascii) : bool :=
  match nat_of_ascii c with
  | 32%nat | 9%nat | 13%nat | 10%nat => true
  | _ => false
  end.

Fixpoint drop_leading (p : ascii -> bool) (s : string) : string :=
  match s with
  | EmptyString => EmptyString
  | String c r => if p c then drop_leading p r else s
  end.

Fixpoint string_rev_onto (s acc : string) : string :=
  match s with
  | EmptyString => acc
  | String c r => string_rev_onto r (String c acc)
  end.

Definition string_rev (s : string) : string := string_rev_onto s EmptyString.

(** [trim]: [s] with whitespace removed from the beginning and end. *)
Definition trim (s : string) : string :=
  string_rev (drop_leading is_trim_ws (string_rev (drop_leading is_trim_ws s))).

(** [isspace] of the C locale, skipped by a formatted extraction. *)
Definition is_space (c : ascii) : bool :=
  match nat_of_ascii c with
  | 32%nat | 9%nat | 10%nat | 11%nat | 12%nat | 13%nat => true
  | _ => false
  end.

Definition digit_of (c : ascii) : option Z :=
  let n := Z.of_nat (nat_of_ascii c) in
  if (48 <=? n) && (n <=? 57) then Some (n - 48) else None.

(** The longest run of decimal digits at the front of [s]: its value (with
    [acc] as the value read so far), how many digits it has, and the rest. *)
Fixpoint scan_digits (s : string) (acc : Z) (count : Z) : Z * Z * string :=
  match s with
  | EmptyString => (acc, count, s)
  | String c r =>
      match digit_of c with
      | Some d => scan_digits r (10 * acc + d) (count + 1)
      | None => (acc, count, s)
      end
  end.

(** The integer a decimal text denotes: optional whitespace, an optional
    sign, at least one digit; characters after the digits are left
    unread.  [None] when no digit is found. *)
Definition scan_integer (s : string) : option Z :=
  let s := drop_leading is_space s in
  let '(neg, body) :=
    match s with
    | String "-"%char r => (true, r)
    | String "+"%char r => (false, r)
    | _ => (false, s)
    end in
  let '(v, count, _) := scan_digits body 0 0 in
  if count =? 0 then None else Some (if neg then - v else v).

(** The result of [istringstream >> x]: the value stored and [fail()]. *)
Record Extracted (A : Type) := mkExtracted { ex_value : A; ex_fail : bool }.
Arguments mkExtracted {A} _ _.
Arguments ex_value {A} _.
Arguments ex_fail {A} _.

(** [sizeof(int)] and the ranges of [int] and [long] (LP64). *)
Definition sizeof_int : Z := 4.
Definition INT_MAX : Z := 2 ^ (8 * sizeof_int - 1) - 1.
Definition INT_MIN : Z := - 2 ^ (8 * sizeof_int - 1).
Definition LONG_MAX : Z := 2 ^ 63 - 1.
Definition LONG_MIN : Z := - 2 ^ 63.

(** The commented-out constants at the top of [MathML.cpp]. *)
Definition SBML_INT_MAX : Z := 2147483647.
Definition SBML_INT_MIN : Z := -2147483647 - 1.

(** Extraction of a signed integer of range [lo..hi] (C++11 [num_get]):
    no digits stores 0 and fails; a value out of range stores the nearest
    bound and fails. *)
Definition extract_integer (lo hi : Z) (s : string) : Extracted Z :=
  match scan_integer s with
  | None => mkExtracted 0 true
  | Some v =>
      if v >? hi then mkExtracted hi true
      else if v <? lo then mkExtracted lo true
      else mkExtracted v false
  end.

Definition extract_int : string -> Extracted Z := extract_integer INT_MIN INT_MAX.
Definition extract_long : string -> Extracted Z := extract_integer LONG_MIN LONG_MAX.

(** The binary64 value nearest to [m * 10 ^ e10] ([m >= 0]), ties to even;
    a negative [e10] is divided out with one sticky bit below 64 quotient
    bits. *)
Definition decimal_to_double (neg : bool) (m e10 : Z) : float :=
  let magnitude :=
    if m =? 0 then zero
    else if 0 <=? e10 then
      SF2Prim (binary_normalize prec emax (m * 10 ^ e10) 0 false)
    else
      let d := 10 ^ (- e10) in
      let s := Z.max 0 (64 + Z.log2 d - Z.log2 m + 1) in
      let n := m * 2 ^ s in
      let sticky := if n mod d =? 0 then 0 else 1 in
      SF2Prim (binary_normalize prec emax (2 * (n / d) + sticky) (- s - 1) false) in
  if neg then (- magnitude)%float else magnitude.

Definition DBL_MAX : float := 0x1.fffffffffffffp+1023%float.

(** A decimal floating literal: sign, digits, optional fraction, optional
    exponent; returned as (negative, digits as one integer, power of ten). *)
Definition scan_decimal (s : string) : option (bool * Z * Z) :=
  let s := drop_leading is_space s in
  let '(neg, body) :=
    match s with
    | String "-"%char r => (true, r)
    | String "+"%char r => (false, r)
    | _ => (false, s)
    end in
  let '(ip, icount, rest) := scan_digits body 0 0 in
  let '(m, fcount, rest) :=
    match rest with
    | String "."%char r => scan_digits r ip 0
    | _ => (ip, 0, rest)
    end in
  if icount + fcount =? 0 then None
  else
    match rest with
    | String c r =>
        if (Ascii.eqb c "e" || Ascii.eqb c "E")%bool then
          let '(eneg, ebody) :=
            match r with
            | String "-"%char r' => (true, r')
            | String "+"%char r' => (false, r')
            | _ => (false, r)
            end in
          let '(ev, ecount, _) := scan_digits ebody 0 0 in
          if ecount =? 0 then None
          else Some (neg, m, (if eneg then - ev else ev) - fcount)
        else Some (neg, m, - fcount)
    | EmptyString => Some (neg, m, - fcount)
    end.

(** [istringstream >> double]: a text that is no number stores 0 and
    fails; a value beyond the finite range stores the largest finite
    double of its sign and fails. *)
Definition extract_double (s : string) : Extracted float :=
  match scan_decimal s with
  | None => mkExtracted zero true
  | Some (neg, m, e10) =>
      let v := decimal_to_double neg m e10 in
      if is_infinity v
      then mkExtracted (if neg then (- DBL_MAX)%float else DBL_MAX) true
      else mkExtracted v false
  end.

(** An extraction from a stream that was never given a text to read (a
    default [istringstream] the code declares and may leave unused). *)
Definition not_extracted {A : Type} (initial : A) : Extracted A :=
  mkExtracted initial false.

(** [ostream << long]. *)
Definition long_to_string (z : Z) : string :=
  NilZero.string_of_int (Z.to_int z).

(** [strtol(s, NULL, 10)], as [writeDouble] and [writeENotation] use it on
    the exponent part of a formatted double. *)
Definition strtol (s : string) : Z :=
  match scan_integer s with
  | None => 0
  | Some v => Z.max LONG_MIN (Z.min LONG_MAX v)
  end.

(** [strtod(s, 0)] on the mantissa part of a formatted double. *)
Definition strtod (s : string) : float :=
  match scan_decimal s with
  | None => zero
  | Some (neg, m, e10) => decimal_to_double neg m e10
  end.

Fixpoint find_char (c : ascii) (s : string) : option nat :=
  match s with
  | EmptyString => None
  | String a r => if Ascii.eqb a c then Some O
                  else option_map S (find_char c r)
  end.

Definition to_lower (c : ascii) : ascii :=
  let n := nat_of_ascii c in
  if ((65 <=? n) && (n <=? 90))%nat then ascii_of_nat (n + 32) else c.

(** [strcmp_insensitive]. *)
Fixpoint strcmp_insensitive (a b : string) : comparison :=
  match a, b with
  | EmptyString, EmptyString => Eq
  | EmptyString, String _ _ => Lt
  | String _ _, EmptyString => Gt
  | String x a', String y b' =>
      match Nat.compare (nat_of_ascii (to_lower x)) (nat_of_ascii (to_lower y)) with
      | Eq => strcmp_insensitive a' b'
      | c => c
      end
  end.

(** Modelled from the spec: [util_bsearchStringsI] (util.c is not in src),
    the case-insensitive binary search of section 4.1 over a sorted table.
    It returns the index of [s] between [lo] and [hi], or [hi + 1] when
    [s] is absent. *)
Fixpoint bsearch_loop (fuel : nat) (strings : list string) (s : string)
    (lo hi result : Z) : Z :=
  match fuel with
  | O => result
  | S fuel' =>
      if lo <=? hi then
        let mid := (lo + hi) / 2 in
        match strcmp_insensitive s (nth (Z.to_nat mid) strings "") with
        | Eq => mid
        | Lt => bsearch_loop fuel' strings s lo (mid - 1) result
        | Gt => bsearch_loop fuel' strings s (mid + 1) hi result
        end
      else result
  end.

Definition util_bsearchStringsI (strings : list string) (s : string) (lo hi : Z) : Z :=
  bsearch_loop (S (Z.to_nat (hi - lo + 1))) strings s lo hi (hi + 1).

(* ====================================================================== *)
(** ** Node types and the static tables                                    *)
(* ====================================================================== *)

(** Modelled from the spec: [ASTNodeType_t] (ASTNodeType.h is not in src).
    The kinds are those of section 3 that [MathML.cpp] names; the function
    kinds are in the order of [MATHML_FUNCTIONS], which the writer indexes
    by [type - AST_FUNCTION_ABS]. *)
Inductive ASTNodeType_t : Type :=
  | AST_PLUS | AST_MINUS | AST_TIMES | AST_DIVIDE | AST_POWER
  | AST_INTEGER | AST_REAL | AST_REAL_E | AST_RATIONAL
  | AST_NAME | AST_NAME_AVOGADRO | AST_NAME_TIME
  | AST_CONSTANT_E | AST_CONSTANT_FALSE | AST_CONSTANT_PI | AST_CONSTANT_TRUE
  | AST_LAMBDA
  | AST_FUNCTION
  | AST_FUNCTION_ABS | AST_FUNCTION_ARCCOS | AST_FUNCTION_ARCCOSH
  | AST_FUNCTION_ARCCOT | AST_FUNCTION_ARCCOTH | AST_FUNCTION_ARCCSC
  | AST_FUNCTION_ARCCSCH | AST_FUNCTION_ARCSEC | AST_FUNCTION_ARCSECH
  | AST_FUNCTION_ARCSIN | AST_FUNCTION_ARCSINH | AST_FUNCTION_ARCTAN
  | AST_FUNCTION_ARCTANH | AST_FUNCTION_CEILING | AST_FUNCTION_COS
  | AST_FUNCTION_COSH | AST_FUNCTION_COT | AST_FUNCTION_COTH
  | AST_FUNCTION_CSC | AST_FUNCTION_CSCH | AST_FUNCTION_DELAY
  | AST_FUNCTION_EXP | AST_FUNCTION_FACTORIAL | AST_FUNCTION_FLOOR
  | AST_FUNCTION_LN | AST_FUNCTION_LOG | AST_FUNCTION_PIECEWISE
  | AST_FUNCTION_POWER | AST_FUNCTION_ROOT | AST_FUNCTION_SEC
  | AST_FUNCTION_SECH | AST_FUNCTION_SIN | AST_FUNCTION_SINH
  | AST_FUNCTION_TAN | AST_FUNCTION_TANH
  | AST_LOGICAL_AND | AST_LOGICAL_NOT | AST_LOGICAL_OR | AST_LOGICAL_XOR
  | AST_RELATIONAL_EQ | AST_RELATIONAL_GEQ | AST_RELATIONAL_GT
  | AST_RELATIONAL_LEQ | AST_RELATIONAL_LT | AST_RELATIONAL_NEQ
  | AST_FUNCTION_RATE_OF
  | AST_CSYMBOL_FUNCTION
  | AST_UNKNOWN.

(** The enumerators' values: the operators are their characters, the
    others count up from 256; [AST_UNKNOWN] is above every kind here. *)
Definition type_code (t : ASTNodeType_t) : Z :=
  match t with
  | AST_PLUS => 43 | AST_MINUS => 45 | AST_TIMES => 42 | AST_DIVIDE => 47
  | AST_POWER => 94
  | AST_INTEGER => 256 | AST_REAL => 257 | AST_REAL_E => 258 | AST_RATIONAL => 259
  | AST_NAME => 260 | AST_NAME_AVOGADRO => 261 | AST_NAME_TIME => 262
  | AST_CONSTANT_E => 263 | AST_CONSTANT_FALSE => 264 | AST_CONSTANT_PI => 265
  | AST_CONSTANT_TRUE => 266
  | AST_LAMBDA => 267
  | AST_FUNCTION => 268
  | AST_FUNCTION_ABS => 269 | AST_FUNCTION_ARCCOS => 270 | AST_FUNCTION_ARCCOSH => 271
  | AST_FUNCTION_ARCCOT => 272 | AST_FUNCTION_ARCCOTH => 273 | AST_FUNCTION_ARCCSC => 274
  | AST_FUNCTION_ARCCSCH => 275 | AST_FUNCTION_ARCSEC => 276 | AST_FUNCTION_ARCSECH => 277
  | AST_FUNCTION_ARCSIN => 278 | AST_FUNCTION_ARCSINH => 279 | AST_FUNCTION_ARCTAN => 280
  | AST_FUNCTION_ARCTANH => 281 | AST_FUNCTION_CEILING => 282 | AST_FUNCTION_COS => 283
  | AST_FUNCTION_COSH => 284 | AST_FUNCTION_COT => 285 | AST_FUNCTION_COTH => 286
  | AST_FUNCTION_CSC => 287 | AST_FUNCTION_CSCH => 288 | AST_FUNCTION_DELAY => 289
  | AST_FUNCTION_EXP => 290 | AST_FUNCTION_FACTORIAL => 291 | AST_FUNCTION_FLOOR => 292
  | AST_FUNCTION_LN => 293 | AST_FUNCTION_LOG => 294 | AST_FUNCTION_PIECEWISE => 295
  | AST_FUNCTION_POWER => 296 | AST_FUNCTION_ROOT => 297 | AST_FUNCTION_SEC => 298
  | AST_FUNCTION_SECH => 299 | AST_FUNCTION_SIN => 300 | AST_FUNCTION_SINH => 301
  | AST_FUNCTION_TAN => 302 | AST_FUNCTION_TANH => 303
  | AST_LOGICAL_AND => 304 | AST_LOGICAL_NOT => 305 | AST_LOGICAL_OR => 306
  | AST_LOGICAL_XOR => 307
  | AST_RELATIONAL_EQ => 308 | AST_RELATIONAL_GEQ => 309 | AST_RELATIONAL_GT => 310
  | AST_RELATIONAL_LEQ => 311 | AST_RELATIONAL_LT => 312 | AST_RELATIONAL_NEQ => 313
  | AST_FUNCTION_RATE_OF => 323
  | AST_CSYMBOL_FUNCTION => 400
  | AST_UNKNOWN => 1000
  end.

Definition type_eqb (a b : ASTNodeType_t) : bool := type_code a =? type_code b.

Definition URL_TIME : string := "http://www.sbml.org/sbml/symbols/time".
Definition URL_DELAY : string := "http://www.sbml.org/sbml/symbols/delay".
Definition URL_AVOGADRO : string := "http://www.sbml.org/sbml/symbols/avogadro".

Definition MATHML_ELEMENTS : list string :=
  [ "abs"; "and"; "annotation"; "annotation-xml"; "apply"; "arccos"; "arccosh"
  ; "arccot"; "arccoth"; "arccsc"; "arccsch"; "arcsec"; "arcsech"; "arcsin"
  ; "arcsinh"; "arctan"; "arctanh"; "bvar"; "ceiling"; "ci"; "cn"; "cos"
  ; "cosh"; "cot"; "coth"; "csc"; "csch"; "csymbol"; "degree"; "divide"; "eq"
  ; "exp"; "exponentiale"; "factorial"; "false"; "floor"; "geq"; "gt"
  ; "infinity"; "lambda"; "leq"; "ln"; "log"; "logbase"; "lt"; "math"; "minus"
  ; "neq"; "not"; "notanumber"; "or"; "otherwise"; "pi"; "piece"; "piecewise"
  ; "plus"; "power"; "root"; "sec"; "sech"; "semantics"; "sep"; "sin"; "sinh"
  ; "tan"; "tanh"; "times"; "true"; "xor" ].

Definition MATHML_FUNCTIONS : list string :=
  [ "abs"; "arccos"; "arccosh"; "arccot"; "arccoth"; "arccsc"; "arccsch"
  ; "arcsec"; "arcsech"; "arcsin"; "arcsinh"; "arctan"; "arctanh"; "ceiling"
  ; "cos"; "cosh"; "cot"; "coth"; "csc"; "csch"; "csymbol"; "exp"; "factorial"
  ; "floor"; "ln"; "log"; "piecewise"; "power"; "root"; "sec"; "sech"; "sin"
  ; "sinh"; "tan"; "tanh"; "and"; "not"; "or"; "xor"; "eq"; "geq"; "gt"; "leq"
  ; "lt"; "neq" ].

Definition MATHML_TYPES : list ASTNodeType_t :=
  [ AST_FUNCTION_ABS; AST_LOGICAL_AND; AST_UNKNOWN; AST_UNKNOWN; AST_FUNCTION
  ; AST_FUNCTION_ARCCOS; AST_FUNCTION_ARCCOSH; AST_FUNCTION_ARCCOT
  ; AST_FUNCTION_ARCCOTH; AST_FUNCTION_ARCCSC; AST_FUNCTION_ARCCSCH
  ; AST_FUNCTION_ARCSEC; AST_FUNCTION_ARCSECH; AST_FUNCTION_ARCSIN
  ; AST_FUNCTION_ARCSINH; AST_FUNCTION_ARCTAN; AST_FUNCTION_ARCTANH
  ; AST_UNKNOWN; AST_FUNCTION_CEILING; AST_NAME; AST_CSYMBOL_FUNCTION
  ; AST_FUNCTION_COS; AST_FUNCTION_COSH; AST_FUNCTION_COT; AST_FUNCTION_COTH
  ; AST_FUNCTION_CSC; AST_FUNCTION_CSCH; AST_NAME; AST_UNKNOWN; AST_DIVIDE
  ; AST_RELATIONAL_EQ; AST_FUNCTION_EXP; AST_CONSTANT_E; AST_FUNCTION_FACTORIAL
  ; AST_CONSTANT_FALSE; AST_FUNCTION_FLOOR; AST_RELATIONAL_GEQ
  ; AST_RELATIONAL_GT; AST_REAL; AST_LAMBDA; AST_RELATIONAL_LEQ
  ; AST_FUNCTION_LN; AST_FUNCTION_LOG; AST_UNKNOWN; AST_RELATIONAL_LT
  ; AST_UNKNOWN; AST_MINUS; AST_RELATIONAL_NEQ; AST_LOGICAL_NOT; AST_REAL
  ; AST_LOGICAL_OR; AST_UNKNOWN; AST_CONSTANT_PI; AST_UNKNOWN
  ; AST_FUNCTION_PIECEWISE; AST_PLUS; AST_FUNCTION_POWER; AST_FUNCTION_ROOT
  ; AST_FUNCTION_SEC; AST_FUNCTION_SECH; AST_UNKNOWN; AST_UNKNOWN
  ; AST_FUNCTION_SIN; AST_FUNCTION_SINH; AST_FUNCTION_TAN; AST_FUNCTION_TANH
  ; AST_TIMES; AST_CONSTANT_TRUE; AST_LOGICAL_XOR ].

(** [sizeof(MATHML_ELEMENTS) / sizeof(MATHML_ELEMENTS[0])]. *)
Definition size : Z := Z.of_nat (List.length MATHML_ELEMENTS).

(* ====================================================================== *)
(** ** Diagnostics                                                         *)
(* ====================================================================== *)

(** Modelled from the spec: the codes of [SBMLErrorCode_t] that
    [MathML.cpp] posts (SBMLError.h is not in src), and [XMLParseError]
    for what the XML layer itself reports.  [readMathMLFromString] tests
    the log for the number 10218, which its comment identifies as the
    piece/otherwise child-count code, [OpsNeedCorrectNumberOfArgs]. *)
Inductive SBMLErrorCode_t : Type :=
  | InvalidMathElement | DisallowedMathMLSymbol | DisallowedMathMLEncodingUse
  | DisallowedDefinitionURLUse | BadCsymbolDefinitionURLValue
  | DisallowedMathTypeAttributeUse | DisallowedMathTypeAttributeValue
  | OpsNeedCorrectNumberOfArgs | DisallowedMathUnitsUse | InvalidUnitIdSyntax
  | BadMathML | FailedMathMLReadOfDouble | FailedMathMLReadOfInteger
  | FailedMathMLReadOfExponential | FailedMathMLReadOfRational
  | BadMathMLNodeType | InvalidMathMLAttribute
  | XMLParseError (n : Z).

Definition error_code (c : SBMLErrorCode_t) : Z :=
  match c with
  | InvalidMathElement => 10201
  | DisallowedMathMLSymbol => 10202
  | DisallowedMathMLEncodingUse => 10203
  | DisallowedDefinitionURLUse => 10204
  | BadCsymbolDefinitionURLValue => 10205
  | DisallowedMathTypeAttributeUse => 10206
  | DisallowedMathTypeAttributeValue => 10207
  | OpsNeedCorrectNumberOfArgs => 10218
  | DisallowedMathUnitsUse => 10220
  | InvalidUnitIdSyntax => 10311
  | BadMathML => 99219
  | FailedMathMLReadOfDouble => 99220
  | FailedMathMLReadOfInteger => 99221
  | FailedMathMLReadOfExponential => 99222
  | FailedMathMLReadOfRational => 99223
  | BadMathMLNodeType => 99224
  | InvalidMathMLAttribute => 99225
  | XMLParseError n => n
  end.

(** Modelled from the spec: [SBMLError] and [SBMLErrorLog] (sbml/SBMLError
    and sbml/SBMLErrorLog are not in src).  One record of the log; the
    line and column of the token are not kept. *)
Record SBMLError : Type := mkSBMLError {
  err_id : SBMLErrorCode_t;
  err_level : Z;
  err_version : Z;
  err_message : string
}.

Definition SBMLErrorLog : Type := list SBMLError.

(** [XMLErrorLog::getNumErrors] and [XMLErrorLog::contains]. *)
Definition getNumErrors (log : SBMLErrorLog) : Z := Z.of_nat (List.length log).

Definition contains (log : SBMLErrorLog) (errorId : Z) : bool :=
  existsb (fun e => error_code (err_id e) =? errorId) log.

(** Modelled from the spec: [SBMLNamespaces] (not in src), the level and
    version of a namespace context.  [SBML_DEFAULT_LEVEL] and
    [SBML_DEFAULT_VERSION] are taken as the level and version that
    [readMathML] itself assumes when no context is set, 3 and 2. *)
Record SBMLNamespaces : Type := mkSBMLNamespaces {
  ns_level : Z;
  ns_version : Z
}.

Definition SBML_DEFAULT_LEVEL : Z := 3.
Definition SBML_DEFAULT_VERSION : Z := 2.

(* ====================================================================== *)
(** ** XML tokens and the input stream                                     *)
(* ====================================================================== *)

(** Modelled from the spec: [XMLAttributes], [XMLToken] and
    [XMLInputStream] (sbml/xml is not in src), the token-stream
    abstraction of section 6.  An attribute is its local name and value;
    an element written [<a/>] or [<a></a>] is one token that is both start
    and end; the end-of-file token is neither start, end nor text;
    namespace URIs, lines and columns are not kept. *)
Definition XMLAttributes : Type := list (string * string).

Fixpoint getValue (attrs : XMLAttributes) (name : string) : option string :=
  match attrs with
  | [] => None
  | (k, v) :: rest => if String.eqb k name then Some v else getValue rest name
  end.

(** [attributes.readInto(name, value)]: [value] is overwritten only when
    the attribute is present. *)
Definition readInto (attrs : XMLAttributes) (name : string) (value : string) : string :=
  match getValue attrs name with
  | Some v => v
  | None => value
  end.

Definition hasAttribute (attrs : XMLAttributes) (name : string) : bool :=
  match getValue attrs name with
  | Some _ => true
  | None => false
  end.

(** [attributes.getValue(0)]: the value of the first attribute, empty when
    there is none. *)
Definition getValue0 (attrs : XMLAttributes) : string :=
  match attrs with
  | [] => ""
  | (_, v) :: _ => v
  end.

(** What a token is: a start tag, an end tag, an element that is start
    and end at once, character data, or the end of the input. *)
Inductive XMLTokenKind : Type :=
  | TokStart | TokEnd | TokStartEnd | TokText | TokEOF.

Record XMLToken : Type := mkXMLToken {
  tok_name : string;
  tok_prefix : string;
  tok_attributes : XMLAttributes;
  tok_characters : string;
  tok_kind : XMLTokenKind
}.

(** [isStart], [isEnd] and [isText]. *)
Definition tok_isStart (t : XMLToken) : bool :=
  match tok_kind t with TokStart | TokStartEnd => true | _ => false end.
Definition tok_isEnd (t : XMLToken) : bool :=
  match tok_kind t with TokEnd | TokStartEnd => true | _ => false end.
Definition tok_isText (t : XMLToken) : bool :=
  match tok_kind t with TokText => true | _ => false end.

Definition EOF_token : XMLToken := mkXMLToken "" "" [] "" TokEOF.

Definition start_token (name : string) (attrs : XMLAttributes) : XMLToken :=
  mkXMLToken name "" attrs "" TokStart.
Definition end_token (name : string) : XMLToken :=
  mkXMLToken name "" [] "" TokEnd.
Definition empty_token (name : string) (attrs : XMLAttributes) : XMLToken :=
  mkXMLToken name "" attrs "" TokStartEnd.
Definition text_token (chars : string) : XMLToken :=
  mkXMLToken "" "" [] chars TokText.

(** [XMLToken::isEndFor]. *)
Definition isEndFor (t element : XMLToken) : bool :=
  tok_isEnd t && negb (tok_isStart t) && tok_isStart element
  && String.eqb (tok_name element) (tok_name t).

(** An opaque subtree read by [XMLNode(stream)], kept as its tokens in
    document order. *)
Definition XMLNode : Type := list XMLToken.

(* ====================================================================== *)
(** ** Expression nodes                                                    *)
(* ====================================================================== *)

(** Modelled from the spec: [ASTNode] (sbml/math/ASTNode is not in src),
    the Expression Node of section 3 with the accessors and mutators that
    [MathML.cpp] calls.  [mDefinitionURL] is the attribute bag the class
    keeps (never NULL); a node made by [new ASTNode] is [new_ASTNode]. *)
#[warnings="-register-all"]
Inductive ASTNode : Type := mkASTNode {
  mType : ASTNodeType_t;
  mInteger : Z;
  mReal : float;
  mDenominator : Z;
  mExponent : Z;
  mName : option string;
  mDefinitionURL : XMLAttributes;
  mUnits : string;
  mId : string;
  mClass : string;
  mStyle : string;
  mIsBvar : bool;
  mSemanticsFlag : bool;
  mSemanticsAnnotations : list XMLNode;
  mChildren : list ASTNode
}.

Definition ASTNode_of_type (t : ASTNodeType_t) : ASTNode :=
  mkASTNode t 0 zero 1 0 None [] "" "" "" "" false false [] [].

Definition new_ASTNode : ASTNode := ASTNode_of_type AST_UNKNOWN.

Definition getType (n : ASTNode) : ASTNodeType_t := mType n.
Definition getNumChildren (n : ASTNode) : Z := Z.of_nat (List.length (mChildren n)).
Definition getChild (n : ASTNode) (i : Z) : option ASTNode :=
  if i <? 0 then None else nth_error (mChildren n) (Z.to_nat i).
Definition getLeftChild (n : ASTNode) : option ASTNode := getChild n 0.
Definition getRightChild (n : ASTNode) : option ASTNode :=
  let nc := getNumChildren n in
  if nc >? 1 then getChild n (nc - 1) else None.

Definition ASTNode_setType (n : ASTNode) (t : ASTNodeType_t) : ASTNode :=
  mkASTNode t (mInteger n) (mReal n) (mDenominator n) (mExponent n) (mName n)
    (mDefinitionURL n) (mUnits n) (mId n) (mClass n) (mStyle n) (mIsBvar n)
    (mSemanticsFlag n) (mSemanticsAnnotations n) (mChildren n).

Definition setChildren (n : ASTNode) (cs : list ASTNode) : ASTNode :=
  mkASTNode (mType n) (mInteger n) (mReal n) (mDenominator n) (mExponent n)
    (mName n) (mDefinitionURL n) (mUnits n) (mId n) (mClass n) (mStyle n)
    (mIsBvar n) (mSemanticsFlag n) (mSemanticsAnnotations n) cs.

(** [setValue(int)], [setValue(double)], [setValue(double, long)] and
    [setValue(long, long)]. *)
Definition setValue_int (n : ASTNode) (value : Z) : ASTNode :=
  mkASTNode AST_INTEGER value (mReal n) (mDenominator n) (mExponent n) (mName n)
    (mDefinitionURL n) (mUnits n) (mId n) (mClass n) (mStyle n) (mIsBvar n)
    (mSemanticsFlag n) (mSemanticsAnnotations n) (mChildren n).

Definition setValue_double (n : ASTNode) (value : float) : ASTNode :=
  mkASTNode AST_REAL (mInteger n) value (mDenominator n) 0 (mName n)
    (mDefinitionURL n) (mUnits n) (mId n) (mClass n) (mStyle n) (mIsBvar n)
    (mSemanticsFlag n) (mSemanticsAnnotations n) (mChildren n).

Definition setValue_e (n : ASTNode) (mantissa : float) (exponent : Z) : ASTNode :=
  mkASTNode AST_REAL_E (mInteger n) mantissa (mDenominator n) exponent (mName n)
    (mDefinitionURL n) (mUnits n) (mId n) (mClass n) (mStyle n) (mIsBvar n)
    (mSemanticsFlag n) (mSemanticsAnnotations n) (mChildren n).

Definition setValue_rational (n : ASTNode) (numerator denominator : Z) : ASTNode :=
  mkASTNode AST_RATIONAL numerator (mReal n) denominator (mExponent n) (mName n)
    (mDefinitionURL n) (mUnits n) (mId n) (mClass n) (mStyle n) (mIsBvar n)
    (mSemanticsFlag n) (mSemanticsAnnotations n) (mChildren n).

Definition isOperator (n : ASTNode) : bool :=
  match mType n with
  | AST_PLUS | AST_MINUS | AST_TIMES | AST_DIVIDE | AST_POWER => true
  | _ => false
  end.
Definition isInteger (n : ASTNode) : bool := type_eqb (mType n) AST_INTEGER.
Definition isRational (n : ASTNode) : bool := type_eqb (mType n) AST_RATIONAL.
Definition isReal (n : ASTNode) : bool :=
  match mType n with
  | AST_REAL | AST_REAL_E | AST_RATIONAL => true
  | _ => false
  end.
Definition isNumber (n : ASTNode) : bool := isInteger n || isReal n.
Definition isName (n : ASTNode) : bool :=
  match mType n with
  | AST_NAME | AST_NAME_AVOGADRO | AST_NAME_TIME => true
  | _ => false
  end.
Definition isConstant (n : ASTNode) : bool :=
  match mType n with
  | AST_CONSTANT_E | AST_CONSTANT_FALSE | AST_CONSTANT_PI | AST_CONSTANT_TRUE
  | AST_NAME_AVOGADRO => true
  | _ => false
  end.
Definition isLambda (n : ASTNode) : bool := type_eqb (mType n) AST_LAMBDA.
Definition isPiecewise (n : ASTNode) : bool := type_eqb (mType n) AST_FUNCTION_PIECEWISE.
Definition isUnknown (n : ASTNode) : bool := type_eqb (mType n) AST_UNKNOWN.
Definition isBvar (n : ASTNode) : bool := mIsBvar n.
Definition getSemanticsFlag (n : ASTNode) : bool := mSemanticsFlag n.

(** [(double) z] and [pow(10.0, e)], both rounded to nearest. *)
Definition long_to_double (z : Z) : float :=
  if z <? 0 then (- SF2Prim (binary_normalize prec emax (- z) 0 false))%float
  else SF2Prim (binary_normalize prec emax z 0 false).
Definition pow10 (e : Z) : float := decimal_to_double false 1 e.

Definition getReal (n : ASTNode) : float :=
  match mType n with
  | AST_REAL_E => (mReal n * pow10 (mExponent n))%float
  | AST_RATIONAL => (long_to_double (mInteger n) / long_to_double (mDenominator n))%float
  | _ => mReal n
  end.
Definition getMantissa (n : ASTNode) : float := mReal n.
Definition getExponent (n : ASTNode) : Z := mExponent n.
Definition getInteger (n : ASTNode) : Z := mInteger n.
Definition getNumerator (n : ASTNode) : Z := mInteger n.
Definition getDenominator (n : ASTNode) : Z := mDenominator n.
Definition getUnits (n : ASTNode) : string := mUnits n.

Definition isInfinity (n : ASTNode) : bool :=
  isReal n && (getReal n =? infinity)%float.
Definition isNegInfinity (n : ASTNode) : bool :=
  isReal n && (getReal n =? neg_infinity)%float.
Definition isNaN (n : ASTNode) : bool :=
  isReal n && is_nan (getReal n).

(** The name of a node: the one set, or for the four constants the
    element name the class supplies. *)
Definition getName (n : ASTNode) : option string :=
  match mName n with
  | Some s => Some s
  | None =>
      match mType n with
      | AST_CONSTANT_E => Some "exponentiale"
      | AST_CONSTANT_FALSE => Some "false"
      | AST_CONSTANT_PI => Some "pi"
      | AST_CONSTANT_TRUE => Some "true"
      | _ => None
      end
  end.

(** [setName]: a node that is an operator, a number or of unknown kind
    becomes a plain name; this is how a [<ci>] gets the kind [AST_NAME]. *)
Definition setName (n : ASTNode) (name : string) : ASTNode :=
  let t := if isOperator n || isNumber n || isUnknown n then AST_NAME else mType n in
  mkASTNode t (mInteger n) (mReal n) (mDenominator n) (mExponent n) (Some name)
    (mDefinitionURL n) (mUnits n) (mId n) (mClass n) (mStyle n) (mIsBvar n)
    (mSemanticsFlag n) (mSemanticsAnnotations n) (mChildren n).

Definition setDefinitionURL (n : ASTNode) (url : XMLAttributes) : ASTNode :=
  mkASTNode (mType n) (mInteger n) (mReal n) (mDenominator n) (mExponent n)
    (mName n) url (mUnits n) (mId n) (mClass n) (mStyle n) (mIsBvar n)
    (mSemanticsFlag n) (mSemanticsAnnotations n) (mChildren n).

(** [setDefinitionURL(const std::string&)]. *)
Definition setDefinitionURL_string (n : ASTNode) (url : string) : ASTNode :=
  setDefinitionURL n [("definitionURL", url)].

Definition getDefinitionURLString (n : ASTNode) : string :=
  readInto (mDefinitionURL n) "definitionURL" "".

Definition is_sid_start (c : ascii) : bool :=
  let k := nat_of_ascii c in
  (((65 <=? k) && (k <=? 90)) || ((97 <=? k) && (k <=? 122)) || (k =? 95))%nat.
Definition is_sid_char (c : ascii) : bool :=
  let k := nat_of_ascii c in
  (is_sid_start c || ((48 <=? k) && (k <=? 57)))%nat.
Fixpoint all_chars (p : ascii -> bool) (s : string) : bool :=
  match s with
  | EmptyString => true
  | String c r => p c && all_chars p r
  end.

(** Modelled from the spec: [SyntaxChecker::isValidInternalUnitSId]
    (SyntaxChecker is not in src): the empty string, or a letter or
    underscore followed by letters, digits and underscores. *)
Definition isValidInternalUnitSId (s : string) : bool :=
  match s with
  | EmptyString => true
  | String c r => is_sid_start c && all_chars is_sid_char r
  end.

(** [setUnits]: refused unless the node is a number and the text is a
    valid unit identifier. *)
Definition setUnits (n : ASTNode) (units : string) : ASTNode :=
  if isNumber n && isValidInternalUnitSId units then
    mkASTNode (mType n) (mInteger n) (mReal n) (mDenominator n) (mExponent n)
      (mName n) (mDefinitionURL n) units (mId n) (mClass n) (mStyle n)
      (mIsBvar n) (mSemanticsFlag n) (mSemanticsAnnotations n) (mChildren n)
  else n.

Definition setId (n : ASTNode) (id : string) : ASTNode :=
  mkASTNode (mType n) (mInteger n) (mReal n) (mDenominator n) (mExponent n)
    (mName n) (mDefinitionURL n) (mUnits n) id (mClass n) (mStyle n)
    (mIsBvar n) (mSemanticsFlag n) (mSemanticsAnnotations n) (mChildren n).
Definition setClass (n : ASTNode) (className : string) : ASTNode :=
  mkASTNode (mType n) (mInteger n) (mReal n) (mDenominator n) (mExponent n)
    (mName n) (mDefinitionURL n) (mUnits n) (mId n) className (mStyle n)
    (mIsBvar n) (mSemanticsFlag n) (mSemanticsAnnotations n) (mChildren n).
Definition setStyle (n : ASTNode) (style : string) : ASTNode :=
  mkASTNode (mType n) (mInteger n) (mReal n) (mDenominator n) (mExponent n)
    (mName n) (mDefinitionURL n) (mUnits n) (mId n) (mClass n) style
    (mIsBvar n) (mSemanticsFlag n) (mSemanticsAnnotations n) (mChildren n).
Definition setBvar (n : ASTNode) : ASTNode :=
  mkASTNode (mType n) (mInteger n) (mReal n) (mDenominator n) (mExponent n)
    (mName n) (mDefinitionURL n) (mUnits n) (mId n) (mClass n) (mStyle n)
    true (mSemanticsFlag n) (mSemanticsAnnotations n) (mChildren n).
Definition setSemanticsFlag (n : ASTNode) : ASTNode :=
  mkASTNode (mType n) (mInteger n) (mReal n) (mDenominator n) (mExponent n)
    (mName n) (mDefinitionURL n) (mUnits n) (mId n) (mClass n) (mStyle n)
    (mIsBvar n) true (mSemanticsAnnotations n) (mChildren n).
Definition addSemanticsAnnotation (n : ASTNode) (a : XMLNode) : ASTNode :=
  mkASTNode (mType n) (mInteger n) (mReal n) (mDenominator n) (mExponent n)
    (mName n) (mDefinitionURL n) (mUnits n) (mId n) (mClass n) (mStyle n)
    (mIsBvar n) (mSemanticsFlag n) (mSemanticsAnnotations n ++ [a]) (mChildren n).

Definition isSetId (n : ASTNode) : bool := negb (String.eqb (mId n) "").
Definition isSetClass (n : ASTNode) : bool := negb (String.eqb (mClass n) "").
Definition isSetStyle (n : ASTNode) : bool := negb (String.eqb (mStyle n) "").

Definition addChild (n child : ASTNode) : ASTNode := setChildren n (mChildren n ++ [child]).
Definition prependChild (n child : ASTNode) : ASTNode := setChildren n (child :: mChildren n).

(** [node.swapChildren(that)] exchanges the two child lists; the pair is
    ([node], [that]) afterwards. *)
Definition swapChildren (n that : ASTNode) : ASTNode * ASTNode :=
  (setChildren n (mChildren that), setChildren that (mChildren n)).

(** [hasUnits]: this node or one below it carries units. *)
Fixpoint hasUnits (n : ASTNode) : bool :=
  match n with
  | mkASTNode _ _ _ _ _ _ _ units _ _ _ _ _ _ cs =>
      negb (String.eqb units "") || existsb hasUnits cs
  end.

(* ====================================================================== *)
(** ** The input stream                                                    *)
(* ====================================================================== *)

(** Modelled from the spec: [XMLInputStream] (sbml/xml is not in src).
    The stream is the queue of tokens still to be delivered, the error
    log it posts to and the namespace context set on it.  The
    process-wide [DefinitionURLRegistry] travels in the same record. *)
Record XMLInputStream : Type := mkXMLInputStream {
  mTokens : list XMLToken;
  mErrorLog : SBMLErrorLog;
  mSBMLns : option SBMLNamespaces;
  mDefinitionURLs : list (string * ASTNodeType_t)
}.

Definition with_tokens (s : XMLInputStream) (toks : list XMLToken) : XMLInputStream :=
  mkXMLInputStream toks (mErrorLog s) (mSBMLns s) (mDefinitionURLs s).
Definition with_log (s : XMLInputStream) (log : SBMLErrorLog) : XMLInputStream :=
  mkXMLInputStream (mTokens s) log (mSBMLns s) (mDefinitionURLs s).

Definition getSBMLNamespaces (s : XMLInputStream) : option SBMLNamespaces := mSBMLns s.
Definition isGood (s : XMLInputStream) : bool :=
  match mTokens s with [] => false | _ :: _ => true end.
Definition peek (s : XMLInputStream) : XMLToken := hd EOF_token (mTokens s).
Definition next (s : XMLInputStream) : XMLToken * XMLInputStream :=
  (peek s, with_tokens s (tl (mTokens s))).

Fixpoint drop_text (toks : list XMLToken) : list XMLToken :=
  match toks with
  | t :: rest => if tok_isText t then drop_text rest else toks
  | [] => []
  end.

(** [skipText]: consume text tokens up to the next element token. *)
Definition skipText (s : XMLInputStream) : XMLInputStream :=
  with_tokens s (drop_text (mTokens s)).

Fixpoint drop_until_end (element : XMLToken) (toks : list XMLToken) : list XMLToken :=
  match toks with
  | t :: rest => if isEndFor t element then toks else drop_until_end element rest
  | [] => []
  end.

(** [skipPastEnd]: nothing for an element that is its own end; otherwise
    consume up to and including the first end token of that name. *)
Definition skipPastEnd (s : XMLInputStream) (element : XMLToken) : XMLInputStream :=
  if tok_isEnd element then s
  else with_tokens s (tl (drop_until_end element (mTokens s))).

(** Modelled from the spec: [DefinitionURLRegistry] (not in src), its
    [getType] and [addDefinitionURL], and the definitions
    [addSBMLDefinitions] registers. *)
Fixpoint registry_getType (reg : list (string * ASTNodeType_t)) (url : string) : ASTNodeType_t :=
  match reg with
  | [] => AST_UNKNOWN
  | (u, t) :: rest => if String.eqb u url then t else registry_getType rest url
  end.

Definition addDefinitionURL (reg : list (string * ASTNodeType_t)) (url : string)
    (t : ASTNodeType_t) : list (string * ASTNodeType_t) :=
  if existsb (fun e => String.eqb (fst e) url) reg then reg else reg ++ [(url, t)].

Definition addSBMLDefinitions (reg : list (string * ASTNodeType_t)) : list (string * ASTNodeType_t) :=
  addDefinitionURL
    (addDefinitionURL
      (addDefinitionURL
        (addDefinitionURL reg URL_TIME AST_NAME_TIME)
        URL_DELAY AST_FUNCTION_DELAY)
      URL_AVOGADRO AST_NAME_AVOGADRO)
    "http://www.sbml.org/sbml/symbols/rateOf" AST_FUNCTION_RATE_OF.

(* ====================================================================== *)
(** ** MathML input                                                        *)
(* ====================================================================== *)

(** [logError]: one record on the stream's log, at the level and version
    of the namespace context or at the defaults. *)
Definition logError (stream : XMLInputStream) (element : XMLToken)
    (code : SBMLErrorCode_t) (msg : string) : XMLInputStream :=
  match getSBMLNamespaces stream with
  | Some ns =>
      with_log stream (mErrorLog stream ++ [mkSBMLError code (ns_level ns) (ns_version ns) msg])
  | None =>
      with_log stream
        (mErrorLog stream ++ [mkSBMLError code SBML_DEFAULT_LEVEL SBML_DEFAULT_VERSION msg])
  end.

(** Missing arguments get the defaults of the MathML 2.0 specification:
    log (x) -> log (10, x), root(x) -> root(2, x). *)
Definition checkFunctionArgs (node : ASTNode) : ASTNode :=
  if getNumChildren node =? 1 then
    if type_eqb (getType node) AST_FUNCTION_LOG then
      let child := new_ASTNode in
      let child := setValue_int child 10 in
      let child := setUnits child "dimensionless" in
      prependChild node child
    else if type_eqb (getType node) AST_FUNCTION_ROOT then
      let child := new_ASTNode in
      let child := setValue_int child 2 in
      let child := setUnits child "dimensionless" in
      prependChild node child
    else node
  else node.

(** Part of the n-ary to binary reduction of [<plus/>] and [<times/>]. *)
Definition reduceBinary (node : ASTNode) : ASTNode :=
  if getNumChildren node =? 2 then
    let op := ASTNode_of_type (getType node) in
    let '(node, op) := swapChildren node op in
    prependChild node op
  else node.

Definition isValidCSymbol (sbmlns : option SBMLNamespaces) (type : ASTNodeType_t) : bool :=
  match sbmlns with
  | None => true
  | Some ns =>
      let level := ns_level ns in
      if level <? 2 then false
      else if (level <? 3)
              && (type_eqb type AST_NAME_AVOGADRO || type_eqb type AST_FUNCTION_RATE_OF)
      then false
      else true
  end.

(** Sets the type of a node from a [<ci>] or [<csymbol>] element and reads
    the following text as its name. *)
Definition setTypeCI (node : ASTNode) (element : XMLToken) (stream : XMLInputStream)
    : ASTNode * XMLInputStream :=
  let '(node, stream) :=
    if String.eqb (tok_name element) "csymbol" then
      let url := readInto (tok_attributes element) "definitionURL" "" in
      let type := registry_getType (mDefinitionURLs stream) url in
      if (match getSBMLNamespaces stream with None => true | Some _ => false end)
         && type_eqb type AST_UNKNOWN
      then
        (* old behaviour where an unknown type was logged as just csymbol *)
        (setDefinitionURL_string (ASTNode_setType node AST_CSYMBOL_FUNCTION) url, stream)
      else if type_eqb type AST_UNKNOWN
              || negb (isValidCSymbol (getSBMLNamespaces stream) type)
      then (node, logError stream element BadCsymbolDefinitionURLValue "")
      else
        let node := ASTNode_setType node type in
        (if type_eqb type AST_CSYMBOL_FUNCTION || (type_code type >? type_code AST_UNKNOWN)
         then setDefinitionURL_string node url else node, stream)
    else if String.eqb (tok_name element) "ci" then
      if hasAttribute (tok_attributes element) "definitionURL"
      then (setDefinitionURL node (tok_attributes element), stream)
      else (node, stream)
    else (node, stream) in
  let '(t, stream) := next stream in
  let name := trim (tok_characters t) in
  (setName node name, stream).

(** Sets the type and value of a node from a [<cn>] element. *)
Definition setTypeCN (node : ASTNode) (element : XMLToken) (stream : XMLInputStream)
    : ASTNode * XMLInputStream :=
  let type := readInto (tok_attributes element) "type" "real" in
  let units := readInto (tok_attributes element) "units" "" in
  let stream :=
    if negb (isValidInternalUnitSId units) then
      logError stream element InvalidUnitIdSyntax
        ("The units attribute '" +++ units +++ "' does not conform to the syntax.")
    else stream in
  let '(node, stream) :=
    if String.eqb type "real" then
      let '(t, stream) := next stream in
      let isreal := extract_double (tok_characters t) in
      let node := setValue_double node (ex_value isreal) in
      if ex_fail isreal || isInfinity node || isNegInfinity node
      then (node, logError stream element FailedMathMLReadOfDouble "")
      else (node, stream)
    else if String.eqb type "integer" then
      let '(t, stream) := next stream in
      let isint := extract_int (tok_characters t) in
      let value := ex_value isint in
      let stream :=
        if ex_fail isint then logError stream element FailedMathMLReadOfInteger ""
        else if (sizeof_int >? 4) && ((value >? SBML_INT_MAX) || (value <? SBML_INT_MIN))
        then logError stream element FailedMathMLReadOfInteger ""
        else stream in
      (setValue_int node value, stream)
    else if String.eqb type "e-notation" then
      let '(t, stream) := next stream in
      let ismantissa := extract_double (tok_characters t) in
      let '(isexponent, stream) :=
        if String.eqb (tok_name (peek stream)) "sep" then
          let '(_, stream) := next stream in
          let '(t2, stream) := next stream in
          (extract_long (tok_characters t2), stream)
        else (not_extracted 0, stream) in
      let node := setValue_e node (ex_value ismantissa) (ex_value isexponent) in
      if ex_fail ismantissa || ex_fail isexponent || isInfinity node || isNegInfinity node
      then (node, logError stream element FailedMathMLReadOfExponential "")
      else (node, stream)
    else if String.eqb type "rational" then
      let '(t, stream) := next stream in
      let isnumerator := extract_int (tok_characters t) in
      let '(isdenominator, stream) :=
        if String.eqb (tok_name (peek stream)) "sep" then
          let '(_, stream) := next stream in
          let '(t2, stream) := next stream in
          (extract_int (tok_characters t2), stream)
        else (not_extracted 1, stream) in
      let numerator := ex_value isnumerator in
      let denominator := ex_value isdenominator in
      let stream :=
        if ex_fail isnumerator || ex_fail isdenominator
        then logError stream element FailedMathMLReadOfRational ""
        else if (sizeof_int >? 4)
                && (((numerator >? SBML_INT_MAX) || (numerator <? SBML_INT_MIN))
                    || ((denominator >? SBML_INT_MAX) || (denominator <? SBML_INT_MIN)))
        then logError stream element FailedMathMLReadOfRational ""
        else stream in
      (setValue_rational node numerator denominator, stream)
    else (node, logError stream element DisallowedMathTypeAttributeValue "") in
  if negb (String.eqb units "") then (setUnits node units, stream) else (node, stream).

(** Sets the type of a node from any other element, by the static tables. *)
Definition setTypeOther (node : ASTNode) (element : XMLToken) (stream : XMLInputStream)
    : ASTNode * XMLInputStream :=
  let name := tok_name element in
  let index := util_bsearchStringsI MATHML_ELEMENTS name 0 (size - 1) in
  let found := index <? size in
  if found then (ASTNode_setType node (nth (Z.to_nat index) MATHML_TYPES AST_UNKNOWN), stream)
  else (node, stream).

Definition setType (node : ASTNode) (element : XMLToken) (stream : XMLInputStream)
    : ASTNode * XMLInputStream :=
  let name := tok_name element in
  if String.eqb name "ci" || String.eqb name "csymbol" then setTypeCI node element stream
  else if String.eqb name "cn" then setTypeCN node element stream
  else if String.eqb name "notanumber" then (setValue_double node nan, stream)
  else if String.eqb name "infinity" then (setValue_double node infinity, stream)
  else setTypeOther node element stream.

(** The tags that may follow [<math>]. *)
Definition isMathMLNodeTag (name : string) : bool :=
  String.eqb name "apply" || String.eqb name "cn" || String.eqb name "ci"
  || String.eqb name "csymbol" || String.eqb name "true" || String.eqb name "false"
  || String.eqb name "notanumber" || String.eqb name "pi" || String.eqb name "infinity"
  || String.eqb name "exponentiale" || String.eqb name "semantics"
  || String.eqb name "piecewise".

(** [XMLNode(stream)]: the next token and, unless it is its own end, the
    tokens below it up to the end token that closes it. *)
Fixpoint take_children (depth : nat) (toks : list XMLToken) : list XMLToken * list XMLToken :=
  match toks with
  | [] => ([], [])
  | t :: rest =>
      if tok_isStart t then
        let '(a, b) := take_children (if tok_isEnd t then depth else S depth) rest in
        (t :: a, b)
      else if tok_isEnd t then
        match depth with
        | O => ([t], rest)
        | S d => let '(a, b) := take_children d rest in (t :: a, b)
        end
      else let '(a, b) := take_children depth rest in (t :: a, b)
  end.

Definition XMLNode_read (stream : XMLInputStream) : XMLNode * XMLInputStream :=
  let '(t, stream) := next stream in
  if tok_isEnd t then ([t], stream)
  else
    let '(a, b) := take_children O (mTokens stream) in
    (t :: a, with_tokens stream b).

(** The loop of the [semantics] branch of [readMathML]: the annotations
    that follow the content child.  Every turn consumes a token, so [n]
    turns suffice for [n] tokens. *)
Fixpoint readSemanticsAnnotations (n : nat) (node : ASTNode) (stream : XMLInputStream)
    (elem : XMLToken) : ASTNode * XMLInputStream :=
  match n with
  | O => (node, stream)
  | S n' =>
      if isGood stream && negb (isEndFor (peek stream) elem) then
        let element1 := peek stream in
        let name := tok_name element1 in
        let stream :=
          if isMathMLNodeTag name && tok_isStart element1 then
            let stream :=
              logError stream element1 InvalidMathElement
                ("Unexpected element encountered. The element <" +++ name
                 +++ "> should not be encountered here.") in
            skipPastEnd stream element1
          else stream in
        if String.eqb (tok_name (peek stream)) "annotation"
           || String.eqb (tok_name (peek stream)) "annotation-xml"
        then
          let '(semanticAnnotation, stream) := XMLNode_read stream in
          readSemanticsAnnotations n' (addSemanticsAnnotation node semanticAnnotation) stream elem
        else
          let '(_, stream) := next stream in
          readSemanticsAnnotations n' node stream elem
      else (node, stream)
  end.

(** The checks of [readMathML] on the attributes of an element: [type]
    only on [cn], [encoding] only on [csymbol], [definitionURL] and
    [units] by level and version. *)
Definition checkAttributes (stream : XMLInputStream) (elem : XMLToken) (level version : Z)
    : XMLInputStream :=
  let name := tok_name elem in
  let encoding := readInto (tok_attributes elem) "encoding" "" in
  let type := readInto (tok_attributes elem) "type" "" in
  let url := readInto (tok_attributes elem) "definitionURL" "" in
  let units := readInto (tok_attributes elem) "units" "" in
  let stream :=
    if negb (String.eqb type "") && negb (String.eqb name "cn")
    then logError stream elem DisallowedMathTypeAttributeUse ""
    else stream in
  let stream :=
    if negb (String.eqb encoding "") && negb (String.eqb name "csymbol")
    then logError stream elem DisallowedMathMLEncodingUse ""
    else stream in
  let stream :=
    if negb (String.eqb url "") then
      if level >? 2 then
        if negb (String.eqb name "csymbol") && negb (String.eqb name "semantics")
           && negb (String.eqb name "ci")
        then logError stream elem DisallowedDefinitionURLUse ""
        else stream
      else if (level =? 2) && (version =? 5) then
        if negb (String.eqb name "csymbol") && negb (String.eqb name "semantics")
           && negb (String.eqb name "ci")
        then logError stream elem DisallowedDefinitionURLUse ""
        else stream
      else
        if negb (String.eqb name "csymbol") && negb (String.eqb name "semantics")
        then logError stream elem DisallowedDefinitionURLUse ""
        else stream
    else stream in
  if negb (String.eqb units "") then
    if level >? 2 then
      if negb (String.eqb name "cn")
      then logError stream elem DisallowedMathUnitsUse ""
      else stream
    else logError stream elem InvalidMathMLAttribute ""
  else stream.

(** The [id], [class] and [style] attributes of an element, set on the
    node when present and not empty. *)
Definition readIdClassStyle (node : ASTNode) (elem : XMLToken) : ASTNode :=
  let id := readInto (tok_attributes elem) "id" "" in
  let className := readInto (tok_attributes elem) "class" "" in
  let style := readInto (tok_attributes elem) "style" "" in
  let node := if negb (String.eqb id "") then setId node id else node in
  let node := if negb (String.eqb className "") then setClass node className else node in
  if negb (String.eqb style "") then setStyle node style else node.

(** The statements of [readMathML] after the dispatch on the element
    name: the default arguments, the check of [otherwise], and the skip
    past the end of the element. *)
Definition readMathML_finish (node : ASTNode) (stream : XMLInputStream) (elem : XMLToken)
    : ASTNode * XMLInputStream :=
  let node := checkFunctionArgs node in
  let stream :=
    if String.eqb (tok_name elem) "otherwise" then
      let stream := skipText stream in
      if negb (isEndFor (peek stream) elem)
      then logError stream elem OpsNeedCorrectNumberOfArgs
             "The <otherwise> element should have one child element."
      else stream
    else stream in
  (node, skipPastEnd stream elem).

(** What the code after reading the operator of an [apply] does with it:
    [Some] of the stream after the diagnostic when the node cannot head
    an [apply] and the function returns at once. *)
Definition applyHeadRejected (node : ASTNode) (stream : XMLInputStream) (elem : XMLToken)
    : option XMLInputStream :=
  if isNumber node then
    Some (logError stream elem BadMathML
            ("A number is not an operator and cannot be used "
             +++ "directly following an <apply> tag."))
  else if type_eqb (getType node) AST_CONSTANT_TRUE
          || type_eqb (getType node) AST_CONSTANT_FALSE
          || type_eqb (getType node) AST_CONSTANT_PI
          || type_eqb (getType node) AST_CONSTANT_E
  then
    Some (logError stream elem BadMathML
            ("<" +++ match getName node with Some s => s | None => "" end
             +++ "> is not an operator and cannot be used directly following an"
             +++ " <apply> tag."))
  else if type_eqb (getType node) AST_FUNCTION_PIECEWISE then
    Some (logError stream elem BadMathML
            ("A <piecewise> element"
             +++ " is not an operator and cannot be used directly following an"
             +++ " <apply> tag."))
  else None.

(** The start of [readMathML] on an element: the token is taken from the
    stream, a name that is not a MathML element is reported, and so is a
    prefix other than the required one; then the attributes are checked. *)
Definition readElementToken (stream : XMLInputStream) (reqd_prefix : string)
    : XMLToken * XMLInputStream :=
  let level := match getSBMLNamespaces stream with Some ns => ns_level ns | None => 3 end in
  let version := match getSBMLNamespaces stream with Some ns => ns_version ns | None => 2 end in
  let prefix_reqd := negb (String.eqb reqd_prefix "") in
  let '(elem, stream) := next stream in
  let name := tok_name elem in
  let index := util_bsearchStringsI MATHML_ELEMENTS name 0 (size - 1) in
  let found := index <? size in
  let stream :=
    if negb found then
      logError stream elem DisallowedMathMLSymbol
        ("<" +++ name +++ "> is not valid " +++ "in SBML Level "
         +++ long_to_string level +++ " Version " +++ long_to_string version +++ ".")
    else stream in
  let stream :=
    if prefix_reqd && negb (String.eqb (tok_prefix elem) reqd_prefix) then
      logError stream elem InvalidMathElement
        ("Element <" +++ name +++ "> should have prefix " +++ dquote +++ reqd_prefix
         +++ dquote +++ ".")
    else stream in
  (elem, checkAttributes stream elem level version).

(** The check of [readMathML] before it reads the operator of an
    [apply]: names that should not follow an apply, but that will not
    create a node with a type that is always incorrect. *)
Definition checkApplyOperator (stream : XMLInputStream) (elem : XMLToken) : XMLInputStream :=
  let stream := skipText stream in
  let nextName := tok_name (peek stream) in
  if String.eqb nextName "bvar" || String.eqb nextName "piece"
     || String.eqb nextName "otherwise" || String.eqb nextName "logbase"
     || String.eqb nextName "degree" || String.eqb nextName "lambda"
     || String.eqb nextName "semantics"
  then
    logError stream elem BadMathML
      ("<" +++ nextName
       +++ "> is not an operator and cannot be used directly following an"
       +++ " <apply> tag.")
  else stream.

(** The body of [static void readMathML (ASTNode& node, XMLInputStream&
    stream, std::string reqd_prefix, bool inRead)], essentially an
    s-expression parser.  The node passed by reference is returned with
    the stream.  [readNode] stands for the recursive call of [readMathML]
    and [readLoop] for the [while] loop over the children of an apply,
    lambda or piecewise element ([readChildren_body]). *)
Definition readMathML_body
    (readNode : ASTNode -> XMLInputStream -> string -> option (ASTNode * XMLInputStream))
    (readLoop : ASTNode -> XMLInputStream -> XMLToken -> string
                -> option (ASTNode * XMLInputStream))
    (node : ASTNode) (stream : XMLInputStream) (reqd_prefix : string)
    : option (ASTNode * XMLInputStream) :=
  let prefix_reqd := negb (String.eqb reqd_prefix "") in
  let stream := skipText stream in
  if String.eqb (tok_name (peek stream)) "math" && tok_isEnd (peek stream) then
    let stream :=
      if prefix_reqd && negb (String.eqb (tok_prefix (peek stream)) reqd_prefix) then
        logError stream (peek stream) InvalidMathElement
          ("Element <" +++ tok_name (peek stream) +++ "> should have prefix "
           +++ dquote +++ reqd_prefix +++ dquote +++ ".")
      else stream in
    Some (node, skipPastEnd stream (peek stream))
  else
    let '(elem, stream) := readElementToken stream reqd_prefix in
    let name := tok_name elem in
    let node := readIdClassStyle node elem in
    if String.eqb name "apply" || String.eqb name "lambda" || String.eqb name "piecewise" then
      if String.eqb name "apply" then
        if tok_isStart elem && tok_isEnd elem then Some (node, stream)
        else if tok_isEnd elem then Some (node, stream)
        else
          let stream := checkApplyOperator stream elem in
          match readNode node stream reqd_prefix with
          | None => None
          | Some (node, stream) =>
              let node := if isName node then ASTNode_setType node AST_FUNCTION else node in
              match applyHeadRejected node stream elem with
              | Some stream => Some (node, stream)
              | None =>
                  match readLoop node stream elem reqd_prefix with
                  | None => None
                  | Some (node, stream) => Some (readMathML_finish node stream elem)
                  end
              end
          end
      else
        let node :=
          if String.eqb name "lambda" then ASTNode_setType node AST_LAMBDA
          else ASTNode_setType node AST_FUNCTION_PIECEWISE in
        match readLoop node stream elem reqd_prefix with
        | None => None
        | Some (node, stream) => Some (readMathML_finish node stream elem)
        end
    else if String.eqb name "bvar" then
      let node := setBvar node in
      match readNode node stream reqd_prefix with
      | None => None
      | Some (node, stream) => Some (readMathML_finish node stream elem)
      end
    else if String.eqb name "degree" || String.eqb name "logbase"
            || String.eqb name "piece" || String.eqb name "otherwise" then
      match readNode node stream reqd_prefix with
      | None => None
      | Some (node, stream) =>
          if String.eqb name "piece" then Some (node, stream)
          else Some (readMathML_finish node stream elem)
      end
    else if String.eqb name "semantics" then
      let tempAtt := tok_attributes elem in
      match readNode node stream reqd_prefix with
      | None => None
      | Some (node, stream) =>
          let node := setSemanticsFlag node in
          let node :=
            if hasAttribute tempAtt "definitionURL" then setDefinitionURL node tempAtt
            else node in
          let stream := skipText stream in
          let '(node, stream) :=
            readSemanticsAnnotations (S (List.length (mTokens stream))) node stream elem in
          Some (readMathML_finish node stream elem)
      end
    else
      let '(node, stream) := setType node elem stream in
      Some (readMathML_finish node stream elem).

(** One test of the condition and one turn of the [while] loop of
    [readMathML] that reads the children of [elem] into [node]. *)
Definition readChildren_body
    (readNode : ASTNode -> XMLInputStream -> string -> option (ASTNode * XMLInputStream))
    (readLoop : ASTNode -> XMLInputStream -> XMLToken -> string
                -> option (ASTNode * XMLInputStream))
    (node : ASTNode) (stream : XMLInputStream) (elem : XMLToken) (reqd_prefix : string)
    : option (ASTNode * XMLInputStream) :=
  if isGood stream && negb (isEndFor (peek stream) elem) then
    let stream := skipText stream in
    if isEndFor (peek stream) elem then readLoop node stream elem reqd_prefix
    else
      let type := getType node in
      let node :=
        if type_eqb type AST_PLUS || type_eqb type AST_TIMES then reduceBinary node
        else node in
      if type_eqb type AST_CONSTANT_TRUE || type_eqb type AST_CONSTANT_FALSE
      then Some (node, stream)
      else
        let child := new_ASTNode in
        let '(addChildFlag, stream) :=
          if String.eqb (tok_name (peek stream)) "math" && tok_isStart (peek stream) then
            (false,
             logError stream elem BadMathMLNodeType
               ("<" +++ tok_name (peek stream) +++ "> incorrectly used."))
          else (true, stream) in
        match readNode child stream reqd_prefix with
        | None => None
        | Some (child, stream) =>
            let stream := skipText stream in
            let nextName := tok_name (peek stream) in
            let stream :=
              if String.eqb (tok_name elem) "lambda"
                 && negb (String.eqb nextName "lambda")
                 && negb (String.eqb nextName "bvar")
                 && negb (isMathMLNodeTag nextName)
              then
                logError stream elem BadMathMLNodeType
                  ("<" +++ nextName +++ "> cannot be used directly following a"
                   +++ " <bvar> element.")
              else stream in
            if String.eqb nextName "math" then Some (node, stream)
            else
              let node := if addChildFlag then addChild node child else node in
              let stream :=
                if String.eqb nextName "piece" then
                  if negb (getNumChildren node mod 2 =? 0) then
                    logError stream elem OpsNeedCorrectNumberOfArgs
                      "The <piece> element should have two child elements."
                  else stream
                else if String.eqb nextName "otherwise" then
                  if negb (getNumChildren node mod 2 =? 1) then
                    logError stream elem OpsNeedCorrectNumberOfArgs
                      "The <otherwise> element should have one child element."
                  else stream
                else stream in
              let stream :=
                if String.eqb nextName "piece" && isGood stream
                then snd (next stream) else stream in
              readLoop node stream elem reqd_prefix
        end
  else Some (node, stream).

(** The reader proper: [fuel] bounds the depth of calls and the turns of
    the child loop; [None] only when it runs out. *)
Fixpoint readMathML_node (fuel : nat) (node : ASTNode) (stream : XMLInputStream)
    (reqd_prefix : string) {struct fuel} : option (ASTNode * XMLInputStream) :=
  match fuel with
  | O => None
  | S fuel' =>
      readMathML_body (readMathML_node fuel') (readChildren fuel') node stream reqd_prefix
  end

with readChildren (fuel : nat) (node : ASTNode) (stream : XMLInputStream)
    (elem : XMLToken) (reqd_prefix : string) {struct fuel}
    : option (ASTNode * XMLInputStream) :=
  match fuel with
  | O => None
  | S fuel' =>
      readChildren_body (readMathML_node fuel') (readChildren fuel') node stream elem
        reqd_prefix
  end.

(** [setSBMLDefinitionURLs]: the core definitions are in the registry
    afterwards; no plugin contributes others. *)
Definition setSBMLDefinitionURLs (stream : XMLInputStream) : XMLInputStream :=
  mkXMLInputStream (mTokens stream) (mErrorLog stream) (mSBMLns stream)
    (addSBMLDefinitions (mDefinitionURLs stream)).

(** [ASTNode* readMathML (XMLInputStream& stream, std::string reqd_prefix,
    bool inRead)]: the node it allocates is always returned. *)
Definition readMathML (fuel : nat) (stream : XMLInputStream) (reqd_prefix : string)
    : option (ASTNode * XMLInputStream) :=
  let stream := setSBMLDefinitionURLs stream in
  let prefix_reqd := negb (String.eqb reqd_prefix "") in
  let stream := skipText stream in
  let node := new_ASTNode in
  let name := tok_name (peek stream) in
  let stream :=
    if prefix_reqd && negb (String.eqb (tok_prefix (peek stream)) reqd_prefix) then
      logError stream (peek stream) InvalidMathElement
        ("Element <" +++ name +++ "> should have prefix " +++ dquote +++ reqd_prefix
         +++ dquote +++ ".")
    else stream in
  if String.eqb name "math" then
    let '(elem, stream) := next stream in
    if tok_isStart elem && tok_isEnd elem then Some (node, stream)
    else
      let stream := skipText stream in
      let name1 := tok_name (peek stream) in
      let stream :=
        if prefix_reqd && negb (String.eqb (tok_prefix (peek stream)) reqd_prefix) then
          logError stream (peek stream) InvalidMathElement
            ("Element <" +++ name1 +++ "> should have prefix " +++ dquote +++ reqd_prefix
             +++ dquote +++ ".")
        else stream in
      let read :=
        if isMathMLNodeTag name1 || String.eqb name1 "lambda" then
          readMathML_node fuel node stream reqd_prefix
        else
          Some (node,
                logError stream (peek stream) BadMathMLNodeType
                  ("<" +++ name1 +++ "> cannot be used directly following a"
                   +++ " <math> tag.")) in
      match read with
      | None => None
      | Some (node, stream) =>
          let stream := skipText stream in
          let element1 := peek stream in
          let name := tok_name element1 in
          let stream :=
            if String.eqb name "" then skipPastEnd stream element1 else stream in
          let stream :=
            if negb (isEndFor element1 elem)
               && negb (contains (mErrorLog stream) (error_code BadMathML))
            then
              logError stream elem InvalidMathElement
                ("Unexpected element encountered. The element <" +++ name
                 +++ "> should not be encountered here.")
            else stream in
          Some (node, skipPastEnd stream elem)
      end
  else if String.eqb name "apply" then
    let '(elem, stream) := next stream in
    if tok_isStart elem && tok_isEnd elem then Some (node, stream)
    else
      match readMathML_node fuel node stream reqd_prefix with
      | None => None
      | Some (node, stream) => Some (node, skipPastEnd stream elem)
      end
  else readMathML_node fuel node stream reqd_prefix.

(* ====================================================================== *)
(** ** The output stream                                                   *)
(* ====================================================================== *)

(** Modelled from the spec: [XMLOutputStream] (sbml/xml is not in src),
    the output abstraction of section 6.  A writer function returns the
    calls it makes on the stream, in order. *)
Inductive XMLOutput : Type :=
  | Out_startElement (name : string)
  | Out_endElement (name : string)
  | Out_startEndElement (name : string)
  | Out_writeAttribute (name value : string)
  | Out_chars (chars : string)
  | Out_setAutoIndent (indent : bool)
  | Out_XMLNode (node : XMLNode).

(** [for (n = start; n < stop; n += step) body(n)], the outputs of the
    turns in order. *)
Fixpoint for_turns {A : Type} (turns : nat) (n step : Z) (body : Z -> list A) : list A :=
  match turns with
  | O => []
  | S k => body n ++ for_turns k (n + step) step body
  end.

Definition for_loop {A : Type} (start stop step : Z) (body : Z -> list A) : list A :=
  for_turns (Z.to_nat ((stop - start + step - 1) / step)) start step body.

(** [unsigned int] arithmetic. *)
Definition UINT_MODULUS : Z := 2 ^ 32.
Definition uint (z : Z) : Z := z mod UINT_MODULUS.

(* ====================================================================== *)
(** ** MathML output                                                       *)
(* ====================================================================== *)

Section Writer.

(** [ostringstream << double] at precision [LIBSBML_DOUBLE_PRECISION]:
    the formatting of the C++ library, left open. *)
Variable double_to_string : float -> string.

(** Writes the mathml attributes id, class and style if set. *)
Definition writeAttributes (node : ASTNode) : list XMLOutput :=
  (if isSetId node then [Out_writeAttribute "id" (mId node)] else [])
  ++ (if isSetClass node then [Out_writeAttribute "class" (mClass node)] else [])
  ++ (if isSetStyle node then [Out_writeAttribute "style" (mStyle node)] else []).

Definition writeStartEndElement (name : string) (node : ASTNode) : list XMLOutput :=
  [Out_startElement name] ++ writeAttributes node ++ [Out_endElement name].

(** Writes the node as a [<csymbol>] element. *)
Definition writeCSymbol (node : ASTNode) (sbmlns : option SBMLNamespaces) : list XMLOutput :=
  let type := getType node in
  let url :=
    if type_eqb type AST_FUNCTION_DELAY then URL_DELAY
    else if type_eqb type AST_NAME_TIME then URL_TIME
    else if type_eqb type AST_NAME_AVOGADRO then URL_AVOGADRO
    else getDefinitionURLString node in
  [Out_startElement "csymbol"; Out_setAutoIndent false]
  ++ writeAttributes node
  ++ [Out_writeAttribute "encoding" "text"; Out_writeAttribute "definitionURL" url]
  ++ match getName node with
     | Some name => [Out_chars " "; Out_chars name; Out_chars " "]
     | None => []
     end
  ++ [Out_endElement "csymbol"; Out_setAutoIndent true].

(** Writes the node as a [<ci>] or [<csymbol>] element as appropriate. *)
Definition writeCI (node : ASTNode) (sbmlns : option SBMLNamespaces) : list XMLOutput :=
  let type := getType node in
  if type_eqb type AST_FUNCTION_DELAY || type_eqb type AST_NAME_TIME
     || type_eqb type AST_NAME_AVOGADRO
  then writeCSymbol node sbmlns
  else if type_eqb type AST_NAME || type_eqb type AST_FUNCTION then
    [Out_startElement "ci"; Out_setAutoIndent false]
    ++ writeAttributes node
    ++ [Out_writeAttribute "definitionURL" (getValue0 (mDefinitionURL node))]
    ++ match getName node with
       | Some name => [Out_chars " "; Out_chars name; Out_chars " "]
       | None => []
       end
    ++ [Out_endElement "ci"; Out_setAutoIndent true]
  else [].

(** Writes the given string mantissa and exponent. *)
Definition writeENotation_strings (mantissa exponent : string) : list XMLOutput :=
  [ Out_writeAttribute "type" "e-notation"
  ; Out_chars " "; Out_chars mantissa; Out_chars " "
  ; Out_startEndElement "sep"
  ; Out_chars " "; Out_chars exponent; Out_chars " " ].

(** [value_string.substr(0, position)] and [substr(position + 1)]. *)
Definition substr_before (s : string) (position : option nat) : string :=
  match position with
  | Some p => String.substring 0 p s
  | None => s
  end.
Definition substr_after (s : string) (p : nat) : string :=
  String.substring (S p) (String.length s - S p) s.

(** Writes the given mantissa and exponent; an exponent part in the
    formatted mantissa is added to the exponent. *)
Definition writeENotation (mantissa : float) (exponent : Z) : list XMLOutput :=
  let value_string := double_to_string mantissa in
  let position := find_char "e" value_string in
  let exponent :=
    match position with
    | Some p => exponent + strtol (substr_after value_string p)
    | None => exponent
    end in
  let mantissa_string := substr_before value_string position in
  let exponent_string := long_to_string exponent in
  writeENotation_strings mantissa_string exponent_string.

(** Writes the given double precision value, as e-notation when its
    formatted text has an exponent part. *)
Definition writeDouble (value : float) : list XMLOutput :=
  let value_string := double_to_string value in
  match find_char "e" value_string with
  | None => [Out_chars " "; Out_chars value_string; Out_chars " "]
  | Some position =>
      let mantissa_string := String.substring 0 position value_string in
      let exponent_string := substr_after value_string position in
      let mantissa := strtod mantissa_string in
      let exponent := strtol exponent_string in
      writeENotation mantissa exponent
  end.

(** Writes the node as [<cn>] of the fitting type, or as [notanumber],
    [infinity] or minus [infinity]. *)
Definition writeCN (node : ASTNode) (sbmlns : option SBMLNamespaces) : list XMLOutput :=
  if isNaN node then writeStartEndElement "notanumber" node
  else if negb (type_eqb (getType node) AST_REAL_E) && isInfinity node
  then writeStartEndElement "infinity" node
  else if isNegInfinity node then
    [ Out_startElement "apply"; Out_setAutoIndent false; Out_chars " "
    ; Out_startEndElement "minus"; Out_chars " " ]
    ++ writeStartEndElement "infinity" node
    ++ [Out_chars " "; Out_endElement "apply"; Out_setAutoIndent true]
  else
    [Out_startElement "cn"]
    ++ writeAttributes node
    ++ (if negb (String.eqb (getUnits node) "") then
          (* the units are written only when no namespace is known, or
             when it is known to be an L3 model *)
          if match sbmlns with None => true | Some ns => ns_level ns =? 3 end
          then [Out_writeAttribute "sbml:units" (getUnits node)]
          else []
        else [])
    ++ [Out_setAutoIndent false]
    ++ (if isInteger node then
          [ Out_writeAttribute "type" "integer"
          ; Out_chars " "; Out_chars (long_to_string (getInteger node)); Out_chars " " ]
        else if isRational node then
          [ Out_writeAttribute "type" "rational"
          ; Out_chars " "; Out_chars (long_to_string (getNumerator node)); Out_chars " "
          ; Out_startEndElement "sep"
          ; Out_chars " "; Out_chars (long_to_string (getDenominator node)); Out_chars " " ]
        else if type_eqb (getType node) AST_REAL_E then
          writeENotation (getMantissa node) (getExponent node)
        else writeDouble (getReal node))
    ++ [Out_endElement "cn"; Out_setAutoIndent true].

(** Writes the node as a MathML constant. *)
Definition writeConstant (node : ASTNode) : list XMLOutput :=
  match getType node with
  | AST_CONSTANT_PI => writeStartEndElement "pi" node
  | AST_CONSTANT_TRUE => writeStartEndElement "true" node
  | AST_CONSTANT_FALSE => writeStartEndElement "false" node
  | AST_CONSTANT_E => writeStartEndElement "exponentiale" node
  | _ => []
  end.

(** In the functions below [child n] stands for the output of
    [writeNode] on [node.getChild(n)]; it is empty where
    [getChild] returns NULL, a case the source does not survive. *)

(** Writes the children of a [log]; the first is wrapped in [<logbase>]. *)
Definition writeFunctionLog (node : ASTNode) (child : Z -> list XMLOutput) : list XMLOutput :=
  (if getNumChildren node >? 1 then
     [Out_startElement "logbase"]
     ++ match getLeftChild node with Some _ => child 0 | None => [] end
     ++ [Out_endElement "logbase"]
   else [])
  ++ match getRightChild node with
     | Some _ => child (getNumChildren node - 1)
     | None => []
     end.

(** Writes the children of a [root]; the first is wrapped in [<degree>].
    [child_nons] is [writeNode] called without the namespace argument. *)
Definition writeFunctionRoot (node : ASTNode) (child child_nons : Z -> list XMLOutput)
    : list XMLOutput :=
  (if getNumChildren node >? 1 then
     [Out_startElement "degree"]
     ++ match getLeftChild node with Some _ => child 0 | None => [] end
     ++ [Out_endElement "degree"]
   else if getNumChildren node =? 1 then child_nons 0
   else [])
  ++ match getRightChild node with
     | Some _ => child (getNumChildren node - 1)
     | None => []
     end.

(** Writes the node as [<apply> <fn/> ... </apply>]. *)
Definition writeFunction (node : ASTNode) (sbmlns : option SBMLNamespaces)
    (child child_nons : Z -> list XMLOutput) : list XMLOutput :=
  let type := getType node in
  let numChildren := getNumChildren node in
  [Out_startElement "apply"]
  ++ (if (type_code type >=? type_code AST_FUNCTION)
         && (type_code type <? type_code AST_UNKNOWN)
      then
        (if type_eqb type AST_FUNCTION then writeCI node sbmlns
         else if type_eqb type AST_FUNCTION_DELAY || type_eqb type AST_CSYMBOL_FUNCTION
         then writeCSymbol node sbmlns
         else
           let name :=
             if type_code type <=? type_code AST_RELATIONAL_NEQ then
               nth (Z.to_nat (type_code type - type_code AST_FUNCTION_ABS))
                 MATHML_FUNCTIONS ""
             else "" in
           writeStartEndElement name node)
        ++ (if type_eqb type AST_FUNCTION_LOG then writeFunctionLog node child
            else if type_eqb type AST_FUNCTION_ROOT then writeFunctionRoot node child child_nons
            else for_loop 0 numChildren 1 child)
      else [])
  ++ [Out_endElement "apply"].

(** Writes the node as a [<lambda>] element.  When the last child is
    itself a bvar the element is missing its body: not valid, but it
    messes up roundtripping otherwise. *)
Definition writeLambda (node : ASTNode) (child : Z -> list XMLOutput) : list XMLOutput :=
  let bvars := uint (getNumChildren node - 1) in
  let n := bvars in
  let lastIsBvar :=
    match getChild node n with Some c => isBvar c | None => false end in
  let bvars := if lastIsBvar then uint (bvars + 1) else bvars in
  let bodyPresent := negb lastIsBvar in
  [Out_startElement "lambda"]
  ++ for_loop 0 bvars 1
       (fun n => [Out_startElement "bvar"] ++ child n ++ [Out_endElement "bvar"])
  ++ (if bodyPresent then child bvars else [])
  ++ [Out_endElement "lambda"].

(** Writes the node as a [<piecewise>] element. *)
Definition writePiecewise (node : ASTNode) (child : Z -> list XMLOutput) : list XMLOutput :=
  let numChildren := getNumChildren node in
  let numPieces := if negb (numChildren mod 2 =? 0) then numChildren - 1 else numChildren in
  [Out_startElement "piecewise"]
  ++ for_loop 0 numPieces 2
       (fun n => [Out_startElement "piece"] ++ child n ++ child (n + 1)
                 ++ [Out_endElement "piece"])
  ++ (if numPieces <? numChildren then
        [Out_startElement "otherwise"] ++ child numPieces ++ [Out_endElement "otherwise"]
      else [])
  ++ [Out_endElement "piecewise"].

(** Writes the node as a [<semantics>] element around [body], the output
    of [writeNode] on the same node while [inSemantics] is set. *)
Definition writeSemantics (node : ASTNode) (body : list XMLOutput) : list XMLOutput :=
  [Out_startElement "semantics"]
  ++ writeAttributes node
  ++ [Out_writeAttribute "definitionURL" (getValue0 (mDefinitionURL node))]
  ++ body
  ++ map Out_XMLNode (mSemanticsAnnotations node)
  ++ [Out_endElement "semantics"].

(** The element of an operator node, in [writeOperator]. *)
Definition writeOperatorTag (node : ASTNode) : list XMLOutput :=
  match getType node with
  | AST_PLUS => writeStartEndElement "plus" node
  | AST_TIMES => writeStartEndElement "times" node
  | AST_MINUS => writeStartEndElement "minus" node
  | AST_DIVIDE => writeStartEndElement "divide" node
  | AST_POWER => writeStartEndElement "power" node
  | _ => []
  end.

(** The output for the [n]-th child of a node with children [cs], given
    the function that writes a node. *)
Definition child_output (write : ASTNode -> list XMLOutput) (cs : list ASTNode) (n : Z)
    : list XMLOutput :=
  if n <? 0 then [] else nth (Z.to_nat n) (map write cs) [].

(** The body of [writeOperatorArgs]: the children of an operator node.
    [childArgs n] stands for the output of [writeOperatorArgs] on
    [node.getChild(n)], the recursive call that unrolls nested binary
    [AST_PLUS] or [AST_TIMES] nodes into an n-ary expression. *)
Definition writeOperatorArgs_step (node : ASTNode) (child childArgs : Z -> list XMLOutput)
    : list XMLOutput :=
  let type := getType node in
  let left := getLeftChild node in
  let right := getRightChild node in
  let num := getNumChildren node in
  if type_eqb type AST_PLUS || type_eqb type AST_TIMES then
    if num <=? 2 then
      (* two or less children - do what we always did *)
      match left with
      | Some l => if type_eqb (getType l) type then childArgs 0 else child 0
      | None => []
      end
      ++ match right with
         | Some r =>
             if type_eqb (getType r) type then childArgs (num - 1) else child (num - 1)
         | None => []
         end
    else
      (* more than two children that might or might not be functions *)
      for_loop 0 num 1 child
  else
    match left with Some _ => child 0 | None => [] end
    ++ match right with Some _ => child (num - 1) | None => [] end.

(** [writeNode] and [writeOperatorArgs].  The static flag [inSemantics]
    of [writeNode] is set by [writeSemantics] for the time of its call of
    [writeNode] on the same node and cleared when it returns, so it is an
    argument here: [dispatch true] is that inner call, which cannot take
    the semantics branch again.  The operator branch is [writeOperator],
    written out. *)
Fixpoint writeNode (sbmlns : option SBMLNamespaces) (inSemantics : bool) (node : ASTNode)
    {struct node} : list XMLOutput :=
  match node with
  | mkASTNode _ _ _ _ _ _ _ _ _ _ _ _ _ _ cs =>
      let dispatch (inSemantics : bool) : list XMLOutput :=
        let child := child_output (writeNode sbmlns inSemantics) cs in
        if isNumber node then writeCN node sbmlns
        else if isName node then writeCI node sbmlns
        else if isConstant node then writeConstant node
        else if isOperator node then
          [Out_startElement "apply"]
          ++ writeOperatorTag node
          ++ writeOperatorArgs_step node child
               (child_output (writeOperatorArgs sbmlns inSemantics) cs)
          ++ [Out_endElement "apply"]
        else if isLambda node then writeLambda node child
        else if isPiecewise node then writePiecewise node child
        else if negb (isUnknown node) then
          writeFunction node sbmlns child (child_output (writeNode None inSemantics) cs)
        else [] in
      if getSemanticsFlag node && negb inSemantics
      then writeSemantics node (dispatch true)
      else dispatch inSemantics
  end

with writeOperatorArgs (sbmlns : option SBMLNamespaces) (inSemantics : bool)
    (node : ASTNode) {struct node} : list XMLOutput :=
  match node with
  | mkASTNode _ _ _ _ _ _ _ _ _ _ _ _ _ _ cs =>
      writeOperatorArgs_step node
        (child_output (writeNode sbmlns inSemantics) cs)
        (child_output (writeOperatorArgs sbmlns inSemantics) cs)
  end.

(** Writes the node as [<apply> <op/> ... </apply>]. *)
Definition writeOperator (sbmlns : option SBMLNamespaces) (inSemantics : bool)
    (node : ASTNode) : list XMLOutput :=
  [Out_startElement "apply"]
  ++ writeOperatorTag node
  ++ writeOperatorArgs sbmlns inSemantics node
  ++ [Out_endElement "apply"].

(** [SBMLNamespaces::getSBMLNamespaceURI], the namespace of an SBML level
    and version (SBMLNamespaces is not in src); left open. *)
Variable getSBMLNamespaceURI : Z -> Z -> string.

(** [writeMathML]: the [math] element, its namespace declarations, and
    the node when there is one. *)
Definition writeMathML (node : option ASTNode) (sbmlns : option SBMLNamespaces)
    : list XMLOutput :=
  [ Out_startElement "math"
  ; Out_writeAttribute "xmlns" "http://www.w3.org/1998/Math/MathML" ]
  ++ match node with
     | Some node =>
         (if hasUnits node then
            let level := match sbmlns with Some ns => ns_level ns | None => SBML_DEFAULT_LEVEL end in
            let version :=
              match sbmlns with Some ns => ns_version ns | None => SBML_DEFAULT_VERSION end in
            [Out_writeAttribute "xmlns:sbml" (getSBMLNamespaceURI level version)]
          else [])
         ++ writeNode sbmlns false node
     | None => []
     end
  ++ [Out_endElement "math"].

End Writer.

(* ====================================================================== *)
(** ** From output calls to input tokens                                   *)
(* ====================================================================== *)

(** Modelled from the spec: the text layer between the two streams,
    [XMLOutputStream] printing and the XML parser and tokenizer reading
    it back (sbml/xml is not in src), as the tokens the reader is
    delivered for a sequence of output calls.  A start tag stays open
    ([xs_pending]) while attributes are added to it; an element closed
    while its start tag is still open is the single start-and-end token;
    consecutive character data is one text token; with auto-indent on,
    each tag after the first begins a new line, which reaches the reader
    as character data.  An attribute with an empty value is not written;
    [xmlns] declarations are no attributes; a prefixed attribute is
    known by its local name. *)
Record XMLWriterState : Type := mkXMLWriterState {
  xs_pending : option XMLToken;
  xs_text : option string;
  xs_indent : bool;
  xs_started : bool
}.

Definition newline : string := String (ascii_of_nat 10) EmptyString.

Definition xs_initial : XMLWriterState := mkXMLWriterState None None true false.

(** The tokens a state still owes: buffered text, then the open tag. *)
Definition xs_flush (st : XMLWriterState) : list XMLToken :=
  match xs_text st with Some t => [text_token t] | None => [] end
  ++ match xs_pending st with Some t => [t] | None => [] end.

Definition xs_indentation (st : XMLWriterState) : option string :=
  if xs_indent st && xs_started st then Some newline else None.

Definition append_text (old : option string) (s : string) : option string :=
  match old with
  | Some t => Some (t +++ s)
  | None => Some s
  end.

Definition local_name (s : string) : string :=
  match find_char ":" s with
  | Some p => substr_after s p
  | None => s
  end.

Definition is_xmlns (name : string) : bool :=
  String.eqb name "xmlns" || String.prefix "xmlns:" name.

Definition add_attribute (t : XMLToken) (name value : string) : XMLToken :=
  mkXMLToken (tok_name t) (tok_prefix t) (tok_attributes t ++ [(local_name name, value)])
    (tok_characters t) (tok_kind t).

Definition close_token (t : XMLToken) : XMLToken :=
  mkXMLToken (tok_name t) (tok_prefix t) (tok_attributes t) (tok_characters t)
    (match tok_kind t with TokStart => TokStartEnd | kind => kind end).

Definition xml_step (st : XMLWriterState) (ev : XMLOutput) : XMLWriterState * list XMLToken :=
  match ev with
  | Out_startElement name =>
      (mkXMLWriterState (Some (start_token name [])) (xs_indentation st) (xs_indent st) true,
       xs_flush st)
  | Out_writeAttribute name value =>
      match xs_pending st with
      | Some t =>
          if String.eqb value "" || is_xmlns name then (st, [])
          else (mkXMLWriterState (Some (add_attribute t name value)) (xs_text st)
                  (xs_indent st) (xs_started st), [])
      | None => (st, [])
      end
  | Out_chars chars =>
      match xs_pending st with
      | Some _ =>
          (mkXMLWriterState None (Some chars) (xs_indent st) (xs_started st), xs_flush st)
      | None =>
          (mkXMLWriterState None (append_text (xs_text st) chars) (xs_indent st)
             (xs_started st), [])
      end
  | Out_endElement name =>
      match xs_pending st with
      | Some t =>
          (mkXMLWriterState None None (xs_indent st) (xs_started st),
           match xs_text st with Some s => [text_token s] | None => [] end
           ++ [close_token t])
      | None =>
          (mkXMLWriterState None None (xs_indent st) (xs_started st),
           match (if xs_indent st then append_text (xs_text st) newline else xs_text st) with
           | Some s => [text_token s]
           | None => []
           end
           ++ [end_token name])
      end
  | Out_startEndElement name =>
      (mkXMLWriterState None None (xs_indent st) true,
       xs_flush st
       ++ match xs_indentation st with Some s => [text_token s] | None => [] end
       ++ [empty_token name []])
  | Out_setAutoIndent indent =>
      (mkXMLWriterState (xs_pending st) (xs_text st) indent (xs_started st), [])
  | Out_XMLNode node =>
      (mkXMLWriterState None None (xs_indent st) true,
       xs_flush st
       ++ match xs_indentation st with Some s => [text_token s] | None => [] end
       ++ node)
  end.

Fixpoint xml_run (st : XMLWriterState) (evs : list XMLOutput)
    : XMLWriterState * list XMLToken :=
  match evs with
  | [] => (st, [])
  | ev :: rest =>
      let '(st1, out1) := xml_step st ev in
      let '(st2, out2) := xml_run st1 rest in
      (st2, out1 ++ out2)
  end.

(** The tokens the reader is delivered for a whole output. *)
Definition xml_tokens (evs : list XMLOutput) : list XMLToken :=
  let '(st, out) := xml_run xs_initial evs in
  out ++ xs_flush st.

(* ====================================================================== *)
(** ** Public functions                                                    *)
(* ====================================================================== *)

(** Fuel that lets [readMathML] finish on a stream: every call and every
    turn of the child loop but the last consumes a token. *)
Definition fuel_for (stream : XMLInputStream) : nat :=
  (2 * List.length (mTokens stream) + 2)%nat.

Section PublicFunctions.

(** The XML parser behind [XMLInputStream stream(xmlstr_c, false)]: the
    tokens it delivers for a text and the errors it logs itself; left
    open. *)
Variable xml_parse : string -> list XMLToken * SBMLErrorLog.

(** The state of the [DefinitionURLRegistry] when the call is made. *)
Variable registry : list (string * ASTNodeType_t).

Definition dummy_xml : string :=
  "<?xml version=" +++ dquote +++ "1.0" +++ dquote +++ " encoding=" +++ dquote
  +++ "UTF-8" +++ dquote +++ "?>".

(** [!strncmp(xml, dummy_xml, 14)]. *)
Definition has_xml_declaration (xml : string) : bool :=
  String.prefix (String.substring 0 14 dummy_xml) xml.

(** The node and the stream (with its log) when [readMathML] returns in
    [readMathMLFromString]; [sbmlns] is the namespace context set on the
    stream, none for [readMathMLFromString]. *)
Definition readMathMLFromString_read (xml : string) (sbmlns : option SBMLNamespaces)
    : option (ASTNode * XMLInputStream) :=
  let xmlstr_c := if has_xml_declaration xml then xml else dummy_xml +++ xml in
  let '(tokens, errors) := xml_parse xmlstr_c in
  let stream := mkXMLInputStream tokens errors sbmlns registry in
  readMathML (fuel_for stream) stream "".

(** The decision at the end of [readMathMLFromString]: errors about the
    number of children of piece and otherwise do not make it bail. *)
Definition discard_or_return (ast : ASTNode) (log : SBMLErrorLog) : option ASTNode :=
  if getNumErrors log >? 0 then
    if negb (contains log 10218) then None
    else Some ast
  else Some ast.

(** [readMathMLFromString]; [None] is the NULL pointer, as argument and
    as result. *)
Definition readMathMLFromString (xml : option string) : option ASTNode :=
  match xml with
  | None => None
  | Some xml =>
      match readMathMLFromString_read xml None with
      | Some (ast, stream) => discard_or_return ast (mErrorLog stream)
      | None => None
      end
  end.

(** [readMathMLFromStringWithNamespaces]: the stream gets a default
    [SBMLNamespaces] object, to which the given XML namespaces are added. *)
Definition readMathMLFromStringWithNamespaces (xml : option string)
    (xmlns : option (list (string * string))) : option ASTNode :=
  match xml with
  | None => None
  | Some xml =>
      let sbmlns := mkSBMLNamespaces SBML_DEFAULT_LEVEL SBML_DEFAULT_VERSION in
      match readMathMLFromString_read xml (Some sbmlns) with
      | Some (ast, stream) => discard_or_return ast (mErrorLog stream)
      | None => None
      end
  end.

Variable double_to_string : float -> string.
Variable getSBMLNamespaceURI : Z -> Z -> string.

(** The text [XMLOutputStream] prints for a sequence of calls; left open. *)
Variable xml_print : list XMLOutput -> string.

(** [writeMathMLWithNamespaceToString]; [None] is the NULL result. *)
Definition writeMathMLWithNamespaceToString (node : option ASTNode)
    (sbmlns : option SBMLNamespaces) : option string :=
  let result := None in
  match node, sbmlns with
  | Some n, Some ns =>
      Some (xml_print (writeMathML double_to_string getSBMLNamespaceURI (Some n) (Some ns)))
  | _, _ => result
  end.

(** [writeMathMLToString]. *)
Definition writeMathMLToString (node : option ASTNode) : option string :=
  let sbmlns := mkSBMLNamespaces SBML_DEFAULT_LEVEL SBML_DEFAULT_VERSION in
  writeMathMLWithNamespaceToString node (Some sbmlns).

(** [writeMathMLToStdString(node, sbmlns)]. *)
Definition writeMathMLToStdString_ns (node : option ASTNode)
    (sbmlns : option SBMLNamespaces) : string :=
  match node, sbmlns with
  | None, _ | _, None => ""
  | Some n, Some ns =>
      xml_print (writeMathML double_to_string getSBMLNamespaceURI (Some n) (Some ns))
  end.

(** [writeMathMLToStdString(node)]. *)
Definition writeMathMLToStdString (node : option ASTNode) : string :=
  let sbmlns := mkSBMLNamespaces SBML_DEFAULT_LEVEL SBML_DEFAULT_VERSION in
  writeMathMLToStdString_ns node (Some sbmlns).

End PublicFunctions.

(* ====================================================================== *)
(** ** Loops over the children                                             *)
(* ====================================================================== *)











(* ====================================================================== *)
(** ** The writer, one node at a time                                      *)
(* ====================================================================== *)

Section WriterFacts.

Variable double_to_string : float -> string.

(** The dispatch of [writeNode] on the kind of the node, once the
    semantics wrapper is dealt with. *)
Definition writeNode_dispatch (sbmlns : option SBMLNamespaces) (inSemantics : bool)
    (node : ASTNode) : list XMLOutput :=
  let cs := mChildren node in
  let child := child_output (writeNode double_to_string sbmlns inSemantics) cs in
  if isNumber node then writeCN double_to_string node sbmlns
  else if isName node then writeCI node sbmlns
  else if isConstant node then writeConstant node
  else if isOperator node then writeOperator double_to_string sbmlns inSemantics node
  else if isLambda node then writeLambda node child
  else if isPiecewise node then writePiecewise node child
  else if negb (isUnknown node) then
    writeFunction node sbmlns child
      (child_output (writeNode double_to_string None inSemantics) cs)
  else [].

Lemma writeNode_unfold (sbmlns : option SBMLNamespaces) (inSemantics : bool)
    (node : ASTNode) :
  writeNode double_to_string sbmlns inSemantics node
  = if getSemanticsFlag node && negb inSemantics
    then writeSemantics node (writeNode_dispatch sbmlns true node)
    else writeNode_dispatch sbmlns inSemantics node.
Proof. destruct node; reflexivity. Qed.




End WriterFacts.



(* ====================================================================== *)
(** ** Numbers written as [cn]                                             *)
(* ====================================================================== *)



Section CNFacts.

Variable double_to_string : float -> string.





End CNFacts.



(* ====================================================================== *)
(** ** NULL arguments of the public functions                              *)
(* ====================================================================== *)

(** C10: [readMathMLFromString] of a NULL text returns NULL, whatever the
    parser and the registry, so nothing is parsed or logged;
    [writeMathMLToStdString] returns the empty string when the node or
    the namespace context is NULL, and
    [writeMathMLWithNamespaceToString] returns NULL in those cases. *)
Theorem C10_null_arguments :
  forall (xml_parse : string -> list XMLToken * SBMLErrorLog)
         (registry : list (string * ASTNodeType_t))
         (double_to_string : float -> string)
         (getSBMLNamespaceURI : Z -> Z -> string)
         (xml_print : list XMLOutput -> string)
         (node : option ASTNode) (sbmlns : option SBMLNamespaces),
    readMathMLFromString xml_parse registry None = None
    /\ writeMathMLToStdString_ns double_to_string getSBMLNamespaceURI xml_print None sbmlns = ""
    /\ writeMathMLToStdString_ns double_to_string getSBMLNamespaceURI xml_print node None = ""
    /\ writeMathMLWithNamespaceToString double_to_string getSBMLNamespaceURI xml_print
         None sbmlns = None
    /\ writeMathMLWithNamespaceToString double_to_string getSBMLNamespaceURI xml_print
         node None = None.
Proof.
  intros. repeat split; try reflexivity.
  - destruct node; reflexivity.
  - destruct node; reflexivity.
Qed.

(* ====================================================================== *)
(** ** Reading numbers                                                     *)
(* ====================================================================== *)

Lemma readMathML_node_S (fuel : nat) (node : ASTNode) (stream : XMLInputStream)
    (reqd_prefix : string) :
  readMathML_node (S fuel) node stream reqd_prefix
  = readMathML_body (readMathML_node fuel) (readChildren fuel) node stream reqd_prefix.
Proof. reflexivity. Qed.

Lemma readChildren_S (fuel : nat) (node : ASTNode) (stream : XMLInputStream)
    (elem : XMLToken) (reqd_prefix : string) :
  readChildren (S fuel) node stream elem reqd_prefix
  = readChildren_body (readMathML_node fuel) (readChildren fuel) node stream elem reqd_prefix.
Proof. reflexivity. Qed.

(** The tokens of [<cn type=...>text</cn>] and of
    [<cn type=...>first<sep/>second</cn>]. *)
Definition cn_tokens (type text : string) : list XMLToken :=
  [start_token "cn" [("type", type)]; text_token text; end_token "cn"].
Definition cn_sep_tokens (type first second : string) : list XMLToken :=
  [ start_token "cn" [("type", type)]; text_token first; empty_token "sep" []
  ; text_token second; end_token "cn" ].

(** C5: [<cn type="integer">12345</cn>] is read as an integer node of
    value 12345 without children; [<cn type="rational">12342<sep/>2342342</cn>]
    as a rational node of numerator 12342 and denominator 2342342;
    [<cn type="e-notation">12.3<sep/>5</cn>] as an e-notation node of
    mantissa 12.3 and exponent 5.  Nothing is logged and the stream is
    left after the element. *)
Theorem C5_cn_numeric_fidelity :
  forall (fuel : nat) (rest : list XMLToken) (log : SBMLErrorLog)
         (sbmlns : option SBMLNamespaces) (reg : list (string * ASTNodeType_t)),
    let after := mkXMLInputStream rest log sbmlns reg in
    (exists n,
        readMathML_node (S fuel) new_ASTNode
          (mkXMLInputStream (cn_tokens "integer" "12345" ++ rest) log sbmlns reg) ""
        = Some (n, after)
        /\ getType n = AST_INTEGER /\ getInteger n = 12345 /\ getNumChildren n = 0)
    /\ (exists n,
        readMathML_node (S fuel) new_ASTNode
          (mkXMLInputStream (cn_sep_tokens "rational" "12342" "2342342" ++ rest)
             log sbmlns reg) ""
        = Some (n, after)
        /\ getType n = AST_RATIONAL /\ getNumerator n = 12342
        /\ getDenominator n = 2342342 /\ getNumChildren n = 0)
    /\ (exists n,
        readMathML_node (S fuel) new_ASTNode
          (mkXMLInputStream (cn_sep_tokens "e-notation" "12.3" "5" ++ rest)
             log sbmlns reg) ""
        = Some (n, after)
        /\ getType n = AST_REAL_E /\ getMantissa n = 12.3%float
        /\ getExponent n = 5 /\ getNumChildren n = 0).
Proof.
  intros fuel rest log sbmlns reg after. subst after.
  repeat split.
  - eexists. split; [vm_compute; reflexivity|]. repeat split.
  - eexists. split; [vm_compute; reflexivity|]. repeat split.
  - eexists. split; [vm_compute; reflexivity|]. repeat split.
Qed.

Lemma extract_int_out_of_range (text : string) (v : Z) :
  scan_integer text = Some v ->
  v > SBML_INT_MAX \/ v < SBML_INT_MIN ->
  extract_int text
  = mkExtracted (if v >? SBML_INT_MAX then SBML_INT_MAX else SBML_INT_MIN) true.
Proof.
  intros Hscan Hrange. unfold extract_int, extract_integer. rewrite Hscan.
  change INT_MAX with 2147483647. change INT_MIN with (-2147483648).
  change SBML_INT_MAX with 2147483647 in *. change SBML_INT_MIN with (-2147483648) in *.
  destruct (Z.gtb_spec v 2147483647) as [H|H]; [reflexivity|].
  destruct (Z.ltb_spec v (-2147483648)) as [H'|H']; [reflexivity|lia].
Qed.

(** The value [istringstream >> int] stores for a text that denotes [v]:
    [v] itself when it fits, else the nearest bound. *)
Definition stored_int (v : Z) : Z :=
  if v >? SBML_INT_MAX then SBML_INT_MAX
  else if v <? SBML_INT_MIN then SBML_INT_MIN
  else v.

Definition out_of_int_range (v : Z) : bool :=
  (v >? SBML_INT_MAX) || (v <? SBML_INT_MIN).

Lemma out_of_int_range_true (v : Z) :
  v > SBML_INT_MAX \/ v < SBML_INT_MIN -> out_of_int_range v = true.
Proof.
  intros H. apply orb_true_iff.
  destruct H; [left; apply Z.gtb_lt | right; apply Z.ltb_lt]; lia.
Qed.

Lemma extract_int_scanned (text : string) (v : Z) :
  scan_integer text = Some v ->
  extract_int text = mkExtracted (stored_int v) (out_of_int_range v).
Proof.
  intros Hscan. unfold extract_int, extract_integer, stored_int, out_of_int_range.
  rewrite Hscan.
  change INT_MAX with SBML_INT_MAX. change INT_MIN with SBML_INT_MIN.
  destruct (v >? SBML_INT_MAX); [reflexivity|].
  destruct (v <? SBML_INT_MIN); reflexivity.
Qed.

Section NumberRange.

#[local] Arguments extract_int : simpl never.
#[local] Arguments logError : simpl never.
#[local] Arguments util_bsearchStringsI : simpl never.
#[local] Arguments stored_int : simpl never.
#[local] Arguments out_of_int_range : simpl never.

Lemma bsearch_cn : util_bsearchStringsI MATHML_ELEMENTS "cn" 0 68 = 20.
Proof. vm_compute. reflexivity. Qed.

(** C9: for a [cn] of type integer whose text denotes a value outside
    the signed 32-bit range, the reader logs [FailedMathMLReadOfInteger],
    still sets a value on the node (the nearest bound of the range) and
    goes on to the end of the element; for a [cn] of type rational with
    the numerator or the denominator outside the range it logs
    [FailedMathMLReadOfRational], still sets both parts and goes on. *)
Theorem C9_out_of_range_is_logged_and_read :
  forall (fuel : nat) (rest : list XMLToken) (log : SBMLErrorLog)
         (sbmlns : option SBMLNamespaces) (reg : list (string * ASTNodeType_t)),
    let after := mkXMLInputStream rest log sbmlns reg in
    (forall (text : string) (v : Z),
        scan_integer text = Some v ->
        v > SBML_INT_MAX \/ v < SBML_INT_MIN ->
        readMathML_node (S fuel) new_ASTNode
          (mkXMLInputStream (cn_tokens "integer" text ++ rest) log sbmlns reg) ""
        = Some (setValue_int new_ASTNode (stored_int v),
                logError after (start_token "cn" [("type", "integer")])
                  FailedMathMLReadOfInteger ""))
    /\ (forall (first second : string) (v1 v2 : Z),
        scan_integer first = Some v1 ->
        scan_integer second = Some v2 ->
        (v1 > SBML_INT_MAX \/ v1 < SBML_INT_MIN)
        \/ (v2 > SBML_INT_MAX \/ v2 < SBML_INT_MIN) ->
        readMathML_node (S fuel) new_ASTNode
          (mkXMLInputStream (cn_sep_tokens "rational" first second ++ rest) log sbmlns reg) ""
        = Some (setValue_rational new_ASTNode (stored_int v1) (stored_int v2),
                logError after (start_token "cn" [("type", "rational")])
                  FailedMathMLReadOfRational "")).
Proof.
  intros fuel rest log sbmlns reg after. subst after. split.
  - intros text v Hscan Hrange.
    rewrite readMathML_node_S. unfold readMathML_body, readElementToken.
    cbn. rewrite bsearch_cn. cbn.
    rewrite (extract_int_scanned text v Hscan).
    rewrite (out_of_int_range_true v Hrange). destruct sbmlns; reflexivity.
  - intros first second v1 v2 Hs1 Hs2 Hrange.
    rewrite readMathML_node_S. unfold readMathML_body, readElementToken.
    cbn. rewrite bsearch_cn. cbn.
    rewrite (extract_int_scanned first v1 Hs1), (extract_int_scanned second v2 Hs2).
    assert (Hfail : out_of_int_range v1 || out_of_int_range v2 = true).
    { apply orb_true_iff.
      destruct Hrange as [H|H]; [left|right]; apply out_of_int_range_true; exact H. }
    cbn. rewrite Hfail. destruct sbmlns; reflexivity.
Qed.

End NumberRange.

Lemma C9_out_of_range_is_logged_and_read_witness :
  readMathML_node 1 new_ASTNode
    (mkXMLInputStream (cn_tokens "integer" "4294967296" ++ [end_token "math"]) [] None []) ""
  = Some (setValue_int new_ASTNode 2147483647,
          mkXMLInputStream [end_token "math"]
            [mkSBMLError FailedMathMLReadOfInteger 3 2 ""] None [])
  /\ readMathML_node 1 new_ASTNode
       (mkXMLInputStream (cn_sep_tokens "rational" "1" "-9999999999" ++ [end_token "math"])
          [] None []) ""
     = Some (setValue_rational new_ASTNode 1 (-2147483648),
             mkXMLInputStream [end_token "math"]
               [mkSBMLError FailedMathMLReadOfRational 3 2 ""] None []).
Proof.
  destruct (C9_out_of_range_is_logged_and_read 0 [end_token "math"] [] None []) as [Hi Hr].
  split.
  - rewrite (Hi "4294967296" 4294967296 eq_refl); [reflexivity | left; reflexivity].
  - rewrite (Hr "1" "-9999999999" 1 (-9999999999) eq_refl eq_refl);
      [reflexivity | right; right; reflexivity].
Defined.

(* ====================================================================== *)
(** ** The operator of an apply                                            *)
(* ====================================================================== *)

(** C6: when the first child read for an [apply] element is a number
    node, the reader logs [BadMathML] and returns at once: the node is
    the number as read, without children added, and the stream is where
    the read of that child left it, so nothing more of the apply is
    read. *)
Theorem C6_number_after_apply :
  forall (fuel : nat) (node : ASTNode) (stream : XMLInputStream) (reqd_prefix : string)
         (elem : XMLToken) (opened : XMLInputStream) (head : ASTNode)
         (after_head : XMLInputStream),
    readElementToken (skipText stream) reqd_prefix = (elem, opened) ->
    tok_name elem = "apply" ->
    tok_isEnd elem = false ->
    readMathML_node fuel (readIdClassStyle node elem) (checkApplyOperator opened elem)
      reqd_prefix = Some (head, after_head) ->
    isNumber head = true ->
    readMathML_node (S fuel) node stream reqd_prefix
    = Some (head,
            logError after_head elem BadMathML
              "A number is not an operator and cannot be used directly following an <apply> tag.").
Proof.
  intros fuel node stream reqd_prefix elem opened head after_head Hopen Hname Hend Hhead Hnum.
  rewrite readMathML_node_S. unfold readMathML_body.
  assert (Hpeek : tok_name (peek (skipText stream)) = "apply").
  { unfold readElementToken in Hopen. cbn in Hopen. injection Hopen as He _.
    rewrite He. exact Hname. }
  rewrite Hpeek. cbn [String.eqb Ascii.eqb Bool.eqb andb].
  rewrite Hopen, Hname. cbn [String.eqb Ascii.eqb Bool.eqb orb andb].
  rewrite Hend. rewrite andb_false_r.
  rewrite Hhead.
  assert (Hnotname : isName head = false).
  { unfold isNumber, isInteger, isReal, type_eqb in Hnum. unfold isName.
    destruct (mType head); try reflexivity; discriminate Hnum. }
  rewrite Hnotname. unfold applyHeadRejected. rewrite Hnum. reflexivity.
Qed.

Definition C6_sample_tokens : list XMLToken :=
  [ start_token "apply" []; start_token "cn" []; text_token "5"; end_token "cn"
  ; start_token "ci" []; text_token "x"; end_token "ci"; end_token "apply" ].

Lemma C6_number_after_apply_witness :
  readMathML_node 2 new_ASTNode (mkXMLInputStream C6_sample_tokens [] None []) ""
  = Some (setValue_double new_ASTNode 5%float,
          mkXMLInputStream
            [start_token "ci" []; text_token "x"; end_token "ci"; end_token "apply"]
            [mkSBMLError BadMathML 3 2
               "A number is not an operator and cannot be used directly following an <apply> tag."]
            None []).
Proof.
  rewrite (C6_number_after_apply 1 new_ASTNode
             (mkXMLInputStream C6_sample_tokens [] None []) ""
             (start_token "apply" [])
             (mkXMLInputStream (tl C6_sample_tokens) [] None [])
             (setValue_double new_ASTNode 5%float)
             (mkXMLInputStream
                [start_token "ci" []; text_token "x"; end_token "ci"; end_token "apply"]
                [] None [])).
  - reflexivity.
  - vm_compute. reflexivity.
  - reflexivity.
  - reflexivity.
  - vm_compute. reflexivity.
  - reflexivity.
Defined.

(* ====================================================================== *)
(** ** The child loop over well-formed segments                            *)
(** Case analysis on a node, with names for its fields that do not
    hide the projections. *)
Ltac node_fields n :=
  let ft := fresh "ty" in let fi := fresh "int" in let fr := fresh "real" in
  let fd := fresh "den" in let fe := fresh "exp" in let fn := fresh "nm" in
  let fu := fresh "url" in let fun_ := fresh "units" in let fid := fresh "id" in
  let fc := fresh "cl" in let fs := fresh "st" in let fb := fresh "bv" in
  let ff := fresh "sem" in let fa := fresh "ann" in let fch := fresh "kids" in
  destruct n as [ft fi fr fd fe fn fu fun_ fid fc fs fb ff fa fch].

(* ====================================================================== *)

Lemma drop_text_idem (toks : list XMLToken) : drop_text (drop_text toks) = drop_text toks.
Proof.
  induction toks as [|t toks IH]; [reflexivity|].
  simpl. destruct (tok_isText t) eqn:E; [exact IH|]. simpl. rewrite E. reflexivity.
Qed.

Lemma drop_text_head (toks rest : list XMLToken) (t : XMLToken) :
  drop_text toks = t :: rest -> tok_isText t = false.
Proof.
  induction toks as [|x toks IH]; simpl; [discriminate|].
  destruct (tok_isText x) eqn:E; [exact IH|].
  intros H. injection H as <- _. exact E.
Qed.

Lemma drop_text_app (seg rest : list XMLToken) :
  drop_text seg <> [] -> drop_text (seg ++ rest) = drop_text seg ++ rest.
Proof.
  induction seg as [|x seg IH]; simpl; [congruence|].
  destruct (tok_isText x); [exact IH|reflexivity].
Qed.

Lemma drop_text_nonempty (toks : list XMLToken) :
  drop_text toks <> [] -> toks <> [].
Proof. destruct toks; [simpl; congruence | discriminate]. Qed.

Section ReaderLoop.

Variable sbmlns : option SBMLNamespaces.
Variable reg : list (string * ASTNodeType_t).

(** A stream in the namespace context and with the registry of this
    section. *)
Definition stream_of (toks : list XMLToken) (log : SBMLErrorLog) : XMLInputStream :=
  mkXMLInputStream toks log sbmlns reg.

Lemma skipText_stream_of (toks : list XMLToken) (log : SBMLErrorLog) :
  skipText (stream_of toks log) = stream_of (drop_text toks) log.
Proof. reflexivity. Qed.

(** [readMathML] begins by skipping text, so text before the element
    does not matter to it. *)
Lemma readMathML_node_drop_text (fuel : nat) (node : ASTNode) (toks toks' : list XMLToken)
    (log : SBMLErrorLog) (reqd_prefix : string) :
  drop_text toks = drop_text toks' ->
  readMathML_node fuel node (stream_of toks log) reqd_prefix
  = readMathML_node fuel node (stream_of toks' log) reqd_prefix.
Proof.
  intros H. destruct fuel as [|fuel]; [reflexivity|].
  rewrite !readMathML_node_S. unfold readMathML_body. cbv zeta.
  rewrite !skipText_stream_of, H. reflexivity.
Qed.

(** A segment of tokens is read as the node [c], logging [errs], by any
    call with at least [k] units of fuel, whatever follows the segment
    and whatever was logged before. *)
Definition ReadsAs (seg : list XMLToken) (c : ASTNode) (errs : SBMLErrorLog) (k : nat) : Prop :=
  forall (fuel : nat) (rest : list XMLToken) (log : SBMLErrorLog),
    (k <= fuel)%nat ->
    readMathML_node fuel new_ASTNode (stream_of (seg ++ rest) log) ""
    = Some (c, stream_of rest (log ++ errs)).

(** The first element token of a segment starts an element that may
    stand as an argument: not [math], [piece] or [otherwise]. *)
Definition child_segment (seg : list XMLToken) : bool :=
  match drop_text seg with
  | t :: _ =>
      tok_isStart t && negb (String.eqb (tok_name t) "math")
      && negb (String.eqb (tok_name t) "piece")
      && negb (String.eqb (tok_name t) "otherwise")
  | [] => false
  end.

(** What one turn of the child loop does to the node with the child it
    read. *)
Definition absorb (node child : ASTNode) : ASTNode :=
  addChild
    (if type_eqb (getType node) AST_PLUS || type_eqb (getType node) AST_TIMES
     then reduceBinary node else node)
    child.

Lemma reduceBinary_type (node : ASTNode) : mType (reduceBinary node) = mType node.
Proof. unfold reduceBinary. destruct (getNumChildren node =? 2); reflexivity. Qed.

Lemma absorb_type (node child : ASTNode) : mType (absorb node child) = mType node.
Proof.
  unfold absorb.
  destruct (type_eqb (getType node) AST_PLUS || type_eqb (getType node) AST_TIMES);
    simpl; [apply reduceBinary_type | reflexivity].
Qed.

Lemma fold_absorb_type (cs : list ASTNode) (node : ASTNode) :
  mType (fold_left absorb cs node) = mType node.
Proof.
  revert node; induction cs as [|c cs IH]; intros node; [reflexivity|].
  simpl. rewrite IH. apply absorb_type.
Qed.

(** One child to read: its tokens, the node they are read as, and what
    reading them logs. *)
Definition ChildRead : Type := (list XMLToken * ASTNode * SBMLErrorLog)%type.
Definition read_tokens (r : ChildRead) : list XMLToken := fst (fst r).
Definition read_node (r : ChildRead) : ASTNode := snd (fst r).
Definition read_errors (r : ChildRead) : SBMLErrorLog := snd r.

Definition good_child (k : nat) (r : ChildRead) : Prop :=
  child_segment (read_tokens r) = true
  /\ ReadsAs (read_tokens r) (read_node r) (read_errors r) k.

(** The name of the element an end token closes or a start token opens,
    first after any text. *)
Definition next_name (toks : list XMLToken) : string :=
  tok_name (hd EOF_token (drop_text toks)).

Lemma child_segment_next_name (seg rest : list XMLToken) :
  child_segment seg = true ->
  drop_text (seg ++ rest) <> []
  /\ tok_isStart (hd EOF_token (drop_text (seg ++ rest))) = true
  /\ String.eqb (next_name (seg ++ rest)) "math" = false
  /\ String.eqb (next_name (seg ++ rest)) "piece" = false
  /\ String.eqb (next_name (seg ++ rest)) "otherwise" = false.
Proof.
  unfold child_segment, next_name. intros H.
  destruct (drop_text seg) as [|t seg'] eqn:E; [discriminate|].
  rewrite drop_text_app by (rewrite E; discriminate). rewrite E. simpl.
  apply andb_prop in H as [H H3]. apply andb_prop in H as [H H2].
  apply andb_prop in H as [H0 H1].
  apply negb_true_iff in H1, H2, H3. repeat split; try assumption. discriminate.
Qed.

Lemma isEndFor_text (t e : XMLToken) : tok_isText t = true -> isEndFor t e = false.
Proof.
  unfold isEndFor, tok_isText, tok_isEnd. destruct (tok_kind t); try discriminate.
  reflexivity.
Qed.

Lemma isEndFor_start (t e : XMLToken) : tok_isStart t = true -> isEndFor t e = false.
Proof.
  unfold isEndFor, tok_isStart, tok_isEnd. destruct (tok_kind t); try discriminate;
    reflexivity.
Qed.

(** What follows the children of an element up to its end token. *)
Lemma next_name_children (k : nat) (children : list ChildRead) (tail rest : list XMLToken) :
  Forall (good_child k) children ->
  drop_text tail = end_token "apply" :: rest ->
  String.eqb (next_name (concat (map read_tokens children) ++ tail)) "math" = false
  /\ String.eqb (next_name (concat (map read_tokens children) ++ tail)) "piece" = false
  /\ String.eqb (next_name (concat (map read_tokens children) ++ tail)) "otherwise" = false.
Proof.
  intros Hgood Htail. destruct children as [|r children].
  - simpl. unfold next_name. rewrite Htail. repeat split.
  - simpl. rewrite <- app_assoc. inversion Hgood as [|? ? [Hseg _] _]; subst.
    destruct (child_segment_next_name (read_tokens r)
                (concat (map read_tokens children) ++ tail) Hseg) as (_ & _ & H1 & H2 & H3).
    repeat split; assumption.
Qed.

(** The child loop of an [apply] over a sequence of children that read
    well, up to the end token of the apply: every child is absorbed in
    turn, and the loop stops in front of the end token. *)
Lemma readChildren_apply (k : nat) (attrs : XMLAttributes) (rest : list XMLToken) :
  forall (children : list ChildRead) (node : ASTNode) (toks : list XMLToken)
         (tail : list XMLToken) (log : SBMLErrorLog) (fuel : nat),
    Forall (good_child k) children ->
    drop_text tail = end_token "apply" :: rest ->
    drop_text toks = drop_text (concat (map read_tokens children) ++ tail) ->
    type_eqb (getType node) AST_CONSTANT_TRUE = false ->
    type_eqb (getType node) AST_CONSTANT_FALSE = false ->
    (List.length children + k + 2 <= fuel)%nat ->
    readChildren fuel node (stream_of toks log) (start_token "apply" attrs) ""
    = Some (fold_left absorb (map read_node children) node,
            stream_of (end_token "apply" :: rest)
              (log ++ concat (map read_errors children))).
Proof.
  induction children as [|r children IH];
    intros node toks tail log fuel Hgood Htail Htoks Htrue Hfalse Hfuel.
  - simpl in Htoks. rewrite Htail in Htoks. simpl. rewrite app_nil_r.
    destruct fuel as [|[|fuel]]; [simpl in Hfuel; lia | simpl in Hfuel; lia|].
    rewrite readChildren_S. unfold readChildren_body.
    destruct toks as [|t toks]; [discriminate Htoks|].
    destruct (tok_isText t) eqn:Et.
    + change (isGood (stream_of (t :: toks) log)) with true.
      change (peek (stream_of (t :: toks) log)) with t.
      rewrite (isEndFor_text t _ Et). cbn [andb negb]. cbv zeta.
      rewrite skipText_stream_of, Htoks.
      change (peek (stream_of (end_token "apply" :: rest) log)) with (end_token "apply").
      change (isEndFor (end_token "apply") (start_token "apply" attrs)) with true.
      cbv iota. rewrite readChildren_S. unfold readChildren_body.
      change (peek (stream_of (end_token "apply" :: rest) log)) with (end_token "apply").
      change (isEndFor (end_token "apply") (start_token "apply" attrs)) with true.
      reflexivity.
    + simpl in Htoks. rewrite Et in Htoks. injection Htoks as -> ->.
      reflexivity.
  - set (X := concat (map read_tokens children) ++ tail) in *.
    assert (HtoksX : drop_text toks = drop_text (read_tokens r ++ X)).
    { rewrite Htoks. unfold X. simpl. rewrite <- app_assoc. reflexivity. }
    inversion Hgood as [|? ? [Hseg Hreads] Hgood']; subst.
    destruct (child_segment_next_name (read_tokens r) X Hseg)
      as (Hne & Hstart & Hmath & _ & _).
    destruct (next_name_children k children tail rest Hgood' Htail)
      as (Hxmath & Hxpiece & Hxother).
    fold X in Hxmath, Hxpiece, Hxother.
    destruct fuel as [|fuel]; [simpl in Hfuel; lia|].
    simpl List.length in Hfuel.
    rewrite readChildren_S. unfold readChildren_body.
    rewrite <- HtoksX in Hne, Hstart. unfold next_name in Hmath. rewrite <- HtoksX in Hmath.
    assert (Hgoodstream : isGood (stream_of toks log) = true).
    { destruct toks; [simpl in Hne; congruence | reflexivity]. }
    assert (Hpeek : isEndFor (peek (stream_of toks log)) (start_token "apply" attrs) = false).
    { destruct toks as [|t toks]; [simpl in Hne; congruence|].
      change (peek (stream_of (t :: toks) log)) with t.
      destruct (tok_isText t) eqn:Et; [apply isEndFor_text; exact Et|].
      simpl in Hstart. rewrite Et in Hstart. apply isEndFor_start. exact Hstart. }
    rewrite Hgoodstream, Hpeek. cbn [andb negb]. cbv zeta.
    rewrite skipText_stream_of.
    assert (Hpeek2 : isEndFor (peek (stream_of (drop_text toks) log))
                       (start_token "apply" attrs) = false).
    { apply isEndFor_start. exact Hstart. }
    rewrite Hpeek2, Htrue, Hfalse. cbn [orb].
    change (tok_name (peek (stream_of (drop_text toks) log)))
      with (tok_name (hd EOF_token (drop_text toks))).
    rewrite Hmath. cbn [andb].
    rewrite (readMathML_node_drop_text fuel new_ASTNode (drop_text toks) (read_tokens r ++ X)
               log "") by (rewrite drop_text_idem; exact HtoksX).
    rewrite (Hreads fuel X log) by lia.
    rewrite skipText_stream_of.
    change (tok_name (peek (stream_of (drop_text X) (log ++ read_errors r))))
      with (next_name X).
    rewrite Hxmath, Hxpiece, Hxother.
    change (String.eqb (tok_name (start_token "apply" attrs)) "lambda") with false.
    cbn [andb].
    fold (absorb node (read_node r)).
    rewrite (IH (absorb node (read_node r)) (drop_text X) tail (log ++ read_errors r) fuel
               Hgood' Htail).
    + simpl. rewrite <- app_assoc. reflexivity.
    + rewrite drop_text_idem. reflexivity.
    + unfold getType in *. rewrite absorb_type. exact Htrue.
    + unfold getType in *. rewrite absorb_type. exact Hfalse.
    + lia.
Qed.

(** The [id], [class] and [style] attributes [writeAttributes] puts on
    the element of a node, as the reader finds them on the token. *)
Definition id_class_style (node : ASTNode) : XMLAttributes :=
  (if isSetId node then [("id", mId node)] else [])
  ++ (if isSetClass node then [("class", mClass node)] else [])
  ++ (if isSetStyle node then [("style", mStyle node)] else []).

(** A node just made by [new ASTNode] that was given the [id], [class]
    and [style] of [node]. *)
Definition fresh_with_ids (node : ASTNode) : ASTNode :=
  mkASTNode AST_UNKNOWN 0 zero 1 0 None [] "" (mId node) (mClass node) (mStyle node)
    false false [] [].

Lemma eqb_empty_false (s : string) : String.eqb s "" = false -> exists c r, s = String c r.
Proof. destruct s as [|c r]; [discriminate | eauto]. Qed.

Lemma readIdClassStyle_fresh (node : ASTNode) (name prefix chars : string)
    (kind : XMLTokenKind) :
  readIdClassStyle new_ASTNode (mkXMLToken name prefix (id_class_style node) chars kind)
  = fresh_with_ids node.
Proof.
  unfold readIdClassStyle, id_class_style, isSetId, isSetClass, isSetStyle, fresh_with_ids.
  cbn [tok_attributes].
  destruct (String.eqb (mId node) "") eqn:Ei;
    destruct (String.eqb (mClass node) "") eqn:Ec;
    destruct (String.eqb (mStyle node) "") eqn:Es;
    cbn [negb app readInto getValue String.eqb Ascii.eqb Bool.eqb];
    rewrite ?Ei, ?Ec, ?Es; cbn [negb];
    try (apply String.eqb_eq in Ei; rewrite Ei);
    try (apply String.eqb_eq in Ec; rewrite Ec);
    try (apply String.eqb_eq in Es; rewrite Es);
    reflexivity.
Qed.

Lemma checkAttributes_id_class_style (node : ASTNode) (stream : XMLInputStream)
    (name prefix chars : string) (kind : XMLTokenKind) (level version : Z) :
  checkAttributes stream (mkXMLToken name prefix (id_class_style node) chars kind)
    level version = stream.
Proof.
  unfold checkAttributes, id_class_style. cbn [tok_attributes tok_name].
  destruct (isSetId node), (isSetClass node), (isSetStyle node); reflexivity.
Qed.

(** The kind the static tables give an element name. *)
Definition element_type (name : string) : ASTNodeType_t :=
  nth (Z.to_nat (util_bsearchStringsI MATHML_ELEMENTS name 0 (size - 1))) MATHML_TYPES
    AST_UNKNOWN.

(** Reading the empty element of an operator or function into a node
    that has no child yet: the node gets the kind of the element and the
    [id], [class] and [style] written on it. *)
Lemma read_operator_tag (op : string) (node : ASTNode) (toks rest : list XMLToken)
    (log : SBMLErrorLog) (fuel : nat) :
  In op ["plus"; "times"; "log"; "root"] ->
  drop_text toks = empty_token op (id_class_style node) :: rest ->
  readMathML_node (S fuel) new_ASTNode (stream_of toks log) ""
  = Some (ASTNode_setType (fresh_with_ids node) (element_type op), stream_of rest log).
Proof.
  intros Hop Hdrop.
  rewrite readMathML_node_S. unfold readMathML_body. cbv zeta.
  rewrite skipText_stream_of, Hdrop.
  unfold readElementToken. cbv zeta.
  change (next (stream_of (empty_token op (id_class_style node) :: rest) log))
    with (empty_token op (id_class_style node), stream_of rest log).
  change (peek (stream_of (empty_token op (id_class_style node) :: rest) log))
    with (empty_token op (id_class_style node)).
  cbv iota beta. unfold empty_token.
  rewrite checkAttributes_id_class_style, readIdClassStyle_fresh.
  cbn [tok_name tok_prefix].
  destruct Hop as [<-|[<-|[<-|[<-|[]]]]]; vm_compute; reflexivity.
Qed.

Lemma element_type_plus : element_type "plus" = AST_PLUS.
Proof. vm_compute. reflexivity. Qed.
Lemma element_type_times : element_type "times" = AST_TIMES.
Proof. vm_compute. reflexivity. Qed.
Lemma element_type_log : element_type "log" = AST_FUNCTION_LOG.
Proof. vm_compute. reflexivity. Qed.
Lemma element_type_root : element_type "root" = AST_FUNCTION_ROOT.
Proof. vm_compute. reflexivity. Qed.

(** Reading [<apply> <op/> child ... child </apply>] where every child
    reads well: the node gets the kind of [op], absorbs the children in
    turn, and is completed by [checkFunctionArgs]; the stream is left
    after the end token of the apply. *)
Lemma read_apply (op : string) (node : ASTNode) (k : nat) (children : list ChildRead)
    (toks inner body tail rest : list XMLToken) (log : SBMLErrorLog) (fuel : nat) :
  In op ["plus"; "times"; "log"; "root"] ->
  Forall (good_child k) children ->
  drop_text toks = start_token "apply" [] :: inner ->
  drop_text inner = empty_token op (id_class_style node) :: body ->
  drop_text body = drop_text (concat (map read_tokens children) ++ tail) ->
  drop_text tail = end_token "apply" :: rest ->
  (List.length children + k + 3 <= fuel)%nat ->
  readMathML_node fuel new_ASTNode (stream_of toks log) ""
  = Some (checkFunctionArgs
            (fold_left absorb (map read_node children)
               (ASTNode_setType (fresh_with_ids node) (element_type op))),
          stream_of rest (log ++ concat (map read_errors children))).
Proof.
  intros Hop Hgood Htoks Hinner Hbody Htail Hfuel.
  destruct fuel as [|[|fuel]]; [lia | lia |].
  rewrite readMathML_node_S. unfold readMathML_body. cbv zeta.
  rewrite skipText_stream_of, Htoks.
  unfold readElementToken. cbv zeta.
  change (next (stream_of (start_token "apply" [] :: inner) log))
    with (start_token "apply" [], stream_of inner log).
  change (peek (stream_of (start_token "apply" [] :: inner) log))
    with (start_token "apply" []).
  cbv iota beta.
  change (readIdClassStyle new_ASTNode (start_token "apply" [])) with new_ASTNode.
  change (checkAttributes _ (start_token "apply" []) _ _)
    with (stream_of inner log).
  change (tok_name (start_token "apply" [])) with "apply".
  cbn [start_token tok_isStart tok_isEnd tok_kind tok_prefix String.eqb Ascii.eqb
       Bool.eqb andb orb negb].
  unfold checkApplyOperator. cbv zeta. rewrite skipText_stream_of, Hinner.
  change (tok_name (peek (stream_of (empty_token op (id_class_style node) :: body) log)))
    with op.
  assert (Hok : (String.eqb op "bvar" || String.eqb op "piece" || String.eqb op "otherwise"
                 || String.eqb op "logbase" || String.eqb op "degree"
                 || String.eqb op "lambda" || String.eqb op "semantics") = false).
  { destruct Hop as [<-|[<-|[<-|[<-|[]]]]]; reflexivity. }
  rewrite Hok.
  rewrite (read_operator_tag op node _ body log fuel Hop)
    by (cbn [drop_text empty_token tok_isText tok_kind]; reflexivity).
  set (head := ASTNode_setType (fresh_with_ids node) (element_type op)).
  assert (Hhead : isName head = false /\ applyHeadRejected head (stream_of body log)
                    (start_token "apply" []) = None
                  /\ type_eqb (getType head) AST_CONSTANT_TRUE = false
                  /\ type_eqb (getType head) AST_CONSTANT_FALSE = false).
  { unfold head.
    destruct Hop as [<-|[<-|[<-|[<-|[]]]]];
      rewrite ?element_type_plus, ?element_type_times, ?element_type_log,
        ?element_type_root; repeat split. }
  destruct Hhead as (Hname & Hrej & Htrue & Hfalse).
  rewrite Hname, Hrej.
  rewrite (readChildren_apply k [] rest children head body tail log (S fuel)
             Hgood Htail Hbody Htrue Hfalse) by lia.
  unfold readMathML_finish. cbn [tok_name start_token String.eqb Ascii.eqb Bool.eqb].
  reflexivity.
Qed.







End ReaderLoop.

(* ====================================================================== *)
(** ** The tokens of a written operator                                    *)
(* ====================================================================== *)

(** The state of the text layer between two sibling elements: nothing
    open, nothing buffered, auto-indent on. *)
Definition xs_inner : XMLWriterState := mkXMLWriterState None None true true.

(** The tokens of an output written between siblings. *)
Definition segment_tokens (evs : list XMLOutput) : list XMLToken :=
  snd (xml_run xs_inner evs).

(** The output leaves the text layer as it found it. *)
Definition closed_output (evs : list XMLOutput) : Prop :=
  fst (xml_run xs_inner evs) = xs_inner.




Definition ws_token : XMLToken := text_token newline.


(* ====================================================================== *)
(** ** Plus and times: written flat, read back binary                      *)
(* ====================================================================== *)




Section FlatOperator.

Variable double_to_string : float -> string.


Lemma child_output_0 (write : ASTNode -> list XMLOutput) (a : ASTNode) (cs : list ASTNode) :
  child_output write (a :: cs) 0 = write a.
Proof. reflexivity. Qed.

Lemma child_output_1 (write : ASTNode -> list XMLOutput) (a b : ASTNode) (cs : list ASTNode) :
  child_output write (a :: b :: cs) 1 = write b.
Proof. reflexivity. Qed.





End FlatOperator.








(* ====================================================================== *)
(** ** Default arguments of log and root                                   *)
(* ====================================================================== *)

(** The child [checkFunctionArgs] makes: [new ASTNode], [setValue(value)],
    [setUnits("dimensionless")]. *)
Definition default_argument (value : Z) : ASTNode :=
  setUnits (setValue_int new_ASTNode value) "dimensionless".

(** C3: a [log] or [root] node that has exactly one child when
    [readMathML] completes it gets a new first child, the integer 10 for
    [log] and 2 for [root], with units "dimensionless", so that it has
    two children with the default first.  In particular an [apply] of
    [<log/>] or [<root/>] to a single argument is read as such a node. *)
Theorem C3_default_argument_is_prepended :
  forall (ns : option SBMLNamespaces) (reg : list (string * ASTNodeType_t))
         (seg : list XMLToken) (c : ASTNode) (errs : SBMLErrorLog) (k : nat),
    child_segment seg = true ->
    ReadsAs ns reg seg c errs k ->
    (forall node child stream elem,
        mChildren node = [child] ->
        (getType node = AST_FUNCTION_LOG ->
         fst (readMathML_finish node stream elem)
         = setChildren node [default_argument 10; child])
        /\ (getType node = AST_FUNCTION_ROOT ->
            fst (readMathML_finish node stream elem)
            = setChildren node [default_argument 2; child]))
    /\ (forall value,
          getType (default_argument value) = AST_INTEGER
          /\ getInteger (default_argument value) = value
          /\ getUnits (default_argument value) = "dimensionless"
          /\ getNumChildren (default_argument value) = 0)
    /\ (forall (fuel : nat) (rest : list XMLToken) (log : SBMLErrorLog),
          (k + 4 <= fuel)%nat ->
          readMathML_node fuel new_ASTNode
            (mkXMLInputStream
               ([start_token "apply" []; empty_token "log" []] ++ seg
                ++ [end_token "apply"] ++ rest) log ns reg) ""
          = Some (setChildren (ASTNode_of_type AST_FUNCTION_LOG) [default_argument 10; c],
                  mkXMLInputStream rest (log ++ errs) ns reg)
          /\ readMathML_node fuel new_ASTNode
               (mkXMLInputStream
                  ([start_token "apply" []; empty_token "root" []] ++ seg
                   ++ [end_token "apply"] ++ rest) log ns reg) ""
             = Some (setChildren (ASTNode_of_type AST_FUNCTION_ROOT) [default_argument 2; c],
                     mkXMLInputStream rest (log ++ errs) ns reg)).
Proof.
  intros ns reg seg c errs k Hseg Hreads. split; [|split].
  - intros node child stream elem Hkids. unfold readMathML_finish. cbn [fst].
    unfold checkFunctionArgs, getNumChildren, getType. rewrite Hkids.
    cbn [List.length Z.of_nat Z.eqb Pos.of_succ_nat Pos.eqb].
    split; intros Hty; rewrite Hty; cbn [type_eqb type_code Z.eqb Pos.eqb];
      unfold prependChild; rewrite Hkids; reflexivity.
  - intros value. repeat split.
  - intros fuel rest log Hfuel.
    assert (Hgood : Forall (good_child ns reg k) [(seg, c, errs)]).
    { constructor; [split; assumption | constructor]. }
    split.
    + pose proof (read_apply ns reg "log" new_ASTNode k [(seg, c, errs)]
                    ([start_token "apply" []; empty_token "log" []] ++ seg
                     ++ [end_token "apply"] ++ rest)
                    ([empty_token "log" []] ++ seg ++ [end_token "apply"] ++ rest)
                    (seg ++ [end_token "apply"] ++ rest)
                    ([end_token "apply"] ++ rest) rest log fuel
                    ltac:(simpl; auto) Hgood eq_refl eq_refl) as Hread.
      unfold stream_of in Hread. rewrite Hread.
      * simpl. rewrite app_nil_r. reflexivity.
      * simpl. rewrite app_nil_r. reflexivity.
      * reflexivity.
      * simpl. lia.
    + pose proof (read_apply ns reg "root" new_ASTNode k [(seg, c, errs)]
                    ([start_token "apply" []; empty_token "root" []] ++ seg
                     ++ [end_token "apply"] ++ rest)
                    ([empty_token "root" []] ++ seg ++ [end_token "apply"] ++ rest)
                    (seg ++ [end_token "apply"] ++ rest)
                    ([end_token "apply"] ++ rest) rest log fuel
                    ltac:(simpl; auto) Hgood eq_refl eq_refl) as Hread.
      unfold stream_of in Hread. rewrite Hread.
      * simpl. rewrite app_nil_r. reflexivity.
      * simpl. rewrite app_nil_r. reflexivity.
      * reflexivity.
      * simpl. lia.
Qed.

Lemma ci_bare_reads_as (ns : option SBMLNamespaces) (reg : list (string * ASTNodeType_t))
    (text : string) :
  ReadsAs ns reg [start_token "ci" []; text_token text; end_token "ci"]
    (setName new_ASTNode (trim text)) [] 1.
Proof.
  intros fuel rest log Hfuel. destruct fuel as [|fuel]; [lia|].
  rewrite readMathML_node_S. rewrite app_nil_r. reflexivity.
Qed.

Lemma C3_default_argument_is_prepended_witness :
  readMathML_node 5 new_ASTNode
    (mkXMLInputStream
       [ start_token "apply" []; empty_token "log" []
       ; start_token "ci" []; text_token "x"; end_token "ci"; end_token "apply" ]
       [] None []) ""
  = Some (setChildren (ASTNode_of_type AST_FUNCTION_LOG)
            [ mkASTNode AST_INTEGER 10 zero 1 0 None [] "dimensionless" "" "" "" false false
                [] []
            ; setName new_ASTNode "x" ],
          mkXMLInputStream [] [] None []).
Proof.
  destruct (C3_default_argument_is_prepended None []
              [start_token "ci" []; text_token "x"; end_token "ci"]
              (setName new_ASTNode "x") [] 1 eq_refl (ci_bare_reads_as None [] "x"))
    as (_ & _ & Hread).
  destruct (Hread 5%nat [] [] ltac:(lia)) as [Hlog _].
  exact Hlog.
Defined.

(* ====================================================================== *)
(** ** csymbol                                                             *)
(* ====================================================================== *)

(** The kinds [setName] leaves as they are: neither an operator, nor a
    number, nor unknown. *)
Definition kept_by_setName (type : ASTNodeType_t) : bool :=
  negb (isOperator (ASTNode_of_type type) || isNumber (ASTNode_of_type type)
        || isUnknown (ASTNode_of_type type)).

Lemma setName_type (node : ASTNode) (name : string) :
  kept_by_setName (mType node) = true -> mType (setName node name) = mType node.
Proof.
  unfold kept_by_setName, setName, isOperator, isNumber, isInteger, isReal, isUnknown.
  cbn [ASTNode_of_type mType]. intros H. apply negb_true_iff in H. rewrite H. reflexivity.
Qed.

Definition time_csymbol_tokens : list XMLToken :=
  [ start_token "math" []
  ; start_token "csymbol" [("encoding", "text"); ("definitionURL", URL_TIME)]
  ; text_token " t "; end_token "csymbol"
  ; end_token "math" ].

(** C4: for a [csymbol] element whose [definitionURL] the registry
    resolves to a kind that is valid for the level of the namespace
    context, the node gets that kind and the text that follows as its
    name, and nothing is logged; when the URL is not in the registry and
    a namespace context is set, [BadCsymbolDefinitionURLValue] is logged;
    when the URL is not in the registry and no namespace context is set,
    the node becomes [AST_CSYMBOL_FUNCTION] with the URL kept as its
    definition URL, and nothing is logged.  The SBML time URL gives the
    kind [AST_NAME_TIME], with the text as name. *)
Theorem C4_csymbol_resolution :
  forall (node : ASTNode) (attrs : XMLAttributes) (stream : XMLInputStream),
    let element := start_token "csymbol" attrs in
    let url := readInto attrs "definitionURL" "" in
    let type := registry_getType (mDefinitionURLs stream) url in
    let result := setTypeCI node element stream in
    (type_eqb type AST_UNKNOWN = false ->
     isValidCSymbol (getSBMLNamespaces stream) type = true ->
     kept_by_setName type = true ->
     getType (fst result) = type
     /\ mName (fst result) = Some (trim (tok_characters (peek stream)))
     /\ mErrorLog (snd result) = mErrorLog stream)
    /\ (forall ns,
          type_eqb type AST_UNKNOWN = true ->
          getSBMLNamespaces stream = Some ns ->
          mErrorLog (snd result)
          = mErrorLog stream
            ++ [mkSBMLError BadCsymbolDefinitionURLValue (ns_level ns) (ns_version ns) ""])
    /\ (type_eqb type AST_UNKNOWN = true ->
        getSBMLNamespaces stream = None ->
        getType (fst result) = AST_CSYMBOL_FUNCTION
        /\ getDefinitionURLString (fst result) = url
        /\ mErrorLog (snd result) = mErrorLog stream)
    /\ (exists n s,
          readMathML 3 (mkXMLInputStream time_csymbol_tokens [] None []) "" = Some (n, s)
          /\ getType n = AST_NAME_TIME /\ mName n = Some "t" /\ mErrorLog s = []).
Proof.
  intros node attrs stream element url type result.
  unfold result, setTypeCI. cbn [element start_token tok_name tok_attributes String.eqb
    Ascii.eqb Bool.eqb]. fold url. fold type.
  split; [|split; [|split]].
  - intros Hknown Hvalid Hkept. rewrite Hknown, Hvalid, andb_false_r. cbn [orb negb].
    destruct (type_eqb type AST_CSYMBOL_FUNCTION || (type_code type >? type_code AST_UNKNOWN));
      cbn [fst snd next]; unfold getType; rewrite setName_type;
      try (node_fields node; repeat split; reflexivity);
      node_fields node; exact Hkept.
  - intros ns Hunknown Hns. rewrite Hunknown, Hns. cbn [andb orb fst snd next].
    unfold logError. rewrite Hns. reflexivity.
  - intros Hunknown Hns. rewrite Hunknown, Hns. cbn [andb fst snd next].
    unfold getType. rewrite setName_type by (node_fields node; reflexivity).
    node_fields node. repeat split.
  - eexists. eexists. split; [vm_compute; reflexivity|]. repeat split.
Qed.

Lemma C4_csymbol_resolution_witness :
  mErrorLog
    (snd (setTypeCI new_ASTNode
            (start_token "csymbol" [("definitionURL", "http://example.org/unknown")])
            (mkXMLInputStream [text_token " f "; end_token "csymbol"] []
               (Some (mkSBMLNamespaces 3 1)) (addSBMLDefinitions []))))
  = [mkSBMLError BadCsymbolDefinitionURLValue 3 1 ""]
  /\ getType
       (fst (setTypeCI new_ASTNode
               (start_token "csymbol" [("definitionURL", URL_DELAY)])
               (mkXMLInputStream [text_token " d "; end_token "csymbol"] []
                  (Some (mkSBMLNamespaces 2 4)) (addSBMLDefinitions []))))
     = AST_FUNCTION_DELAY
  /\ getType
       (fst (setTypeCI new_ASTNode
               (start_token "csymbol" [("definitionURL", "http://example.org/unknown")])
               (mkXMLInputStream [text_token " f "; end_token "csymbol"] []
                  None (addSBMLDefinitions []))))
     = AST_CSYMBOL_FUNCTION.
Proof.
  split; [|split].
  - destruct (C4_csymbol_resolution new_ASTNode
                [("definitionURL", "http://example.org/unknown")]
                (mkXMLInputStream [text_token " f "; end_token "csymbol"] []
                   (Some (mkSBMLNamespaces 3 1)) (addSBMLDefinitions [])))
      as (_ & Hbad & _).
    exact (Hbad (mkSBMLNamespaces 3 1) eq_refl eq_refl).
  - destruct (C4_csymbol_resolution new_ASTNode [("definitionURL", URL_DELAY)]
                (mkXMLInputStream [text_token " d "; end_token "csymbol"] []
                   (Some (mkSBMLNamespaces 2 4)) (addSBMLDefinitions [])))
      as (Hknown & _).
    exact (proj1 (Hknown eq_refl eq_refl eq_refl)).
  - destruct (C4_csymbol_resolution new_ASTNode
                [("definitionURL", "http://example.org/unknown")]
                (mkXMLInputStream [text_token " f "; end_token "csymbol"] []
                   None (addSBMLDefinitions [])))
      as (_ & _ & Hfallback & _).
    exact (proj1 (Hfallback eq_refl eq_refl)).
Defined.

(* ====================================================================== *)
(** ** The reader always returns                                           *)
(* ====================================================================== *)

(** The number of tokens left on a stream. *)
Definition remaining (s : XMLInputStream) : nat := List.length (mTokens s).

Lemma logError_tokens s e c m : mTokens (logError s e c m) = mTokens s.
Proof. unfold logError. destruct (getSBMLNamespaces s); reflexivity. Qed.

Lemma remaining_logError s e c m : remaining (logError s e c m) = remaining s.
Proof. unfold remaining. now rewrite logError_tokens. Qed.

Lemma peek_logError s e c m : peek (logError s e c m) = peek s.
Proof. unfold peek. now rewrite logError_tokens. Qed.

Lemma isGood_logError s e c m : isGood (logError s e c m) = isGood s.
Proof. unfold isGood. now rewrite logError_tokens. Qed.

Lemma skipText_logError_tokens s e c m :
  mTokens (skipText (logError s e c m)) = mTokens (skipText s).
Proof. unfold skipText. simpl. now rewrite logError_tokens. Qed.

Lemma drop_text_length toks : (List.length (drop_text toks) <= List.length toks)%nat.
Proof.
  induction toks as [|t toks IH]; simpl; [lia|].
  destruct (tok_isText t); simpl; lia.
Qed.

Lemma remaining_skipText s : (remaining (skipText s) <= remaining s)%nat.
Proof. apply drop_text_length. Qed.

Lemma tl_length {A} (l : list A) : (List.length (tl l) <= List.length l)%nat.
Proof. destruct l; simpl; lia. Qed.

Lemma remaining_next s : remaining (snd (next s)) = pred (remaining s).
Proof. unfold next, remaining. simpl. now destruct (mTokens s). Qed.

Lemma drop_until_end_length e toks :
  (List.length (drop_until_end e toks) <= List.length toks)%nat.
Proof.
  induction toks as [|t toks IH]; simpl; [lia|].
  destruct (isEndFor t e); simpl; lia.
Qed.

Lemma remaining_skipPastEnd s e : (remaining (skipPastEnd s e) <= remaining s)%nat.
Proof.
  unfold skipPastEnd. destruct (tok_isEnd e); [lia|].
  unfold remaining. simpl.
  pose proof (drop_until_end_length e (mTokens s)).
  pose proof (tl_length (drop_until_end e (mTokens s))). lia.
Qed.

Ltac split_ifs :=
  repeat match goal with
         | |- context [if ?b then _ else _] => destruct b
         end.

Lemma remaining_checkAttributes s e l v :
  remaining (checkAttributes s e l v) = remaining s.
Proof.
  unfold checkAttributes. cbv zeta. split_ifs;
    rewrite ?remaining_logError; reflexivity.
Qed.

Lemma remaining_readElementToken s p :
  remaining (snd (readElementToken s p)) = pred (remaining s).
Proof.
  unfold readElementToken. cbv zeta.
  destruct (next s) as [elem s'] eqn:Hnext. cbn [snd].
  rewrite remaining_checkAttributes.
  assert (Hs' : remaining s' = pred (remaining s)).
  { rewrite <- remaining_next. now rewrite Hnext. }
  split_ifs; rewrite ?remaining_logError; exact Hs'.
Qed.

Lemma remaining_checkApplyOperator s e :
  (remaining (checkApplyOperator s e) <= remaining s)%nat.
Proof.
  unfold checkApplyOperator. cbv zeta.
  pose proof (remaining_skipText s).
  split_ifs; rewrite ?remaining_logError; lia.
Qed.

Ltac tokens_le :=
  unfold remaining;
  repeat first [ rewrite logError_tokens | progress cbn [mTokens with_tokens fst snd] ];
  match goal with
  | |- (List.length ?l <= List.length (mTokens ?s))%nat =>
      generalize (mTokens s); intros toks;
      destruct toks as [|? [|? [|? [|? toks]]]]; simpl; lia
  end.

Lemma remaining_setTypeCI n e s : (remaining (snd (setTypeCI n e s)) <= remaining s)%nat.
Proof.
  unfold setTypeCI, next. cbv zeta. split_ifs; tokens_le.
Qed.

Lemma remaining_setTypeCN n e s : (remaining (snd (setTypeCN n e s)) <= remaining s)%nat.
Proof.
  unfold setTypeCN, next. cbv zeta.
  split_ifs; tokens_le.
Qed.

Lemma remaining_setType n e s : (remaining (snd (setType n e s)) <= remaining s)%nat.
Proof.
  unfold setType. cbv zeta.
  destruct (_ || _); [apply remaining_setTypeCI|].
  destruct (String.eqb _ "cn"); [apply remaining_setTypeCN|].
  unfold setTypeOther. cbv zeta. split_ifs; simpl; lia.
Qed.

Lemma take_children_length toks :
  forall depth, (List.length (snd (take_children depth toks)) <= List.length toks)%nat.
Proof.
  induction toks as [|t toks IH]; intros depth; simpl; [lia|].
  destruct (tok_isStart t).
  - specialize (IH (if tok_isEnd t then depth else S depth)).
    destruct (take_children _ toks) as [a b]. simpl in *. lia.
  - destruct (tok_isEnd t).
    + destruct depth as [|d]; simpl; [lia|].
      specialize (IH d). destruct (take_children d toks) as [a b]. simpl in *. lia.
    + specialize (IH depth). destruct (take_children depth toks) as [a b]. simpl in *. lia.
Qed.

Lemma remaining_XMLNode_read s : (remaining (snd (XMLNode_read s)) <= remaining s)%nat.
Proof.
  unfold XMLNode_read, next. cbn [fst snd].
  destruct (tok_isEnd (peek s)).
  - unfold remaining. simpl. apply tl_length.
  - cbn [mTokens with_tokens].
    pose proof (take_children_length (tl (mTokens s)) O) as H.
    destruct (take_children O (tl (mTokens s))) as [a b].
    unfold remaining. simpl in *. pose proof (tl_length (mTokens s)). lia.
Qed.

Lemma remaining_readSemanticsAnnotations n :
  forall node s elem,
    (remaining (snd (readSemanticsAnnotations n node s elem)) <= remaining s)%nat.
Proof.
  induction n as [|n IH]; intros node s elem; simpl; [lia|].
  destruct (isGood s && negb (isEndFor (peek s) elem)); [|simpl; lia].
  match goal with
  | |- context [String.eqb (tok_name (peek ?x)) "annotation" || _] =>
      set (s1 := x) in *; assert (Hs1 : (remaining s1 <= remaining s)%nat)
  end.
  { subst s1. destruct (_ && _); [|lia].
    etransitivity; [apply remaining_skipPastEnd|]. rewrite remaining_logError. lia. }
  clearbody s1.
  destruct (_ || _).
  - pose proof (remaining_XMLNode_read s1) as Hx.
    destruct (XMLNode_read s1) as [ann s2]. simpl in Hx. cbv beta iota.
    specialize (IH (addSemanticsAnnotation node ann) s2 elem).
    eapply Nat.le_trans; [exact IH|]. eapply Nat.le_trans; [exact Hx | exact Hs1].
  - eapply Nat.le_trans; [apply IH|].
    eapply Nat.le_trans; [|exact Hs1]. apply tl_length.
Qed.

Lemma remaining_readMathML_finish node s elem :
  (remaining (snd (readMathML_finish node s elem)) <= remaining s)%nat.
Proof.
  unfold readMathML_finish. cbv zeta. cbn [snd].
  etransitivity; [apply remaining_skipPastEnd|].
  pose proof (remaining_skipText s).
  split_ifs; rewrite ?remaining_logError; lia.
Qed.

Lemma remaining_applyHeadRejected node s elem s' :
  applyHeadRejected node s elem = Some s' -> remaining s' = remaining s.
Proof.
  unfold applyHeadRejected. intros H.
  repeat match type of H with
         | (if ?b then _ else _) = _ => destruct b
         end;
    inversion H; subst; try apply remaining_logError.
Qed.

(** What a call of the reader leaves of the stream: a token less, unless
    there was none or the call stopped in front of the end of [math]. *)
Definition advanced (s s' : XMLInputStream) : Prop :=
  (remaining s' < remaining s)%nat \/ remaining s = O
  \/ tok_name (peek (skipText s')) = "math".

Definition returns_node (r : option (ASTNode * XMLInputStream)) (s : XMLInputStream) : Prop :=
  exists node' s', r = Some (node', s') /\ (remaining s' <= remaining s)%nat.

Definition returns_advanced (r : option (ASTNode * XMLInputStream)) (s : XMLInputStream)
    : Prop :=
  exists node' s', r = Some (node', s') /\ (remaining s' <= remaining s)%nat /\ advanced s s'.

Lemma returns_finish node s elem s0 :
  (remaining s <= remaining s0)%nat ->
  returns_node (Some (readMathML_finish node s elem)) s0.
Proof.
  intros H. pose proof (remaining_readMathML_finish node s elem) as Hf.
  destruct (readMathML_finish node s elem) as [n' s']. simpl in Hf.
  exists n', s'. split; [reflexivity | lia].
Qed.

Lemma returns_here node s s0 :
  (remaining s <= remaining s0)%nat -> returns_node (Some (node, s)) s0.
Proof. intros H. exists node, s. split; [reflexivity | exact H]. Qed.

Lemma returns_weaken r s s0 :
  returns_node r s -> (remaining s <= remaining s0)%nat -> returns_node r s0.
Proof.
  intros (n' & s' & Hr & Hle) H. exists n', s'. split; [exact Hr | lia].
Qed.

Lemma advanced_of_pred r s2 stream :
  returns_node r s2 -> (remaining s2 <= pred (remaining stream))%nat ->
  returns_advanced r stream.
Proof.
  intros (n' & s' & Hr & Hle) H. exists n', s'.
  split; [exact Hr|]. split; [lia|].
  unfold advanced. destruct (remaining stream); [right; left; reflexivity | left; lia].
Qed.

Lemma readElementToken_fst s p : fst (readElementToken s p) = peek s.
Proof. unfold readElementToken, next. reflexivity. Qed.

Lemma peek_skipText_idem s : peek (skipText (skipText s)) = peek (skipText s).
Proof. unfold peek, skipText. simpl. now rewrite drop_text_idem. Qed.

Section ReaderReturns.

Variable readNode : ASTNode -> XMLInputStream -> string -> option (ASTNode * XMLInputStream).
Variable readLoop : ASTNode -> XMLInputStream -> XMLToken -> string
                    -> option (ASTNode * XMLInputStream).

(** One call of [readMathML] returns when the calls it makes, on what is
    left after its own token, do. *)
Lemma readMathML_body_returns node stream p :
  (forall node s, (remaining s < remaining stream)%nat -> returns_node (readNode node s p) s) ->
  (forall node s elem, (remaining s < remaining stream)%nat ->
                       returns_node (readLoop node s elem p) s) ->
  returns_advanced (readMathML_body readNode readLoop node stream p) stream.
Proof.
  intros HN HL. unfold readMathML_body. cbv zeta.
  pose proof (remaining_skipText stream) as Hskip.
  pose proof (peek_skipText_idem stream) as Hidem.
  set (s1 := skipText stream) in *.
  destruct (String.eqb (tok_name (peek s1)) "math" && tok_isEnd (peek s1)) eqn:Hmath.
  - apply andb_prop in Hmath as [Hname Hend]. apply String.eqb_eq in Hname.
    match goal with
    | |- returns_advanced (Some (node, skipPastEnd ?sl (peek ?sl))) _ =>
        assert (Hsl : mTokens sl = mTokens s1)
          by (destruct (_ && _); [apply logError_tokens | reflexivity]);
        set (s1' := sl) in *; clearbody s1'
    end.
    assert (Hpeek : peek s1' = peek s1) by (unfold peek; now rewrite Hsl).
    unfold skipPastEnd. rewrite Hpeek, Hend.
    exists node, s1'. split; [reflexivity|].
    assert (Hrem : remaining s1' = remaining s1) by (unfold remaining; now rewrite Hsl).
    split; [lia|]. right. right.
    replace (peek (skipText s1')) with (peek (skipText s1))
      by (unfold peek, skipText; simpl; now rewrite Hsl).
    now rewrite Hidem.
  - clear Hmath.
    pose proof (remaining_readElementToken s1 p) as Hrem.
    pose proof (readElementToken_fst s1 p) as Helem.
    destruct (readElementToken s1 p) as [elem s2]. cbn [fst snd] in Hrem, Helem.
    apply (advanced_of_pred _ s2); [|lia].
    destruct (mTokens s1) as [|t rest] eqn:Htoks.
    + assert (Hpk : peek s1 = EOF_token) by (unfold peek; now rewrite Htoks).
      rewrite Hpk in Helem. subst elem. change (tok_name EOF_token) with "". cbn [String.eqb orb].
      pose proof (remaining_setType (readIdClassStyle node EOF_token) EOF_token s2) as Hty.
      destruct (setType _ EOF_token s2) as [n1 s3]. cbn [snd] in Hty.
      apply returns_finish. exact Hty.
    + assert (Hlt : (remaining s2 < remaining stream)%nat).
      { unfold remaining in Hrem, Hskip |- *. rewrite Htoks in Hrem, Hskip.
        simpl in Hrem, Hskip. unfold remaining. lia. }
      clear Hrem Helem Htoks Hidem.
      destruct (_ || _ || _).
      * destruct (String.eqb (tok_name elem) "apply").
        -- destruct (tok_isStart elem && tok_isEnd elem); [now apply returns_here|].
           destruct (tok_isEnd elem); [now apply returns_here|].
           pose proof (remaining_checkApplyOperator s2 elem) as Hop.
           destruct (HN (readIdClassStyle node elem) (checkApplyOperator s2 elem))
             as (n1 & s3 & Heq & Hle); [lia|].
           rewrite Heq. cbv beta iota.
           destruct (applyHeadRejected _ s3 elem) as [s4|] eqn:Hrej.
           ++ apply remaining_applyHeadRejected in Hrej. apply returns_here. lia.
           ++ match goal with
              | |- context [readLoop ?n s3 elem p] =>
                  destruct (HL n s3 elem) as (n2 & s5 & Heq2 & Hle2); [lia|]; rewrite Heq2
              end.
              apply returns_finish. lia.
        -- match goal with
           | |- context [readLoop ?n s2 elem p] =>
               destruct (HL n s2 elem) as (n2 & s5 & Heq2 & Hle2); [lia|]; rewrite Heq2
           end.
           apply returns_finish. lia.
      * destruct (String.eqb (tok_name elem) "bvar").
        { match goal with
          | |- context [readNode ?n s2 p] =>
              destruct (HN n s2) as (n1 & s3 & Heq & Hle); [lia|]; rewrite Heq
          end.
          apply returns_finish. lia. }
        destruct (_ || _ || _ || _).
        { match goal with
          | |- context [readNode ?n s2 p] =>
              destruct (HN n s2) as (n1 & s3 & Heq & Hle); [lia|]; rewrite Heq
          end.
          destruct (String.eqb (tok_name elem) "piece");
            [apply returns_here | apply returns_finish]; lia. }
        destruct (String.eqb (tok_name elem) "semantics").
        { match goal with
          | |- context [readNode ?n s2 p] =>
              destruct (HN n s2) as (n1 & s3 & Heq & Hle); [lia|]; rewrite Heq
          end.
          cbv beta iota.
          match goal with
          | |- context [readSemanticsAnnotations ?k ?n ?s ?e] =>
              pose proof (remaining_readSemanticsAnnotations k n s e) as Hsem;
              destruct (readSemanticsAnnotations k n s e) as [n2 s4]
          end.
          cbn [snd] in Hsem. pose proof (remaining_skipText s3).
          apply returns_finish. lia. }
        pose proof (remaining_setType (readIdClassStyle node elem) elem s2) as Hty.
        destruct (setType _ elem s2) as [n1 s3]. cbn [snd] in Hty.
        apply returns_finish. exact Hty.
Qed.

Lemma isGood_remaining s : isGood s = true -> (0 < remaining s)%nat.
Proof.
  unfold isGood, remaining. destruct (mTokens s); [discriminate | simpl; lia].
Qed.

(** One turn of the child loop returns when the call for the child does
    and the rest of the loop, on fewer tokens or at its end, does. *)
Lemma readChildren_body_returns node stream elem p :
  (forall node s, (remaining s <= remaining stream)%nat ->
                  returns_advanced (readNode node s p) s) ->
  (forall node s,
      (remaining s < remaining stream)%nat
      \/ ((remaining s <= remaining stream)%nat
          /\ (isGood s && negb (isEndFor (peek s) elem)) = false) ->
      returns_node (readLoop node s elem p) s) ->
  returns_node (readChildren_body readNode readLoop node stream elem p) stream.
Proof.
  intros HN HL. unfold readChildren_body. cbv zeta.
  destruct (isGood stream && negb (isEndFor (peek stream) elem)) eqn:Hcond;
    [|now apply returns_here].
  apply andb_prop in Hcond as [Hgood _]. apply isGood_remaining in Hgood.
  pose proof (remaining_skipText stream) as Hskip.
  set (s1 := skipText stream) in *. clearbody s1.
  destruct (isEndFor (peek s1) elem) eqn:Hend.
  - apply (returns_weaken _ s1); [|exact Hskip].
    apply HL. right. split; [exact Hskip|]. rewrite Hend. apply andb_false_r.
  - destruct (_ || _); [now apply returns_here|].
    destruct (String.eqb (tok_name (peek s1)) "math" && tok_isStart (peek s1)).
    all: cbv beta iota.
    all: match goal with
         | |- context [readNode new_ASTNode ?s _] =>
             destruct (HN new_ASTNode s) as (c & s2 & Heq & Hle & Hadv);
               [rewrite ?remaining_logError; lia|]; rewrite Heq; cbv beta iota
         end.
    all: unfold advanced in Hadv; rewrite ?remaining_logError in Hle, Hadv.
    all: pose proof (remaining_skipText s2) as Hskip2.
    all: destruct (String.eqb (tok_name (peek (skipText s2))) "math") eqn:Hm;
      [ apply returns_here; split_ifs; rewrite ?remaining_logError; lia |].
    all: apply String.eqb_neq in Hm.
    all: destruct Hadv as [Hadv | [Hadv | Hadv]]; [| |contradiction].
    all: match goal with
         | |- returns_node (readLoop ?n ?s _ _) _ =>
             assert (Hfin : (remaining s <= remaining s2)%nat);
               [ split_ifs; rewrite ?remaining_next, ?remaining_logError; lia
               | apply (returns_weaken _ s); [apply HL; left|]; lia ]
         end.
Qed.

End ReaderReturns.

(** The reader returns on every stream, given fuel for its tokens. *)
Lemma reader_returns (fuel : nat) :
  (forall node stream p,
      (2 * remaining stream + 1 <= fuel)%nat ->
      returns_advanced (readMathML_node fuel node stream p) stream)
  /\ (forall node stream elem p,
         (2 * remaining stream + 2 <= fuel)%nat ->
         returns_node (readChildren fuel node stream elem p) stream).
Proof.
  induction fuel as [|fuel [IHnode IHloop]].
  - split; intros; lia.
  - split.
    + intros node stream p Hfuel. simpl.
      apply readMathML_body_returns.
      * intros n s Hlt. destruct (IHnode n s p) as (n' & s' & Heq & Hle & _); [lia|].
        exists n', s'. split; [exact Heq | exact Hle].
      * intros n s elem Hlt. apply IHloop. lia.
    + intros node stream elem p Hfuel. simpl.
      apply readChildren_body_returns.
      * intros n s Hle. apply IHnode. lia.
      * intros n s [Hlt | [Hle Hcond]].
        -- apply IHloop. lia.
        -- destruct fuel as [|fuel']; [lia|].
           simpl. unfold readChildren_body. rewrite Hcond. now apply returns_here.
Qed.

Ltac tokens_bound :=
  unfold remaining;
  repeat first
    [ rewrite logError_tokens
    | progress cbn [mTokens with_tokens skipText setSBMLDefinitionURLs fst snd]
    | apply Nat.le_refl
    | (eapply Nat.le_trans; [apply drop_text_length|])
    | (eapply Nat.le_trans; [apply tl_length|]) ].

(** [readMathML] returns a node on every stream: with [fuel_for] the
    model of the reader never stops for want of fuel. *)
Lemma readMathML_returns (stream : XMLInputStream) (reqd_prefix : string) :
  exists node stream',
    readMathML (fuel_for stream) stream reqd_prefix = Some (node, stream').
Proof.
  pose proof (proj1 (reader_returns (fuel_for stream))) as Hnode.
  assert (Hcall : forall node s,
             (remaining s <= remaining stream)%nat ->
             exists n' s', readMathML_node (fuel_for stream) node s reqd_prefix
                           = Some (n', s')).
  { intros node s Hle.
    destruct (Hnode node s reqd_prefix) as (n' & s' & Heq & _).
    - unfold fuel_for. fold (remaining stream). lia.
    - now exists n', s'. }
  clear Hnode. unfold readMathML, next. cbv zeta. cbv beta iota.
  generalize dependent (fuel_for stream). intros fuel Hcall.
  split_ifs; try (eexists; eexists; reflexivity).
  all: match goal with
       | |- context [readMathML_node _ ?n ?s _] =>
           let H := fresh "H" in
           destruct (Hcall n s) as (n' & s' & H); [tokens_bound | rewrite H]
       end.
  all: eexists; eexists; reflexivity.
Qed.

(* ====================================================================== *)
(** ** The strictness of readMathMLFromString                              *)
(* ====================================================================== *)

(** When [readMathMLFromString] discards the tree: the log is not empty
    and none of its records has the code 10218. *)
Lemma discard_or_return_None (ast : ASTNode) (log : SBMLErrorLog) :
  discard_or_return ast log = None <-> log <> [] /\ contains log 10218 = false.
Proof.
  unfold discard_or_return, getNumErrors.
  destruct log as [|e log].
  - simpl. split; [discriminate | intros [H _]; congruence].
  - replace (Z.of_nat (List.length (e :: log)) >? 0) with true
      by (symmetry; apply Z.gtb_lt;
          change (List.length (e :: log)) with (S (List.length log)); lia).
    destruct (contains (e :: log) 10218); simpl.
    + split; [discriminate | intros [_ H]; discriminate H].
    + split; [intros _; split; [discriminate | reflexivity] | reflexivity].
Qed.

(** The read inside [readMathMLFromString] returns on every text. *)
Lemma readMathMLFromString_read_returns
    (xml_parse : string -> list XMLToken * SBMLErrorLog)
    (registry : list (string * ASTNodeType_t)) (xml : string)
    (sbmlns : option SBMLNamespaces) :
  exists ast stream,
    readMathMLFromString_read xml_parse registry xml sbmlns = Some (ast, stream).
Proof.
  unfold readMathMLFromString_read.
  destruct (xml_parse _) as [tokens errors].
  apply readMathML_returns.
Qed.

(** A piecewise whose only piece has a single child, and that child a
    [cn] of a type that does not exist. *)
Definition C2_text : string :=
  "<math xmlns='http://www.w3.org/1998/Math/MathML'><piecewise><piece>"
  +++ "<cn type='foo'>5</cn></piece></piecewise></math>".

Definition C2_tokens : list XMLToken :=
  [ start_token "math" []
  ; start_token "piecewise" []
  ; start_token "piece" []
  ; start_token "cn" [("type", "foo")]; text_token "5"; end_token "cn"
  ; end_token "piece"
  ; end_token "piecewise"
  ; end_token "math" ].

(** The tree [readMathMLFromString] returns for [C2_text]. *)
Definition C2_tree : ASTNode :=
  setChildren (ASTNode_of_type AST_FUNCTION_PIECEWISE) [new_ASTNode].

(** C2, at its failing input: the log of the read holds
    [DisallowedMathTypeAttributeValue], which is not the tolerated code,
    next to [OpsNeedCorrectNumberOfArgs] (10218), and
    [readMathMLFromString] returns the tree instead of NULL.  On every
    text the read returns a tree, and [readMathMLFromString] discards it
    exactly when the log is not empty and holds no record of code 10218;
    the lower-level reader returns a tree on every stream. *)
Theorem C2_tolerated_code_masks_other_errors :
  forall (xml_parse : string -> list XMLToken * SBMLErrorLog)
         (registry : list (string * ASTNodeType_t)),
    xml_parse (dummy_xml +++ C2_text) = (C2_tokens, []) ->
    (exists stream,
        readMathMLFromString_read xml_parse registry C2_text None = Some (C2_tree, stream)
        /\ map (fun e => error_code (err_id e)) (mErrorLog stream) = [10207; 10218])
    /\ readMathMLFromString xml_parse registry (Some C2_text) = Some C2_tree
    /\ (forall xml, exists ast stream,
          readMathMLFromString_read xml_parse registry xml None = Some (ast, stream)
          /\ (readMathMLFromString xml_parse registry (Some xml) = None
              <-> mErrorLog stream <> []
                  /\ contains (mErrorLog stream) 10218 = false))
    /\ (forall stream reqd_prefix, exists node stream',
          readMathML (fuel_for stream) stream reqd_prefix = Some (node, stream')).
Proof.
  intros xml_parse registry Hparse.
  assert (Hread : readMathMLFromString_read xml_parse registry C2_text None
                  = Some (C2_tree,
                          mkXMLInputStream []
                            [ mkSBMLError DisallowedMathTypeAttributeValue 3 2 ""
                            ; mkSBMLError OpsNeedCorrectNumberOfArgs 3 2
                                "The <piece> element should have two child elements." ]
                            None (addSBMLDefinitions registry))).
  { unfold readMathMLFromString_read.
    change (has_xml_declaration C2_text) with false. cbv iota.
    rewrite Hparse. vm_compute. reflexivity. }
  split; [|split; [|split]].
  - eexists. split; [exact Hread | reflexivity].
  - unfold readMathMLFromString. rewrite Hread. reflexivity.
  - intros xml.
    destruct (readMathMLFromString_read_returns xml_parse registry xml None)
      as (ast & stream & Hxml).
    exists ast, stream. split; [exact Hxml|].
    unfold readMathMLFromString. rewrite Hxml. apply discard_or_return_None.
  - apply readMathML_returns.
Qed.

Lemma C2_tolerated_code_masks_other_errors_witness :
  readMathMLFromString (fun _ => (C2_tokens, [])) [] (Some C2_text) = Some C2_tree.
Proof.
  exact (proj1 (proj2 (C2_tolerated_code_masks_other_errors
                         (fun _ => (C2_tokens, [])) [] eq_refl))).
Defined.

(* ====================================================================== *)
(** ** trim                                                                *)
(* ====================================================================== *)

(** The list form of [drop_leading]. *)
Fixpoint drop_while (p : ascii -> bool) (l : list ascii) : list ascii :=
  match l with
  | [] => []
  | c :: r => if p c then drop_while p r else l
  end.

Lemma drop_leading_list (p : ascii -> bool) (s : string) :
  list_ascii_of_string (drop_leading p s) = drop_while p (list_ascii_of_string s).
Proof.
  induction s as [|c r IH]; [reflexivity|]. simpl. destruct (p c); [exact IH | reflexivity].
Qed.

Lemma string_rev_onto_list (s acc : string) :
  list_ascii_of_string (string_rev_onto s acc)
  = rev (list_ascii_of_string s) ++ list_ascii_of_string acc.
Proof.
  revert acc; induction s as [|c r IH]; intros acc; [reflexivity|].
  simpl. rewrite IH. simpl. rewrite <- app_assoc. reflexivity.
Qed.

Lemma string_rev_list (s : string) :
  list_ascii_of_string (string_rev s) = rev (list_ascii_of_string s).
Proof. unfold string_rev. rewrite string_rev_onto_list. simpl. apply app_nil_r. Qed.

(** [trim] on the characters of the string. *)
Definition trim_list (l : list ascii) : list ascii :=
  rev (drop_while is_trim_ws (rev (drop_while is_trim_ws l))).

Lemma trim_as_list (s : string) :
  list_ascii_of_string (trim s) = trim_list (list_ascii_of_string s).
Proof.
  unfold trim, trim_list.
  rewrite string_rev_list, drop_leading_list, string_rev_list, drop_leading_list.
  reflexivity.
Qed.

Lemma list_ascii_inj (a b : string) :
  list_ascii_of_string a = list_ascii_of_string b -> a = b.
Proof.
  intros H. rewrite <- (string_of_list_ascii_of_string a), H.
  apply string_of_list_ascii_of_string.
Qed.

Lemma drop_while_idem (p : ascii -> bool) (l : list ascii) :
  drop_while p (drop_while p l) = drop_while p l.
Proof.
  induction l as [|c r IH]; [reflexivity|]. simpl.
  destruct (p c) eqn:E; [exact IH|]. simpl. rewrite E. reflexivity.
Qed.

Lemma drop_while_split (p : ascii -> bool) (l : list ascii) :
  exists w, l = w ++ drop_while p l /\ forallb p w = true.
Proof.
  induction l as [|c r (w & Hw & Hall)].
  - exists []. split; reflexivity.
  - simpl. destruct (p c) eqn:E.
    + exists (c :: w). simpl. rewrite E, Hall. split; [f_equal; exact Hw | reflexivity].
    + exists []. split; reflexivity.
Qed.

Lemma drop_while_all (p : ascii -> bool) (w l : list ascii) :
  forallb p w = true -> drop_while p (w ++ l) = drop_while p l.
Proof.
  induction w as [|c w IH]; [reflexivity|]. simpl. intros H.
  apply andb_prop in H as [Hc Hw]. rewrite Hc. apply IH. exact Hw.
Qed.

Lemma drop_while_app_fixed (p : ascii -> bool) (a b : list ascii) :
  a <> [] -> drop_while p (a ++ b) = a ++ b -> drop_while p a = a.
Proof.
  destruct a as [|c a]; [congruence|]. intros _. simpl.
  destruct (p c); [|reflexivity].
  intros H. exfalso.
  assert (Hlen : (List.length (drop_while p (a ++ b)) <= List.length (a ++ b))%nat).
  { clear H. induction (a ++ b) as [|x l IH]; simpl; [lia|].
    destruct (p x); simpl; lia. }
  rewrite H in Hlen. simpl in Hlen. lia.
Qed.

(** What [trim] returns neither begins nor ends with whitespace. *)
Lemma trim_list_clean (l : list ascii) :
  drop_while is_trim_ws (trim_list l) = trim_list l
  /\ drop_while is_trim_ws (rev (trim_list l)) = rev (trim_list l).
Proof.
  unfold trim_list. set (a := drop_while is_trim_ws l).
  assert (Ha : drop_while is_trim_ws a = a) by apply drop_while_idem.
  split.
  - destruct (drop_while_split is_trim_ws (rev a)) as (w & Hw & _).
    set (r := drop_while is_trim_ws (rev a)) in *.
    assert (Hrev : a = rev r ++ rev w).
    { rewrite <- rev_app_distr, <- Hw, rev_involutive. reflexivity. }
    assert (Hcase : rev r = [] \/ rev r <> [])
      by (destruct (rev r); [left; reflexivity | right; discriminate]).
    destruct Hcase as [E | E]; [rewrite E; reflexivity|].
    apply (drop_while_app_fixed is_trim_ws (rev r) (rev w) E).
    rewrite <- Hrev. exact Ha.
  - rewrite rev_involutive. apply drop_while_idem.
Qed.

Lemma trim_list_fixed (l : list ascii) :
  drop_while is_trim_ws l = l ->
  drop_while is_trim_ws (rev l) = rev l ->
  trim_list l = l.
Proof.
  intros H1 H2. unfold trim_list. rewrite H1, H2. apply rev_involutive.
Qed.

(** Whether the string begins, or ends, with one of the characters that
    [trim] removes. *)
Definition begins_with_whitespace (s : string) : bool :=
  match s with
  | String c _ => is_trim_ws c
  | EmptyString => false
  end.
Definition ends_with_whitespace (s : string) : bool :=
  begins_with_whitespace (string_rev s).

(** A string of whitespace only. *)
Definition only_whitespace (s : string) : bool :=
  forallb is_trim_ws (list_ascii_of_string s).

Lemma begins_with_whitespace_list (s : string) :
  begins_with_whitespace s = false
  <-> drop_while is_trim_ws (list_ascii_of_string s) = list_ascii_of_string s.
Proof.
  destruct s as [|c r]; simpl; [split; reflexivity|].
  destruct (is_trim_ws c) eqn:E; split; try reflexivity; try discriminate.
  intros H. exfalso.
  destruct (drop_while_split is_trim_ws (list_ascii_of_string r)) as (w & Hw & _).
  assert (Hlen : List.length (drop_while is_trim_ws (list_ascii_of_string r))
                 = S (List.length (list_ascii_of_string r))) by (rewrite H; reflexivity).
  rewrite Hw in Hlen at 2. rewrite length_app in Hlen. lia.
Qed.

Lemma list_ascii_of_string_app (a b : string) :
  list_ascii_of_string (a +++ b) = list_ascii_of_string a ++ list_ascii_of_string b.
Proof. induction a as [|c a IH]; [reflexivity|]. simpl. rewrite IH. reflexivity. Qed.

Lemma drop_while_rev_all (w l : list ascii) :
  forallb is_trim_ws w = true ->
  drop_while is_trim_ws (rev (l ++ w)) = drop_while is_trim_ws (rev l).
Proof.
  intros H. rewrite rev_app_distr. apply drop_while_all.
  rewrite forallb_forall in *. intros x Hx. apply H. apply in_rev. exact Hx.
Qed.

(** Whitespace before and after a text does not change what [trim]
    returns for it. *)
Lemma trim_padding (b t a : string) :
  only_whitespace b = true -> only_whitespace a = true ->
  trim (b +++ t +++ a) = trim t.
Proof.
  intros Hb Ha. apply list_ascii_inj. rewrite !trim_as_list.
  rewrite !list_ascii_of_string_app. unfold trim_list, only_whitespace in *.
  rewrite (drop_while_all _ _ _ Hb).
  destruct (drop_while_split is_trim_ws (list_ascii_of_string t)) as (w & Hw & Hall).
  pose proof (drop_while_idem is_trim_ws (list_ascii_of_string t)) as Hidem.
  remember (drop_while is_trim_ws (list_ascii_of_string t)) as d eqn:Ed.
  destruct d as [|c d'].
  - rewrite Hw, app_nil_r, (drop_while_all _ w _ Hall).
    assert (Hnil : drop_while is_trim_ws (list_ascii_of_string a) = []).
    { rewrite <- (app_nil_r (list_ascii_of_string a)).
      rewrite (drop_while_all _ _ [] Ha). reflexivity. }
    rewrite Hnil. reflexivity.
  - assert (Hc : is_trim_ws c = false).
    { simpl in Hidem. destruct (is_trim_ws c); [|reflexivity]. exfalso.
      destruct (drop_while_split is_trim_ws d') as (w' & Hw' & _).
      assert (Hlen : List.length (drop_while is_trim_ws d') = S (List.length d'))
        by (rewrite Hidem; reflexivity).
      rewrite Hw' in Hlen at 2. rewrite length_app in Hlen. lia. }
    rewrite Hw at 1. rewrite <- app_assoc, (drop_while_all _ w _ Hall).
    simpl. rewrite Hc.
    change (c :: d' ++ list_ascii_of_string a) with ((c :: d') ++ list_ascii_of_string a).
    rewrite (drop_while_rev_all _ _ Ha). reflexivity.
Qed.

(** X1: [trim] is idempotent; whitespace around a text does not change
    what [trim] returns for it, so a text of whitespace only gives the
    empty string; and [trim] returns its argument as it is exactly when
    the argument neither begins nor ends with a space, tab, carriage
    return or newline. *)
Theorem trim_removes_surrounding_whitespace :
  forall (s before after : string),
    trim (trim s) = trim s
    /\ (only_whitespace before = true -> only_whitespace after = true ->
        trim (before +++ s +++ after) = trim s)
    /\ (only_whitespace s = true -> trim s = "")
    /\ (trim s = s
        <-> begins_with_whitespace s = false /\ ends_with_whitespace s = false).
Proof.
  intros s before after.
  pose proof trim_padding as Hpad.
  assert (Hclean := trim_list_clean (list_ascii_of_string s)).
  rewrite <- trim_as_list in Hclean. destruct Hclean as [Hc1 Hc2].
  split; [|split; [|split]].
  - apply list_ascii_inj. rewrite trim_as_list. apply trim_list_fixed; assumption.
  - apply Hpad.
  - intros Hs.
    pose proof (Hpad s "" "" Hs eq_refl) as H. simpl in H.
    replace (s +++ "") with s in H; [exact H|].
    clear. induction s as [|c r IH]; [reflexivity | simpl; rewrite <- IH; reflexivity].
  - unfold ends_with_whitespace. rewrite !begins_with_whitespace_list, string_rev_list.
    split.
    + intros H. rewrite <- H. split; assumption.
    + intros [H1 H2]. apply list_ascii_inj. rewrite trim_as_list.
      apply trim_list_fixed; assumption.
Qed.

Lemma trim_removes_surrounding_whitespace_witness :
  trim (" " +++ "x" +++ newline) = trim "x" /\ trim "  " = "".
Proof.
  destruct (trim_removes_surrounding_whitespace "x" " " newline) as (_ & Hpad & _).
  destruct (trim_removes_surrounding_whitespace "  " "" "") as (_ & _ & Hws & _).
  split; [apply Hpad; reflexivity | apply Hws; reflexivity].
Defined.

(* ====================================================================== *)
(** ** What the reader does to its stream                                  *)
(* ====================================================================== *)

(** [s'] is [s] after some reading: tokens were taken from the front,
    records were added at the end of the log, and the namespace context
    and the registry are the same. *)
Definition stream_extends (s s' : XMLInputStream) : Prop :=
  (exists consumed, mTokens s = consumed ++ mTokens s')
  /\ (exists errs, mErrorLog s' = mErrorLog s ++ errs)
  /\ mSBMLns s' = mSBMLns s
  /\ mDefinitionURLs s' = mDefinitionURLs s.

Lemma stream_extends_refl (s : XMLInputStream) : stream_extends s s.
Proof.
  repeat split; [exists []; reflexivity | exists []; symmetry; apply app_nil_r].
Qed.

Lemma stream_extends_trans (s1 s2 s3 : XMLInputStream) :
  stream_extends s1 s2 -> stream_extends s2 s3 -> stream_extends s1 s3.
Proof.
  intros ((c1 & H1) & (e1 & L1) & N1 & R1) ((c2 & H2) & (e2 & L2) & N2 & R2).
  repeat split.
  - exists (c1 ++ c2). rewrite H1, H2, app_assoc. reflexivity.
  - exists (e1 ++ e2). rewrite L2, L1, app_assoc. reflexivity.
  - congruence.
  - congruence.
Qed.

Lemma extends_logError s e c m : stream_extends s (logError s e c m).
Proof.
  unfold logError. destruct (getSBMLNamespaces s);
    (repeat split; [exists []; reflexivity | eexists; reflexivity]).
Qed.

Lemma extends_suffix s (consumed toks : list XMLToken) :
  mTokens s = consumed ++ toks -> stream_extends s (with_tokens s toks).
Proof.
  intros H. repeat split; [exists consumed; exact H | exists []; symmetry; apply app_nil_r].
Qed.

Lemma drop_text_suffix toks : exists consumed, toks = consumed ++ drop_text toks.
Proof.
  induction toks as [|t toks (c & Hc)]; [exists []; reflexivity|].
  simpl. destruct (tok_isText t); [|exists []; reflexivity].
  exists (t :: c). simpl. f_equal. exact Hc.
Qed.

Lemma drop_until_end_suffix e toks : exists consumed, toks = consumed ++ drop_until_end e toks.
Proof.
  induction toks as [|t toks (c & Hc)]; [exists []; reflexivity|].
  simpl. destruct (isEndFor t e); [exists []; reflexivity|].
  exists (t :: c). simpl. f_equal. exact Hc.
Qed.

Lemma tl_suffix {A} (l : list A) : exists consumed, l = consumed ++ tl l.
Proof. destruct l as [|x l]; [exists []; reflexivity | exists [x]; reflexivity]. Qed.

Lemma extends_skipText s : stream_extends s (skipText s).
Proof.
  destruct (drop_text_suffix (mTokens s)) as (c & Hc).
  apply (extends_suffix s c). exact Hc.
Qed.

Lemma extends_next s : stream_extends s (snd (next s)).
Proof.
  destruct (tl_suffix (mTokens s)) as (c & Hc). apply (extends_suffix s c). exact Hc.
Qed.

Lemma extends_skipPastEnd s e : stream_extends s (skipPastEnd s e).
Proof.
  unfold skipPastEnd. destruct (tok_isEnd e); [apply stream_extends_refl|].
  destruct (drop_until_end_suffix e (mTokens s)) as (c & Hc).
  destruct (tl_suffix (drop_until_end e (mTokens s))) as (c' & Hc').
  apply (extends_suffix s (c ++ c')). rewrite <- app_assoc, <- Hc'. exact Hc.
Qed.

(** Steps of the proofs that a function only reads its stream on. *)
Ltac extends_step :=
  match goal with
  | |- stream_extends ?s ?s => apply stream_extends_refl
  | H : stream_extends ?a ?b |- stream_extends ?a ?b => exact H
  | |- stream_extends _ (logError ?x _ _ _) =>
      apply (stream_extends_trans _ x); [|apply extends_logError]
  | |- stream_extends _ (skipText ?x) =>
      apply (stream_extends_trans _ x); [|apply extends_skipText]
  | |- stream_extends _ (skipPastEnd ?x _) =>
      apply (stream_extends_trans _ x); [|apply extends_skipPastEnd]
  | |- stream_extends _ (snd (next ?x)) =>
      apply (stream_extends_trans _ x); [|apply extends_next]
  | |- stream_extends _ (with_tokens ?x (tl (mTokens ?x))) =>
      apply (stream_extends_trans _ x); [|apply (extends_next x)]
  | |- stream_extends _ (if ?b then _ else _) => destruct b
  | H : stream_extends ?a ?b |- stream_extends _ ?b =>
      apply (stream_extends_trans _ a); [|exact H]
  end.

Ltac extends_auto := repeat extends_step.

Lemma extends_checkAttributes s e l v : stream_extends s (checkAttributes s e l v).
Proof. unfold checkAttributes. cbv zeta. extends_auto. Qed.

Lemma extends_readElementToken s p : stream_extends s (snd (readElementToken s p)).
Proof.
  unfold readElementToken, next. cbv zeta. cbv beta iota. cbn [snd].
  apply (stream_extends_trans _ (with_tokens s (tl (mTokens s))));
    [apply (extends_next s)|].
  eapply stream_extends_trans; [|apply extends_checkAttributes].
  extends_auto.
Qed.

Lemma extends_checkApplyOperator s e : stream_extends s (checkApplyOperator s e).
Proof. unfold checkApplyOperator. cbv zeta. extends_auto. Qed.

Lemma extends_setTypeCI n e s : stream_extends s (snd (setTypeCI n e s)).
Proof.
  unfold setTypeCI, next. cbv zeta.
  repeat match goal with
         | |- context [if ?b then _ else _] => destruct b
         end; cbn [fst snd]; extends_auto.
Qed.

Lemma extends_setTypeCN n e s : stream_extends s (snd (setTypeCN n e s)).
Proof.
  unfold setTypeCN, next. cbv zeta.
  repeat match goal with
         | |- context [if ?b then _ else _] => destruct b
         end; cbn [fst snd]; extends_auto.
Qed.

Lemma extends_setType n e s : stream_extends s (snd (setType n e s)).
Proof.
  unfold setType. cbv zeta.
  destruct (_ || _); [apply extends_setTypeCI|].
  destruct (String.eqb _ "cn"); [apply extends_setTypeCN|].
  unfold setTypeOther. cbv zeta.
  repeat match goal with
         | |- context [if ?b then _ else _] => destruct b
         end; cbn [snd]; apply stream_extends_refl.
Qed.

Lemma take_children_suffix toks :
  forall depth, exists consumed, toks = consumed ++ snd (take_children depth toks).
Proof.
  induction toks as [|t toks IH]; intros depth; simpl; [exists []; reflexivity|].
  destruct (tok_isStart t).
  - destruct (IH (if tok_isEnd t then depth else S depth)) as (c & Hc).
    destruct (take_children _ toks) as [a b]. simpl in *. exists (t :: c). simpl. congruence.
  - destruct (tok_isEnd t).
    + destruct depth as [|d]; simpl; [exists [t]; reflexivity|].
      destruct (IH d) as (c & Hc). destruct (take_children d toks) as [a b].
      simpl in *. exists (t :: c). simpl. congruence.
    + destruct (IH depth) as (c & Hc). destruct (take_children depth toks) as [a b].
      simpl in *. exists (t :: c). simpl. congruence.
Qed.

Lemma extends_XMLNode_read s : stream_extends s (snd (XMLNode_read s)).
Proof.
  unfold XMLNode_read, next. cbn [fst snd].
  destruct (tok_isEnd (peek s)); cbn [snd]; [apply (extends_next s)|].
  cbn [mTokens with_tokens].
  destruct (take_children_suffix (tl (mTokens s)) O) as (c & Hc).
  destruct (take_children O (tl (mTokens s))) as [a b]. cbn [snd] in *.
  destruct (tl_suffix (mTokens s)) as (c' & Hc').
  apply (extends_suffix s (c' ++ c)). rewrite <- app_assoc, <- Hc. exact Hc'.
Qed.

Lemma extends_readSemanticsAnnotations n :
  forall node s elem, stream_extends s (snd (readSemanticsAnnotations n node s elem)).
Proof.
  induction n as [|n IH]; intros node s elem; simpl; [apply stream_extends_refl|].
  destruct (isGood s && negb (isEndFor (peek s) elem)); [|apply stream_extends_refl].
  match goal with
  | |- context [String.eqb (tok_name (peek ?x)) "annotation" || _] =>
      set (s1 := x) in *; assert (Hs1 : stream_extends s s1)
  end.
  { subst s1. extends_auto. }
  clearbody s1.
  destruct (_ || _).
  - pose proof (extends_XMLNode_read s1) as Hx.
    destruct (XMLNode_read s1) as [ann s2]. cbn [snd] in Hx. cbv beta iota.
    eapply stream_extends_trans; [|apply IH].
    eapply stream_extends_trans; [exact Hs1 | exact Hx].
  - eapply stream_extends_trans; [|apply IH].
    eapply stream_extends_trans; [exact Hs1 | apply (extends_next s1)].
Qed.

Lemma extends_readMathML_finish node s elem :
  stream_extends s (snd (readMathML_finish node s elem)).
Proof. unfold readMathML_finish. cbv zeta. cbn [snd]. extends_auto. Qed.

Lemma extends_applyHeadRejected node s elem s' :
  applyHeadRejected node s elem = Some s' -> stream_extends s s'.
Proof.
  unfold applyHeadRejected. intros H.
  repeat match type of H with
         | (if ?b then _ else _) = _ => destruct b
         end;
    inversion H; subst; try apply extends_logError.
Qed.

(** What a call leaves, when it returns, is its stream read on. *)
Definition reads_on (r : option (ASTNode * XMLInputStream)) (s : XMLInputStream) : Prop :=
  forall node' s', r = Some (node', s') -> stream_extends s s'.

Lemma reads_on_here node s s0 : stream_extends s0 s -> reads_on (Some (node, s)) s0.
Proof. intros H n' s' E. injection E as _ <-. exact H. Qed.

Lemma reads_on_finish node s elem s0 :
  stream_extends s0 s -> reads_on (Some (readMathML_finish node s elem)) s0.
Proof.
  intros H n' s' E.
  pose proof (extends_readMathML_finish node s elem) as Hf.
  assert (E' : readMathML_finish node s elem = (n', s')) by congruence.
  rewrite E' in Hf. cbn [snd] in Hf.
  eapply stream_extends_trans; eassumption.
Qed.

Lemma reads_on_weaken r s s0 :
  reads_on r s -> stream_extends s0 s -> reads_on r s0.
Proof. intros Hr H n' s' E. eapply stream_extends_trans; [exact H | eapply Hr; exact E]. Qed.

Section ReaderReadsOn.

Variable readNode : ASTNode -> XMLInputStream -> string -> option (ASTNode * XMLInputStream).
Variable readLoop : ASTNode -> XMLInputStream -> XMLToken -> string
                    -> option (ASTNode * XMLInputStream).
Hypothesis readNode_reads_on : forall node s p, reads_on (readNode node s p) s.
Hypothesis readLoop_reads_on : forall node s elem p, reads_on (readLoop node s elem p) s.

Ltac call_node :=
  match goal with
  | |- reads_on (match readNode ?n ?s ?p with _ => _ end) _ =>
      let H := fresh "Hn" in
      pose proof (readNode_reads_on n s p) as H;
      destruct (readNode n s p) as [[? ?]|];
      [specialize (H _ _ eq_refl) | intros ? ? ?; discriminate]
  | |- reads_on (match readLoop ?n ?s ?e ?p with _ => _ end) _ =>
      let H := fresh "Hl" in
      pose proof (readLoop_reads_on n s e p) as H;
      destruct (readLoop n s e p) as [[? ?]|];
      [specialize (H _ _ eq_refl) | intros ? ? ?; discriminate]
  end.

Lemma readMathML_body_reads_on node stream p :
  reads_on (readMathML_body readNode readLoop node stream p) stream.
Proof.
  unfold readMathML_body. cbv zeta.
  pose proof (extends_skipText stream) as Hskip.
  set (s1 := skipText stream) in *. clearbody s1.
  destruct (String.eqb (tok_name (peek s1)) "math" && tok_isEnd (peek s1)).
  - apply reads_on_here. extends_auto.
  - pose proof (extends_readElementToken s1 p) as Hel.
    destruct (readElementToken s1 p) as [elem s2]. cbn [snd] in Hel.
    assert (H2 : stream_extends stream s2) by (eapply stream_extends_trans; eassumption).
    clear Hskip Hel.
    destruct (_ || _ || _).
    + destruct (String.eqb (tok_name elem) "apply").
      * destruct (tok_isStart elem && tok_isEnd elem); [now apply reads_on_here|].
        destruct (tok_isEnd elem); [now apply reads_on_here|].
        pose proof (extends_checkApplyOperator s2 elem) as Hop.
        call_node.
        match goal with
        | |- context [applyHeadRejected ?n ?s ?e] =>
            destruct (applyHeadRejected n s e) as [s4|] eqn:Hrej
        end.
        -- apply extends_applyHeadRejected in Hrej. apply reads_on_here. extends_auto.
        -- call_node. apply reads_on_finish. extends_auto.
      * call_node. apply reads_on_finish. extends_auto.
    + destruct (String.eqb (tok_name elem) "bvar").
      { call_node. apply reads_on_finish. extends_auto. }
      destruct (_ || _ || _ || _).
      { call_node.
        destruct (String.eqb (tok_name elem) "piece");
          [apply reads_on_here | apply reads_on_finish]; extends_auto. }
      destruct (String.eqb (tok_name elem) "semantics").
      { call_node.
        match goal with
        | |- context [readSemanticsAnnotations ?k ?n ?s ?e] =>
            pose proof (extends_readSemanticsAnnotations k n s e) as Hsem;
            destruct (readSemanticsAnnotations k n s e) as [n2 s4]
        end.
        cbn [snd] in Hsem. apply reads_on_finish.
        eapply stream_extends_trans; [|exact Hsem]. extends_auto. }
      pose proof (extends_setType (readIdClassStyle node elem) elem s2) as Hty.
      destruct (setType _ elem s2) as [n1 s3]. cbn [snd] in Hty.
      apply reads_on_finish. extends_auto.
Qed.

Lemma readChildren_body_reads_on node stream elem p :
  reads_on (readChildren_body readNode readLoop node stream elem p) stream.
Proof.
  unfold readChildren_body. cbv zeta.
  destruct (isGood stream && negb (isEndFor (peek stream) elem));
    [|apply reads_on_here; apply stream_extends_refl].
  pose proof (extends_skipText stream) as Hskip.
  set (s1 := skipText stream) in *. clearbody s1.
  destruct (isEndFor (peek s1) elem).
  - eapply reads_on_weaken; [apply readLoop_reads_on | exact Hskip].
  - destruct (_ || _); [now apply reads_on_here|].
    destruct (String.eqb (tok_name (peek s1)) "math" && tok_isStart (peek s1)).
    all: cbv beta iota.
    all: call_node.
    all: match goal with
         | |- reads_on (if ?b then _ else _) _ => destruct b
         end.
    all: try (apply reads_on_here; extends_auto).
    all: match goal with
         | |- reads_on (readLoop ?n ?s _ _) _ =>
             eapply reads_on_weaken; [apply readLoop_reads_on|]
         end.
    all: extends_auto.
Qed.

End ReaderReadsOn.

Lemma reader_reads_on (fuel : nat) :
  (forall node stream p, reads_on (readMathML_node fuel node stream p) stream)
  /\ (forall node stream elem p, reads_on (readChildren fuel node stream elem p) stream).
Proof.
  induction fuel as [|fuel [IHnode IHloop]].
  - split; intros; intros ? ? E; discriminate E.
  - split; intros; simpl.
    + apply readMathML_body_reads_on; assumption.
    + apply readChildren_body_reads_on; assumption.
Qed.

Lemma readMathML_reads_on (fuel : nat) (stream : XMLInputStream) (reqd_prefix : string) :
  reads_on (readMathML fuel stream reqd_prefix) (setSBMLDefinitionURLs stream).
Proof.
  pose proof (proj1 (reader_reads_on fuel)) as Hnode.
  unfold readMathML, next. cbv zeta. cbv beta iota.
  set (s0 := setSBMLDefinitionURLs stream). clearbody s0.
  repeat match goal with
         | |- reads_on (if ?b then _ else _) _ => destruct b
         | |- reads_on (match (if ?b then _ else _) with _ => _ end) _ => destruct b
         | |- reads_on (match readMathML_node ?f ?n ?s ?p with _ => _ end) _ =>
             let H := fresh "Hn" in
             pose proof (Hnode n s p) as H;
             destruct (readMathML_node f n s p) as [[? ?]|];
             [specialize (H _ _ eq_refl) | intros ? ? ?; discriminate]
         end.
  all: try (apply reads_on_here; extends_auto).
  all: try (eapply reads_on_weaken; [apply Hnode|]; extends_auto).
Qed.

(** X2: [readMathML] returns a node on every stream, and the stream it
    leaves is the one it was given read on: its tokens are what remains
    after some tokens were taken from the front, its log is the old log
    with records added at the end, the namespace context is the same,
    and the registry is the old one with the SBML definitions added. *)
Theorem readMathML_only_reads_and_logs :
  forall (stream : XMLInputStream) (reqd_prefix : string),
  exists node stream',
    readMathML (fuel_for stream) stream reqd_prefix = Some (node, stream')
    /\ (exists consumed, mTokens stream = consumed ++ mTokens stream')
    /\ (exists errs, mErrorLog stream' = mErrorLog stream ++ errs)
    /\ mSBMLns stream' = mSBMLns stream
    /\ mDefinitionURLs stream' = addSBMLDefinitions (mDefinitionURLs stream).
Proof.
  intros stream reqd_prefix.
  destruct (readMathML_returns stream reqd_prefix) as (node & stream' & Hread).
  exists node, stream'. split; [exact Hread|].
  destruct (readMathML_reads_on _ _ _ _ _ Hread) as (Htoks & Hlog & Hns & Hreg).
  repeat split; assumption.
Qed.

(* ====================================================================== *)
(** ** The attribute checks                                                *)
(* ====================================================================== *)

(** The four rules [readMathML] checks on the attributes of an element,
    each as the code its breach is logged with. *)
Definition type_attribute_breach (elem : XMLToken) : list SBMLErrorCode_t :=
  if negb (String.eqb (readInto (tok_attributes elem) "type" "") "")
     && negb (String.eqb (tok_name elem) "cn")
  then [DisallowedMathTypeAttributeUse] else [].

Definition encoding_attribute_breach (elem : XMLToken) : list SBMLErrorCode_t :=
  if negb (String.eqb (readInto (tok_attributes elem) "encoding" "") "")
     && negb (String.eqb (tok_name elem) "csymbol")
  then [DisallowedMathMLEncodingUse] else [].

(** [definitionURL] is for [csymbol] and [semantics], and from Level 2
    Version 5 on for [ci] as well. *)
Definition definitionURL_attribute_breach (elem : XMLToken) (level version : Z)
    : list SBMLErrorCode_t :=
  let name := tok_name elem in
  let ci_allowed := (level >? 2) || ((level =? 2) && (version =? 5)) in
  if negb (String.eqb (readInto (tok_attributes elem) "definitionURL" "") "")
     && negb (String.eqb name "csymbol") && negb (String.eqb name "semantics")
     && negb (ci_allowed && String.eqb name "ci")
  then [DisallowedDefinitionURLUse] else [].

(** [units] is for [cn] from Level 3 on, and for nothing before. *)
Definition units_attribute_breach (elem : XMLToken) (level : Z) : list SBMLErrorCode_t :=
  if negb (String.eqb (readInto (tok_attributes elem) "units" "") "") then
    if level >? 2 then
      if negb (String.eqb (tok_name elem) "cn") then [DisallowedMathUnitsUse] else []
    else [InvalidMathMLAttribute]
  else [].

Definition attribute_breaches (elem : XMLToken) (level version : Z) : list SBMLErrorCode_t :=
  type_attribute_breach elem ++ encoding_attribute_breach elem
  ++ definitionURL_attribute_breach elem level version
  ++ units_attribute_breach elem level.

(** The level and version [logError] stamps a record with. *)
Definition log_level (stream : XMLInputStream) : Z :=
  match getSBMLNamespaces stream with Some ns => ns_level ns | None => SBML_DEFAULT_LEVEL end.
Definition log_version (stream : XMLInputStream) : Z :=
  match getSBMLNamespaces stream with Some ns => ns_version ns | None => SBML_DEFAULT_VERSION end.

Lemma logError_as_with_log stream elem code msg :
  logError stream elem code msg
  = with_log stream
      (mErrorLog stream ++ [mkSBMLError code (log_level stream) (log_version stream) msg]).
Proof. unfold logError, log_level, log_version. destruct (getSBMLNamespaces stream); reflexivity. Qed.

Lemma with_log_with_log stream l1 l2 : with_log (with_log stream l1) l2 = with_log stream l2.
Proof. reflexivity. Qed.

Lemma with_log_same stream : with_log stream (mErrorLog stream) = stream.
Proof. destruct stream; reflexivity. Qed.

(** X3: the attribute checks of [readMathML] log one record for each rule
    the element breaks, in the order type, encoding, definitionURL,
    units, each with an empty message and at the level and version of
    the stream, and change nothing else of the stream; an element that
    has none of the four attributes is never reported. *)
Theorem checkAttributes_logs_each_breach :
  forall (stream : XMLInputStream) (elem : XMLToken) (level version : Z),
    checkAttributes stream elem level version
    = with_log stream
        (mErrorLog stream
         ++ map (fun code => mkSBMLError code (log_level stream) (log_version stream) "")
              (attribute_breaches elem level version))
    /\ (getValue (tok_attributes elem) "type" = None ->
        getValue (tok_attributes elem) "encoding" = None ->
        getValue (tok_attributes elem) "definitionURL" = None ->
        getValue (tok_attributes elem) "units" = None ->
        checkAttributes stream elem level version = stream).
Proof.
  intros stream elem level version.
  assert (Hmain : checkAttributes stream elem level version
    = with_log stream
        (mErrorLog stream
         ++ map (fun code => mkSBMLError code (log_level stream) (log_version stream) "")
              (attribute_breaches elem level version))).
  { unfold checkAttributes, attribute_breaches, type_attribute_breach,
      encoding_attribute_breach, definitionURL_attribute_breach, units_attribute_breach.
    cbv zeta.
    destruct (negb (String.eqb (readInto (tok_attributes elem) "type" "") ""));
      destruct (negb (String.eqb (readInto (tok_attributes elem) "encoding" "") ""));
      destruct (negb (String.eqb (readInto (tok_attributes elem) "definitionURL" "") ""));
      destruct (negb (String.eqb (readInto (tok_attributes elem) "units" "") ""));
      destruct (negb (String.eqb (tok_name elem) "cn"));
      destruct (negb (String.eqb (tok_name elem) "csymbol"));
      destruct (negb (String.eqb (tok_name elem) "semantics"));
      destruct (String.eqb (tok_name elem) "ci");
      destruct (level >? 2); destruct (level =? 2); destruct (version =? 5);
      cbn [andb orb negb app map];
      rewrite ?logError_as_with_log; cbn [with_log mErrorLog mTokens mSBMLns mDefinitionURLs
                                            log_level log_version getSBMLNamespaces];
      rewrite <- ?app_assoc; cbn [app];
      rewrite ?app_nil_r; try reflexivity; destruct stream; reflexivity. }
  split; [exact Hmain|].
  intros Ht He Hu Hn. rewrite Hmain.
  unfold attribute_breaches, type_attribute_breach, encoding_attribute_breach,
    definitionURL_attribute_breach, units_attribute_breach, readInto.
  rewrite Ht, He, Hu, Hn. cbn. rewrite app_nil_r. apply with_log_same.
Qed.

(** A [cn] that carries units, as the writer writes it, read at Level 2
    and at Level 3. *)
Lemma checkAttributes_logs_each_breach_witness :
  let elem := start_token "cn" [("units", "mole"); ("type", "integer")] in
  let stream := mkXMLInputStream [] [] None [] in
  checkAttributes stream elem 3 1 = stream
  /\ checkAttributes stream (start_token "apply" []) 2 4 = stream
  /\ mErrorLog (checkAttributes stream elem 2 4) = [mkSBMLError InvalidMathMLAttribute 3 2 ""].
Proof.
  cbv zeta. split; [|split].
  - rewrite (proj1 (checkAttributes_logs_each_breach _ _ _ _)). reflexivity.
  - apply (proj2 (checkAttributes_logs_each_breach
                    (mkXMLInputStream [] [] None []) (start_token "apply" []) 2 4));
      reflexivity.
  - rewrite (proj1 (checkAttributes_logs_each_breach _ _ _ _)). reflexivity.
Defined.

(* ====================================================================== *)
(** ** A csymbol that the level does not have                              *)
(* ====================================================================== *)

(** X4: a [csymbol] whose [definitionURL] the registry knows, read in a
    namespace context that does not have it (any csymbol below Level 2;
    avogadro and rateOf below Level 3), is reported with
    [BadCsymbolDefinitionURLValue]; the node does not get the kind of the
    registry and keeps no definition URL, but it is still given the text
    that follows as its name, which makes a node of unknown kind a plain
    name; exactly one token is taken from the stream. *)
Theorem csymbol_not_of_the_level :
  forall (node : ASTNode) (attrs : XMLAttributes) (stream : XMLInputStream)
         (ns : SBMLNamespaces),
    let element := start_token "csymbol" attrs in
    let type := registry_getType (mDefinitionURLs stream)
                  (readInto attrs "definitionURL" "") in
    getSBMLNamespaces stream = Some ns ->
    ns_level ns < 2
    \/ (ns_level ns < 3 /\ (type = AST_NAME_AVOGADRO \/ type = AST_FUNCTION_RATE_OF)) ->
    setTypeCI node element stream
    = (setName node (trim (tok_characters (peek stream))),
       with_tokens
         (with_log stream
            (mErrorLog stream
             ++ [mkSBMLError BadCsymbolDefinitionURLValue (ns_level ns) (ns_version ns) ""]))
         (tl (mTokens stream)))
    /\ (isUnknown node = true ->
        getType (fst (setTypeCI node element stream)) = AST_NAME
        /\ mDefinitionURL (fst (setTypeCI node element stream)) = mDefinitionURL node).
Proof.
  intros node attrs stream ns element type Hns Hlevel.
  assert (Hbad : type_eqb type AST_UNKNOWN
                 || negb (isValidCSymbol (getSBMLNamespaces stream) type) = true).
  { rewrite Hns. unfold isValidCSymbol.
    destruct Hlevel as [Hlt | [Hlt Hty]].
    - replace (ns_level ns <? 2) with true by (symmetry; apply Z.ltb_lt; exact Hlt).
      apply orb_true_r.
    - destruct (ns_level ns <? 2); [apply orb_true_r|].
      replace (ns_level ns <? 3) with true by (symmetry; apply Z.ltb_lt; exact Hlt).
      destruct Hty as [-> | ->]; reflexivity. }
  assert (Heq : setTypeCI node element stream
    = (setName node (trim (tok_characters (peek stream))),
       with_tokens
         (with_log stream
            (mErrorLog stream
             ++ [mkSBMLError BadCsymbolDefinitionURLValue (ns_level ns) (ns_version ns) ""]))
         (tl (mTokens stream)))).
  { unfold setTypeCI.
    cbn [element start_token tok_name tok_attributes String.eqb Ascii.eqb Bool.eqb].
    fold type. rewrite Hns at 1. cbn [andb]. rewrite Hbad.
    unfold logError. rewrite Hns. reflexivity. }
  split; [exact Heq|].
  intros Hunk. rewrite Heq. cbn [fst]. unfold setName, getType. rewrite Hunk.
  rewrite !orb_true_r. split; reflexivity.
Qed.

Lemma csymbol_not_of_the_level_witness :
  let stream :=
    mkXMLInputStream [text_token " N "; end_token "csymbol"] []
      (Some (mkSBMLNamespaces 2 4)) (addSBMLDefinitions []) in
  let result := setTypeCI new_ASTNode (start_token "csymbol" [("definitionURL", URL_AVOGADRO)])
                  stream in
  getType (fst result) = AST_NAME
  /\ mName (fst result) = Some "N"
  /\ mErrorLog (snd result) = [mkSBMLError BadCsymbolDefinitionURLValue 2 4 ""].
Proof.
  cbv zeta.
  destruct (csymbol_not_of_the_level new_ASTNode [("definitionURL", URL_AVOGADRO)]
              (mkXMLInputStream [text_token " N "; end_token "csymbol"] []
                 (Some (mkSBMLNamespaces 2 4)) (addSBMLDefinitions []))
              (mkSBMLNamespaces 2 4) eq_refl) as [Heq _].
  - right. split; [reflexivity | left; reflexivity].
  - rewrite Heq. repeat split.
Defined.

(* ====================================================================== *)
(** ** The tables of the writer and of the reader                          *)
(* ====================================================================== *)

(** The function kinds whose element name [writeFunction] takes from
    [MATHML_FUNCTIONS]: from [AST_FUNCTION_ABS] to [AST_RELATIONAL_NEQ],
    but for [AST_FUNCTION_DELAY], which is written as a [csymbol]. *)
Definition named_by_table (t : ASTNodeType_t) : bool :=
  (type_code AST_FUNCTION_ABS <=? type_code t)
  && (type_code t <=? type_code AST_RELATIONAL_NEQ)
  && negb (type_eqb t AST_FUNCTION_DELAY).

Definition is_constant_kind (t : ASTNodeType_t) : bool :=
  match t with
  | AST_CONSTANT_E | AST_CONSTANT_FALSE | AST_CONSTANT_PI | AST_CONSTANT_TRUE => true
  | _ => false
  end.

Section TableFacts.

Variable double_to_string : float -> string.

(** X5: the element name the writer gives a function, an operator or a
    constant is mapped back to the kind of the node by the tables of the
    reader: [writeFunction] (for the kinds it names by [MATHML_FUNCTIONS]),
    [writeOperator] and [writeConstant] each begin the element of a name
    whose entry in [MATHML_TYPES] is the kind written, with one
    exception: the operator kind [AST_POWER] is written as [power], for
    which the table of the reader has the kind [AST_FUNCTION_POWER].
    Every name of [MATHML_ELEMENTS] is found by the search at its own
    index. *)
Theorem written_names_are_read_back :
  forall (node : ASTNode) (sbmlns : option SBMLNamespaces)
         (child child_nons : Z -> list XMLOutput),
    (named_by_table (getType node) = true ->
     exists name rest,
       writeFunction node sbmlns child child_nons
       = Out_startElement "apply" :: Out_startElement name :: rest
       /\ element_type name = getType node)
    /\ (isOperator node = true ->
        exists name rest,
          writeOperatorTag node = Out_startElement name :: rest
          /\ element_type name
             = if type_eqb (getType node) AST_POWER then AST_FUNCTION_POWER
               else getType node)
    /\ (is_constant_kind (getType node) = true ->
        exists name rest,
          writeConstant node = Out_startElement name :: rest
          /\ element_type name = getType node)
    /\ (forall i, (i < List.length MATHML_ELEMENTS)%nat ->
          util_bsearchStringsI MATHML_ELEMENTS (nth i MATHML_ELEMENTS "") 0 (size - 1)
          = Z.of_nat i).
Proof.
  intros node sbmlns child child_nons.
  split; [|split; [|split]].
  - intros H. unfold writeFunction. cbv zeta. unfold getType in *.
    destruct (mType node); try (vm_compute in H; discriminate H);
      cbn [type_code Z.geb Z.ltb Z.leb Z.compare Pos.compare Pos.compare_cont andb
           type_eqb Z.eqb Pos.eqb orb Z.sub Z.add Z.opp Z.pos_sub Pos.pred_double
           Z.succ_double Z.pred_double Z.double Z.to_nat Pos.to_nat Pos.iter_op
           Nat.add nth MATHML_FUNCTIONS app writeStartEndElement];
      (eexists; eexists; split; [reflexivity | vm_compute; reflexivity]).
  - intros H. unfold writeOperatorTag, isOperator, getType in *.
    destruct (mType node); try discriminate H;
      (eexists; eexists; split; [reflexivity | vm_compute; reflexivity]).
  - intros H. unfold writeConstant, getType in *.
    destruct (mType node); try discriminate H;
      (eexists; eexists; split; [reflexivity | vm_compute; reflexivity]).
  - intros i Hi.
    assert (Hall : forallb
              (fun i => util_bsearchStringsI MATHML_ELEMENTS (nth i MATHML_ELEMENTS "") 0
                          (size - 1) =? Z.of_nat i)
              (seq 0 (List.length MATHML_ELEMENTS)) = true) by (vm_compute; reflexivity).
    rewrite forallb_forall in Hall. apply Z.eqb_eq. apply Hall.
    apply in_seq. lia.
Qed.

End TableFacts.

Lemma written_names_are_read_back_witness :
  element_type "sin" = AST_FUNCTION_SIN
  /\ element_type "divide" = AST_DIVIDE
  /\ element_type "power" = AST_FUNCTION_POWER
  /\ element_type "exponentiale" = AST_CONSTANT_E.
Proof.
  destruct (written_names_are_read_back (ASTNode_of_type AST_FUNCTION_SIN) None
              (fun _ => []) (fun _ => [])) as (Hf & _).
  destruct (written_names_are_read_back (ASTNode_of_type AST_DIVIDE) None
              (fun _ => []) (fun _ => [])) as (_ & Ho & _).
  destruct (written_names_are_read_back (ASTNode_of_type AST_POWER) None
              (fun _ => []) (fun _ => [])) as (_ & Hp & _).
  destruct (written_names_are_read_back (ASTNode_of_type AST_CONSTANT_E) None
              (fun _ => []) (fun _ => [])) as (_ & _ & Hc & _).
  destruct (Hf eq_refl) as (n1 & r1 & E1 & T1).
  destruct (Ho eq_refl) as (n2 & r2 & E2 & T2).
  destruct (Hc eq_refl) as (n3 & r3 & E3 & T3).
  destruct (Hp eq_refl) as (n4 & r4 & E4 & T4).
  injection E1 as <- _. injection E2 as <- _. injection E3 as <- _. injection E4 as <- _.
  repeat split; assumption.
Defined.

(* ====================================================================== *)
(** ** The operands of a sum or product as read                            *)
(* ====================================================================== *)









(* ====================================================================== *)
(** ** What the writer makes of the children                               *)
(* ====================================================================== *)



Lemma child_output_beyond (write : ASTNode -> list XMLOutput) (cs : list ASTNode) (i : Z) :
  Z.of_nat (List.length cs) <= i -> child_output write cs i = [].
Proof.
  intros Hi. unfold child_output.
  destruct (Z.ltb_spec i 0) as [_|_]; [reflexivity|].
  apply nth_overflow. rewrite length_map. lia.
Qed.



Section ChildrenWritten.

Variable double_to_string : float -> string.











End ChildrenWritten.






(* ====================================================================== *)
(** ** The text of an integer                                              *)
(* ====================================================================== *)

(** The value of a run of decimal digits read after [acc]. *)
Fixpoint uint_value (d : Decimal.uint) (acc : Z) : Z :=
  match d with
  | Decimal.Nil => acc
  | Decimal.D0 l => uint_value l (10 * acc + 0)
  | Decimal.D1 l => uint_value l (10 * acc + 1)
  | Decimal.D2 l => uint_value l (10 * acc + 2)
  | Decimal.D3 l => uint_value l (10 * acc + 3)
  | Decimal.D4 l => uint_value l (10 * acc + 4)
  | Decimal.D5 l => uint_value l (10 * acc + 5)
  | Decimal.D6 l => uint_value l (10 * acc + 6)
  | Decimal.D7 l => uint_value l (10 * acc + 7)
  | Decimal.D8 l => uint_value l (10 * acc + 8)
  | Decimal.D9 l => uint_value l (10 * acc + 9)
  end.

(** The text does not go on with a digit. *)
Definition no_digit_next (rest : string) : Prop :=
  match rest with
  | String c _ => digit_of c = None
  | EmptyString => True
  end.

Lemma scan_digits_uint (d : Decimal.uint) :
  forall (acc count : Z) (rest : string),
    no_digit_next rest ->
    scan_digits (NilEmpty.string_of_uint d +++ rest) acc count
    = (uint_value d acc, count + Z.of_nat (Decimal.nb_digits d), rest).
Proof.
  induction d; intros acc count rest Hrest;
    try (cbn [NilEmpty.string_of_uint String.append scan_digits uint_value
              Decimal.nb_digits];
         change (digit_of _) with (Some 0) || change (digit_of _) with (Some 1)
         || change (digit_of _) with (Some 2) || change (digit_of _) with (Some 3)
         || change (digit_of _) with (Some 4) || change (digit_of _) with (Some 5)
         || change (digit_of _) with (Some 6) || change (digit_of _) with (Some 7)
         || change (digit_of _) with (Some 8) || change (digit_of _) with (Some 9);
         cbv iota; rewrite IHd by exact Hrest; f_equal; f_equal; lia).
  cbn [NilEmpty.string_of_uint String.append uint_value Decimal.nb_digits].
  destruct rest as [|c r]; [simpl; f_equal; f_equal; lia|].
  simpl in Hrest. simpl. rewrite Hrest. f_equal. f_equal. lia.
Qed.

Lemma uint_value_acc (d : Decimal.uint) :
  forall acc : positive, uint_value d (Z.pos acc) = Z.pos (Pos.of_uint_acc d acc).
Proof.
  induction d; intros acc; cbn [uint_value Pos.of_uint_acc]; try reflexivity;
    match goal with
    | |- uint_value d (10 * Z.pos acc + ?k) = Z.pos (Pos.of_uint_acc d ?p) =>
        replace (10 * Z.pos acc + k) with (Z.pos p) by lia; apply IHd
    end.
Qed.

Lemma uint_value_of_uint (d : Decimal.uint) : uint_value d 0 = Z.of_N (Pos.of_uint d).
Proof.
  induction d; cbn [uint_value Pos.of_uint]; try reflexivity;
    try (cbn [Z.mul Z.add]; exact IHd);
    cbn [Z.mul Z.add]; rewrite uint_value_acc; reflexivity.
Qed.

Lemma pos_to_uint_digits (p : positive) :
  uint_value (Pos.to_uint p) 0 = Z.pos p
  /\ (0 < Decimal.nb_digits (Pos.to_uint p))%nat
  /\ NilZero.string_of_uint (Pos.to_uint p) = NilEmpty.string_of_uint (Pos.to_uint p).
Proof.
  pose proof (DecimalPos.Unsigned.of_to p) as H.
  split; [|split].
  - rewrite uint_value_of_uint, H. reflexivity.
  - destruct (Pos.to_uint p); simpl in *; try lia; discriminate H.
  - destruct (Pos.to_uint p); simpl in *; try reflexivity; discriminate H.
Qed.

Lemma string_app_assoc (a b c : string) : (a +++ b) +++ c = a +++ (b +++ c).
Proof. induction a as [|x a IH]; [reflexivity|]. simpl. rewrite IH. reflexivity. Qed.

(** Scanning the text [ostream << long] prints for [z], whatever follows
    that is no digit, gives [z] back. *)
Lemma scan_integer_long_to_string (z : Z) (rest : string) :
  no_digit_next rest ->
  scan_integer (" " +++ long_to_string z +++ rest) = Some z.
Proof.
  intros Hrest. unfold scan_integer, long_to_string.
  change (drop_leading is_space (" " +++ ?s)) with (drop_leading is_space s).
  destruct z as [|p|p]; cbn [Z.to_int NilZero.string_of_int].
  - cbn [NilZero.string_of_uint NilEmpty.string_of_uint String.append drop_leading].
    change (is_space "0") with false. cbv iota.
    pose proof (scan_digits_uint (Decimal.D0 Decimal.Nil) 0 0 rest Hrest) as H.
    cbn [NilEmpty.string_of_uint String.append] in H.
    cbv beta iota. rewrite H. reflexivity.
  - destruct (pos_to_uint_digits p) as (Hv & Hn & Hs). rewrite Hs.
    pose proof (scan_digits_uint (Pos.to_uint p) 0 0 rest Hrest) as H.
    destruct (Pos.to_uint p) as [|d|d|d|d|d|d|d|d|d|d] eqn:E; [simpl in Hn; lia|..];
      cbn [NilEmpty.string_of_uint String.append drop_leading] in H |- *;
      match goal with
      | |- context [is_space ?c] => change (is_space c) with false
      end; cbv iota; cbv beta iota; rewrite H, Hv;
      match goal with
      | |- context [?a + Z.of_nat ?n =? 0] =>
          replace (a + Z.of_nat n =? 0) with false by (symmetry; apply Z.eqb_neq; lia)
      end; reflexivity.
  - destruct (pos_to_uint_digits p) as (Hv & Hn & Hs). rewrite Hs.
    pose proof (scan_digits_uint (Pos.to_uint p) 0 0 rest Hrest) as H.
    cbn [String.append drop_leading].
    change (is_space "-") with false. cbv iota. cbv beta iota.
    rewrite H, Hv.
    replace (0 + Z.of_nat (Decimal.nb_digits (Pos.to_uint p)) =? 0) with false
      by (symmetry; apply Z.eqb_neq; lia).
    reflexivity.
Qed.

(* ====================================================================== *)
(** ** Written and read back: the leaves                                   *)
(* ====================================================================== *)

Lemma getValue_app (a b : XMLAttributes) (k : string) :
  getValue (a ++ b) k = match getValue a k with Some v => Some v | None => getValue b k end.
Proof.
  induction a as [|[k' v] a IH]; [reflexivity|]. simpl.
  destruct (String.eqb k' k); [reflexivity | exact IH].
Qed.

Lemma getValue_id_class_style (m : ASTNode) (k : string) :
  String.eqb "id" k = false -> String.eqb "class" k = false ->
  String.eqb "style" k = false ->
  getValue (id_class_style m) k = None.
Proof.
  intros H1 H2 H3. unfold id_class_style.
  destruct (isSetId m), (isSetClass m), (isSetStyle m); cbn [app getValue];
    rewrite ?H1, ?H2, ?H3; reflexivity.
Qed.

(** The [id], [class] and [style] of the element of a node, read from a
    token that carries them before other attributes. *)
Lemma readIdClassStyle_more (m : ASTNode) (more : XMLAttributes)
    (name prefix chars : string) (kind : XMLTokenKind) :
  getValue more "id" = None -> getValue more "class" = None ->
  getValue more "style" = None ->
  readIdClassStyle new_ASTNode (mkXMLToken name prefix (id_class_style m ++ more) chars kind)
  = fresh_with_ids m.
Proof.
  intros Hi Hc Hs.
  rewrite <- (readIdClassStyle_fresh m name prefix chars kind).
  unfold readIdClassStyle, readInto. cbn [tok_attributes].
  rewrite !getValue_app, Hi, Hc, Hs.
  destruct (getValue (id_class_style m) "id"), (getValue (id_class_style m) "class"),
    (getValue (id_class_style m) "style"); reflexivity.
Qed.

(** An integer node with the [id], [class] and [style] of [m]. *)
Definition integer_node (m : ASTNode) (z : Z) (units : string) : ASTNode :=
  mkASTNode AST_INTEGER z zero 1 0 None [] units (mId m) (mClass m) (mStyle m)
    false false [] [].

(** A plain name with the [id], [class] and [style] of [m]. *)
Definition name_node (m : ASTNode) (name : string) : ASTNode :=
  mkASTNode AST_NAME 0 zero 1 0 (Some name) [] "" (mId m) (mClass m) (mStyle m)
    false false [] [].

(** Whether the writer, given the context, writes units at all. *)
Definition units_written (sbmlns : option SBMLNamespaces) : bool :=
  match sbmlns with None => true | Some ns => ns_level ns =? 3 end.

Definition units_attribute (sbmlns : option SBMLNamespaces) (units : string) : XMLAttributes :=
  if negb (String.eqb units "") && units_written sbmlns then [("units", units)] else [].

(** The elements without content that stand for a function, an operator,
    a constant or a special number. *)
Definition element_names : list string :=
  filter
    (fun n =>
       negb (existsb (String.eqb n)
               [ "annotation"; "annotation-xml"; "apply"; "bvar"; "ci"; "cn"; "csymbol"
               ; "degree"; "lambda"; "logbase"; "math"; "otherwise"; "piece"; "piecewise"
               ; "semantics"; "sep" ]))
    MATHML_ELEMENTS.

(** The node such an element is read as: [id], [class] and [style] from
    the element, the kind from the tables, the value for the two special
    numbers. *)
Definition element_node (name : string) (m : ASTNode) : ASTNode :=
  if String.eqb name "notanumber" then setValue_double (fresh_with_ids m) nan
  else if String.eqb name "infinity" then setValue_double (fresh_with_ids m) infinity
  else ASTNode_setType (fresh_with_ids m) (element_type name).

Section LeavesWritten.

Variable double_to_string : float -> string.

Lemma integer_written (sbmlns : option SBMLNamespaces) (m : ASTNode) (z : Z)
    (units : string) :
  writeNode double_to_string sbmlns false (integer_node m z units)
  = [Out_startElement "cn"]
    ++ writeAttributes (integer_node m z units)
    ++ (if negb (String.eqb units "") then
          if units_written sbmlns then [Out_writeAttribute "sbml:units" units] else []
        else [])
    ++ [ Out_setAutoIndent false; Out_writeAttribute "type" "integer"
       ; Out_chars " "; Out_chars (long_to_string z); Out_chars " "
       ; Out_endElement "cn"; Out_setAutoIndent true ].
Proof. reflexivity. Qed.

Lemma integer_tokens (sbmlns : option SBMLNamespaces) (m : ASTNode) (z : Z) (units : string) :
  xml_run xs_inner (writeNode double_to_string sbmlns false (integer_node m z units))
  = (xs_inner,
     [ ws_token
     ; start_token "cn" (id_class_style m ++ units_attribute sbmlns units
                         ++ [("type", "integer")])
     ; text_token ((" " +++ long_to_string z) +++ " ")
     ; end_token "cn" ]).
Proof.
  rewrite integer_written.
  unfold integer_node, units_attribute, id_class_style, writeAttributes, isSetId,
    isSetClass, isSetStyle. cbn [mId mClass mStyle].
  destruct (String.eqb (mId m) "") eqn:Ei;
    destruct (String.eqb (mClass m) "") eqn:Ec;
    destruct (String.eqb (mStyle m) "") eqn:Es;
    destruct (String.eqb units "") eqn:Eu;
    destruct (units_written sbmlns);
    cbn -[String.eqb long_to_string]; rewrite ?Ei, ?Ec, ?Es, ?Eu; reflexivity.
Qed.

Lemma name_written (sbmlns : option SBMLNamespaces) (m : ASTNode) (name : string) :
  writeNode double_to_string sbmlns false (name_node m name)
  = [Out_startElement "ci"; Out_setAutoIndent false]
    ++ writeAttributes (name_node m name)
    ++ [ Out_writeAttribute "definitionURL" ""
       ; Out_chars " "; Out_chars name; Out_chars " "
       ; Out_endElement "ci"; Out_setAutoIndent true ].
Proof. reflexivity. Qed.

Lemma name_tokens (sbmlns : option SBMLNamespaces) (m : ASTNode) (name : string) :
  xml_run xs_inner (writeNode double_to_string sbmlns false (name_node m name))
  = (xs_inner,
     [ ws_token
     ; start_token "ci" (id_class_style m)
     ; text_token ((" " +++ name) +++ " ")
     ; end_token "ci" ]).
Proof.
  rewrite name_written.
  unfold name_node, id_class_style, writeAttributes, isSetId, isSetClass, isSetStyle.
  cbn [mId mClass mStyle].
  destruct (String.eqb (mId m) "") eqn:Ei;
    destruct (String.eqb (mClass m) "") eqn:Ec;
    destruct (String.eqb (mStyle m) "") eqn:Es;
    cbn -[String.eqb]; rewrite ?Ei, ?Ec, ?Es; reflexivity.
Qed.

(** The tokens of an element without content that carries the [id],
    [class] and [style] of the node. *)
Lemma empty_element_tokens (name : string) (node : ASTNode) :
  xml_run xs_inner (writeStartEndElement name node)
  = (xs_inner, [ws_token; empty_token name (id_class_style node)]).
Proof.
  unfold writeStartEndElement, writeAttributes, id_class_style, isSetId, isSetClass,
    isSetStyle.
  destruct (String.eqb (mId node) "") eqn:Ei;
    destruct (String.eqb (mClass node) "") eqn:Ec;
    destruct (String.eqb (mStyle node) "") eqn:Es;
    cbn -[String.eqb]; rewrite ?Ei, ?Ec, ?Es; reflexivity.
Qed.

End LeavesWritten.

Lemma readInto_id_class_style (m : ASTNode) (more : XMLAttributes) (k d : string) :
  String.eqb "id" k = false -> String.eqb "class" k = false ->
  String.eqb "style" k = false ->
  readInto (id_class_style m ++ more) k d = readInto more k d.
Proof.
  intros H1 H2 H3. unfold readInto.
  rewrite getValue_app, (getValue_id_class_style m k H1 H2 H3). reflexivity.
Qed.

Lemma extract_int_long_to_string (z : Z) :
  INT_MIN <= z <= INT_MAX ->
  extract_int (String " " (long_to_string z +++ " ")) = mkExtracted z false.
Proof.
  intros Hz. unfold extract_int, extract_integer.
  change (String " " (long_to_string z +++ " ")) with (" " +++ long_to_string z +++ " ").
  rewrite scan_integer_long_to_string by reflexivity.
  destruct (Z.gtb_spec z INT_MAX) as [H|_]; [lia|].
  destruct (Z.ltb_spec z INT_MIN) as [H|_]; [lia|]. reflexivity.
Qed.

(** An element that has none of the four checked attributes passes the
    attribute checks. *)
Lemma checkAttributes_unchecked (stream : XMLInputStream) (elem : XMLToken)
    (level version : Z) :
  getValue (tok_attributes elem) "type" = None ->
  getValue (tok_attributes elem) "encoding" = None ->
  getValue (tok_attributes elem) "definitionURL" = None ->
  getValue (tok_attributes elem) "units" = None ->
  checkAttributes stream elem level version = stream.
Proof.
  intros Ht He Hu Hn. unfold checkAttributes, readInto.
  rewrite Ht, He, Hu, Hn. reflexivity.
Qed.

Lemma checkAttributes_id_class_style_more (m : ASTNode) (more : XMLAttributes)
    (stream : XMLInputStream) (name prefix chars : string) (kind : XMLTokenKind)
    (level version : Z) :
  (forall k, In k ["type"; "encoding"; "definitionURL"; "units"] ->
             getValue more k = None) ->
  checkAttributes stream (mkXMLToken name prefix (id_class_style m ++ more) chars kind)
    level version = stream.
Proof.
  intros H. apply checkAttributes_unchecked; cbn [tok_attributes];
    rewrite getValue_app, getValue_id_class_style by reflexivity;
    apply H; simpl; auto.
Qed.

Section LeavesRead.

Variable sbmlns : option SBMLNamespaces.
Variable reg : list (string * ASTNodeType_t).

#[local] Arguments extract_int : simpl never.
#[local] Arguments logError : simpl never.
#[local] Arguments util_bsearchStringsI : simpl never.
#[local] Arguments long_to_string : simpl never.
#[local] Arguments trim : simpl never.
#[local] Arguments readInto : simpl never.
#[local] Arguments readIdClassStyle : simpl never.
#[local] Arguments id_class_style : simpl never.
#[local] Arguments isValidInternalUnitSId : simpl never.

Lemma integer_reads_as (m : ASTNode) (z : Z) (units : string) :
  INT_MIN <= z <= INT_MAX ->
  isValidInternalUnitSId units = true ->
  ReadsAs sbmlns reg
    [ ws_token
    ; start_token "cn" (id_class_style m ++ units_attribute sbmlns units
                        ++ [("type", "integer")])
    ; text_token ((" " +++ long_to_string z) +++ " ")
    ; end_token "cn" ]
    (integer_node m z (if units_written sbmlns then units else "")) [] 1.
Proof.
  intros Hz Hvalid fuel rest log Hfuel. destruct fuel as [|fuel]; [lia|].
  assert (Hlevel : units_written sbmlns = true ->
                   (match sbmlns with Some ns => ns_level ns | None => 3 end >? 2) = true).
  { destruct sbmlns as [ns|]; [|reflexivity]. simpl. intros H.
    apply Z.eqb_eq in H. rewrite H. reflexivity. }
  rewrite readMathML_node_S. unfold readMathML_body, readElementToken.
  cbn. rewrite bsearch_cn. cbn.
  change (with_tokens (skipText (stream_of sbmlns reg ?a log)) ?b)
    with (stream_of sbmlns reg b log).
  unfold units_attribute.
  destruct (String.eqb units "") eqn:Eu; [apply String.eqb_eq in Eu; subst units|];
    [|destruct (units_written sbmlns) eqn:Ew; [specialize (Hlevel eq_refl)|]];
    cbn [negb andb app].
  all: unfold start_token; rewrite readIdClassStyle_more by reflexivity.
  all: unfold checkAttributes, setTypeCN; cbn [tok_attributes tok_name].
  all: rewrite !readInto_id_class_style by reflexivity.
  all: unfold readInto; cbn [getValue String.eqb Ascii.eqb Bool.eqb negb andb orb].
  all: rewrite ?Eu, ?Hlevel, ?Hvalid; cbn [negb andb orb].
  all: change (isValidInternalUnitSId "") with true; cbn [negb].
  all: unfold next, peek; cbn [stream_of mTokens hd tl with_tokens tok_characters text_token
                               mErrorLog mSBMLns mDefinitionURLs fst snd].
  all: rewrite (extract_int_long_to_string z Hz); cbn [ex_fail ex_value].
  all: change (sizeof_int >? 4) with false; cbn [andb].
  all: rewrite ?app_nil_r.
  - destruct (units_written sbmlns); reflexivity.
  - assert (Hset : setUnits (setValue_int (fresh_with_ids m) z) units
                   = integer_node m z units).
    { unfold setUnits. change (isNumber (setValue_int (fresh_with_ids m) z)) with true.
      cbn [andb]. rewrite Hvalid. reflexivity. }
    rewrite Hset. reflexivity.
  - reflexivity.
Qed.

Lemma bsearch_ci : util_bsearchStringsI MATHML_ELEMENTS "ci" 0 68 = 19.
Proof. vm_compute. reflexivity. Qed.

Lemma name_reads_as (m : ASTNode) (name : string) :
  ReadsAs sbmlns reg
    [ ws_token
    ; start_token "ci" (id_class_style m)
    ; text_token ((" " +++ name) +++ " ")
    ; end_token "ci" ]
    (name_node m (trim name)) [] 1.
Proof.
  intros fuel rest log Hfuel. destruct fuel as [|fuel]; [lia|].
  rewrite readMathML_node_S. unfold readMathML_body, readElementToken.
  cbn. rewrite bsearch_ci. cbn.
  change (with_tokens (skipText (stream_of sbmlns reg ?a log)) ?b)
    with (stream_of sbmlns reg b log).
  unfold start_token.
  rewrite <- (app_nil_r (id_class_style m)).
  rewrite readIdClassStyle_more by reflexivity.
  rewrite checkAttributes_id_class_style_more
    by (intros k Hk; reflexivity).
  unfold setTypeCI. cbn [tok_attributes tok_name String.eqb Ascii.eqb Bool.eqb].
  unfold hasAttribute. rewrite getValue_app, getValue_id_class_style by reflexivity.
  cbn [getValue].
  unfold next, peek; cbn [stream_of mTokens hd tl with_tokens tok_characters text_token
                          mErrorLog mSBMLns mDefinitionURLs fst snd].
  change (String " " (name +++ " ")) with (" " +++ name +++ " ").
  rewrite (trim_padding " " name " ") by reflexivity.
  rewrite !app_nil_r. reflexivity.
Qed.

(** Reading an element without content. *)
Lemma read_empty_element (name : string) (m : ASTNode) (toks rest : list XMLToken)
    (log : SBMLErrorLog) (fuel : nat) :
  In name element_names ->
  drop_text toks = empty_token name (id_class_style m) :: rest ->
  readMathML_node (S fuel) new_ASTNode (stream_of sbmlns reg toks log) ""
  = Some (element_node name m, stream_of sbmlns reg rest log).
Proof.
  intros Hin Hdrop.
  rewrite readMathML_node_S. unfold readMathML_body. cbv zeta.
  rewrite skipText_stream_of, Hdrop.
  unfold readElementToken. cbv zeta.
  change (next (stream_of sbmlns reg (empty_token name (id_class_style m) :: rest) log))
    with (empty_token name (id_class_style m), stream_of sbmlns reg rest log).
  change (peek (stream_of sbmlns reg (empty_token name (id_class_style m) :: rest) log))
    with (empty_token name (id_class_style m)).
  cbv iota beta. unfold empty_token.
  rewrite checkAttributes_id_class_style, readIdClassStyle_fresh.
  cbn [tok_name tok_prefix].
  vm_compute in Hin.
  repeat (destruct Hin as [<- | Hin]; [vm_compute; reflexivity|]).
  destruct Hin.
Qed.

Lemma element_reads_as (name : string) (m : ASTNode) :
  In name element_names ->
  ReadsAs sbmlns reg [ws_token; empty_token name (id_class_style m)]
    (element_node name m) [] 1.
Proof.
  intros Hin fuel rest log Hfuel. destruct fuel as [|fuel]; [lia|].
  rewrite app_nil_r.
  apply (read_empty_element name m _ rest log fuel Hin). reflexivity.
Qed.

End LeavesRead.

Lemma segment_tokens_run (evs : list XMLOutput) (toks : list XMLToken) :
  xml_run xs_inner evs = (xs_inner, toks) ->
  closed_output evs /\ segment_tokens evs = toks.
Proof. unfold closed_output, segment_tokens. intros H. rewrite H. split; reflexivity. Qed.

Lemma integer_node_set (m : ASTNode) (z : Z) (units : string) :
  isValidInternalUnitSId units = true ->
  setUnits (setValue_int (fresh_with_ids m) z) units = integer_node m z units.
Proof.
  intros H. unfold setUnits.
  change (isNumber (setValue_int (fresh_with_ids m) z)) with true.
  cbn [andb]. rewrite H. reflexivity.
Qed.

(** X10: an integer within the range of [int] is read back as written:
    the text the writer prints for it is scanned to the same value, and
    the [cn] element written for an integer node, with its [id], [class]
    and [style], is read as an integer node of the same value and
    attributes, without anything logged.  The units come back when the
    writer writes them (no namespace context, or Level 3); otherwise the
    node read has none. *)
Theorem integer_read_back_as_written :
  forall (double_to_string : float -> string) (sbmlns : option SBMLNamespaces)
         (reg : list (string * ASTNodeType_t)) (m : ASTNode) (z : Z) (units : string)
         (fuel : nat) (rest : list XMLToken) (log : SBMLErrorLog),
    INT_MIN <= z <= INT_MAX ->
    isValidInternalUnitSId units = true ->
    (1 <= fuel)%nat ->
    let node := setUnits (setValue_int (fresh_with_ids m) z) units in
    scan_integer (" " +++ long_to_string z +++ " ") = Some z
    /\ readMathML_node fuel new_ASTNode
         (mkXMLInputStream
            (segment_tokens (writeNode double_to_string sbmlns false node) ++ rest)
            log sbmlns reg) ""
       = Some (setUnits (setValue_int (fresh_with_ids m) z)
                 (if units_written sbmlns then units else ""),
               mkXMLInputStream rest log sbmlns reg).
Proof.
  intros dts sbmlns reg m z units fuel rest log Hz Hvalid Hfuel node.
  split; [apply scan_integer_long_to_string; reflexivity|].
  unfold node. rewrite (integer_node_set m z units Hvalid).
  assert (Hvalid' : isValidInternalUnitSId (if units_written sbmlns then units else "") = true)
    by (destruct (units_written sbmlns); [exact Hvalid | reflexivity]).
  rewrite (integer_node_set m z _ Hvalid').
  destruct (segment_tokens_run _ _ (integer_tokens dts sbmlns m z units)) as [_ Htoks].
  rewrite Htoks.
  pose proof (integer_reads_as sbmlns reg m z units Hz Hvalid fuel rest log Hfuel) as H.
  unfold stream_of in H. rewrite app_nil_r in H. exact H.
Qed.

Lemma integer_read_back_as_written_witness :
  readMathML_node 1 new_ASTNode
    (mkXMLInputStream
       (segment_tokens
          (writeNode (fun _ => "0") None false
             (setUnits (setValue_int new_ASTNode (-2147483648)) "mole")))
       [] None []) ""
  = Some (setUnits (setValue_int new_ASTNode (-2147483648)) "mole",
          mkXMLInputStream [] [] None []).
Proof.
  destruct (integer_read_back_as_written (fun _ => "0") None [] new_ASTNode (-2147483648)
              "mole" 1 [] []) as [_ H].
  - split; vm_compute; discriminate.
  - reflexivity.
  - lia.
  - rewrite app_nil_r in H. exact H.
Defined.

(** X11: a name is read back as the writer wrote it, but for whitespace
    at its ends: the [ci] element written for a name node, with its
    [id], [class] and [style], is read as a name node with the same
    attributes whose name is [trim] of the name written; so the node
    read is the node written exactly when its name neither begins nor
    ends with whitespace. *)
Theorem name_read_back_trimmed :
  forall (double_to_string : float -> string) (sbmlns : option SBMLNamespaces)
         (reg : list (string * ASTNodeType_t)) (m : ASTNode) (name : string)
         (fuel : nat) (rest : list XMLToken) (log : SBMLErrorLog),
    (1 <= fuel)%nat ->
    let node := setName (fresh_with_ids m) name in
    let read :=
      readMathML_node fuel new_ASTNode
        (mkXMLInputStream
           (segment_tokens (writeNode double_to_string sbmlns false node) ++ rest)
           log sbmlns reg) "" in
    read = Some (setName (fresh_with_ids m) (trim name),
                 mkXMLInputStream rest log sbmlns reg)
    /\ (read = Some (node, mkXMLInputStream rest log sbmlns reg)
        <-> begins_with_whitespace name = false /\ ends_with_whitespace name = false).
Proof.
  intros dts sbmlns reg m name fuel rest log Hfuel node read.
  assert (Hread : read = Some (setName (fresh_with_ids m) (trim name),
                               mkXMLInputStream rest log sbmlns reg)).
  { unfold read, node.
    change (setName (fresh_with_ids m) name) with (name_node m name).
    destruct (segment_tokens_run _ _ (name_tokens dts sbmlns m name)) as [_ Htoks].
    rewrite Htoks.
    pose proof (name_reads_as sbmlns reg m name fuel rest log Hfuel) as H.
    unfold stream_of in H. rewrite app_nil_r in H. exact H. }
  split; [exact Hread|].
  rewrite Hread.
  assert (Hfix : trim name = name
                 <-> begins_with_whitespace name = false /\ ends_with_whitespace name = false).
  { unfold ends_with_whitespace. rewrite !begins_with_whitespace_list, string_rev_list.
    pose proof (trim_list_clean (list_ascii_of_string name)) as [Hc1 Hc2].
    rewrite <- trim_as_list in Hc1, Hc2.
    split.
    - intros H. rewrite <- H. split; assumption.
    - intros [H1 H2]. apply list_ascii_inj. rewrite trim_as_list.
      apply trim_list_fixed; assumption. }
  rewrite <- Hfix. unfold node. split.
  - intros H. injection H as H. exact H.
  - intros H. rewrite H. reflexivity.
Qed.

Lemma name_read_back_trimmed_witness :
  readMathML_node 1 new_ASTNode
    (mkXMLInputStream
       (segment_tokens (writeNode (fun _ => "0") None false (setName new_ASTNode " k1 ")))
       [] None []) ""
  = Some (setName new_ASTNode "k1", mkXMLInputStream [] [] None []).
Proof.
  destruct (name_read_back_trimmed (fun _ => "0") None [] new_ASTNode " k1 " 1 [] []
              (le_n 1)) as [H _].
  rewrite app_nil_r in H. exact H.
Defined.

(** The element name of a constant. *)
Definition constant_name (t : ASTNodeType_t) : string :=
  match t with
  | AST_CONSTANT_PI => "pi"
  | AST_CONSTANT_TRUE => "true"
  | AST_CONSTANT_FALSE => "false"
  | _ => "exponentiale"
  end.

(** X12: the constants and the two special numbers are read back as
    written: a node of kind [AST_CONSTANT_PI], [AST_CONSTANT_E],
    [AST_CONSTANT_TRUE] or [AST_CONSTANT_FALSE], and a real node whose
    value is not a number or is plus infinity, each with its [id],
    [class] and [style], is written as one element without content and
    read from it as the same node, without anything logged. *)
Theorem constants_read_back_as_written :
  forall (double_to_string : float -> string) (sbmlns : option SBMLNamespaces)
         (reg : list (string * ASTNodeType_t)) (m : ASTNode) (node : ASTNode)
         (fuel : nat) (rest : list XMLToken) (log : SBMLErrorLog),
    (exists t, is_constant_kind t = true /\ node = ASTNode_setType (fresh_with_ids m) t)
    \/ node = setValue_double (fresh_with_ids m) nan
    \/ node = setValue_double (fresh_with_ids m) infinity ->
    (1 <= fuel)%nat ->
    (exists name,
        writeNode double_to_string sbmlns false node = writeStartEndElement name node)
    /\ readMathML_node fuel new_ASTNode
         (mkXMLInputStream
            (segment_tokens (writeNode double_to_string sbmlns false node) ++ rest)
            log sbmlns reg) ""
       = Some (node, mkXMLInputStream rest log sbmlns reg).
Proof.
  intros dts sbmlns reg m node fuel rest log Hnode Hfuel.
  assert (H : exists name,
             In name element_names
             /\ writeNode dts sbmlns false node = writeStartEndElement name node
             /\ element_node name node = node).
  { destruct Hnode as [(t & Ht & ->) | [-> | ->]].
    - exists (constant_name t).
      destruct t; try discriminate Ht; (split; [vm_compute; tauto | split; reflexivity]).
    - exists "notanumber". split; [vm_compute; tauto | split; reflexivity].
    - exists "infinity". split; [vm_compute; tauto | split; reflexivity]. }
  destruct H as (name & Hin & Hw & Hn).
  split; [exists name; exact Hw|].
  rewrite Hw.
  destruct (segment_tokens_run _ _ (empty_element_tokens name node)) as [_ Htoks].
  rewrite Htoks.
  pose proof (element_reads_as sbmlns reg name node Hin fuel rest log Hfuel) as H.
  unfold stream_of in H. rewrite app_nil_r, Hn in H. exact H.
Qed.

Lemma constants_read_back_as_written_witness :
  readMathML_node 1 new_ASTNode
    (mkXMLInputStream
       (segment_tokens
          (writeNode (fun _ => "0") None false (setValue_double new_ASTNode nan)))
       [] None []) ""
  = Some (setValue_double new_ASTNode nan, mkXMLInputStream [] [] None []).
Proof.
  destruct (constants_read_back_as_written (fun _ => "0") None [] new_ASTNode
              (setValue_double new_ASTNode nan) 1 [] []) as [_ H].
  - right; left; reflexivity.
  - lia.
  - rewrite app_nil_r in H. exact H.
Defined.

(* ====================================================================== *)
(** ** Written and read back: applications                                 *)
(* ====================================================================== *)

(** The element names that [readMathML] reports when they follow an
    [apply] directly. *)
Definition not_an_operator (name : string) : bool :=
  String.eqb name "bvar" || String.eqb name "piece" || String.eqb name "otherwise"
  || String.eqb name "logbase" || String.eqb name "degree" || String.eqb name "lambda"
  || String.eqb name "semantics".

(** The nodes that may head an [apply]: no number, none of the four
    constants, no piecewise. *)
Definition may_head_apply (h : ASTNode) : bool :=
  negb (isNumber h)
  && negb (type_eqb (getType h) AST_CONSTANT_TRUE || type_eqb (getType h) AST_CONSTANT_FALSE
           || type_eqb (getType h) AST_CONSTANT_PI || type_eqb (getType h) AST_CONSTANT_E)
  && negb (type_eqb (getType h) AST_FUNCTION_PIECEWISE).

Lemma may_head_apply_accepted (h : ASTNode) (s : XMLInputStream) (e : XMLToken) :
  may_head_apply h = true ->
  applyHeadRejected h s e = None
  /\ type_eqb (getType h) AST_CONSTANT_TRUE = false
  /\ type_eqb (getType h) AST_CONSTANT_FALSE = false.
Proof.
  unfold may_head_apply, applyHeadRejected. intros H.
  apply andb_prop in H as [H Hpw]. apply andb_prop in H as [Hnum Hc].
  apply negb_true_iff in Hnum, Hc, Hpw. rewrite Hnum, Hc, Hpw.
  apply orb_false_iff in Hc as [Hc _]. apply orb_false_iff in Hc as [Hc _].
  apply orb_false_iff in Hc as [Ht Hf]. repeat split; assumption.
Qed.

Section ApplyRead.

Variable sbmlns : option SBMLNamespaces.
Variable reg : list (string * ASTNodeType_t).

(** Reading [<apply> head child ... child </apply>], where the head is
    any segment that reads as a node that may head an apply and every
    child reads well: a name at the head becomes a function, the
    children are absorbed in turn, and the node is completed by
    [checkFunctionArgs]. *)
Lemma read_apply_head (hseg : list XMLToken) (h : ASTNode) (kh k : nat)
    (children : list ChildRead) (toks inner tail rest : list XMLToken)
    (log : SBMLErrorLog) (fuel : nat) :
  ReadsAs sbmlns reg hseg h [] kh ->
  drop_text hseg <> [] ->
  not_an_operator (next_name hseg) = false ->
  may_head_apply (if isName h then ASTNode_setType h AST_FUNCTION else h) = true ->
  Forall (good_child sbmlns reg k) children ->
  drop_text toks = start_token "apply" [] :: inner ->
  drop_text inner = drop_text (hseg ++ concat (map read_tokens children) ++ tail) ->
  drop_text tail = end_token "apply" :: rest ->
  (kh <= fuel)%nat ->
  (List.length children + k + 2 <= fuel)%nat ->
  readMathML_node (S fuel) new_ASTNode (stream_of sbmlns reg toks log) ""
  = Some (checkFunctionArgs
            (fold_left absorb (map read_node children)
               (if isName h then ASTNode_setType h AST_FUNCTION else h)),
          stream_of sbmlns reg rest (log ++ concat (map read_errors children))).
Proof.
  intros Hhead Hne Hop Hmay Hgood Htoks Hinner Htail Hkh Hfuel.
  rewrite readMathML_node_S. unfold readMathML_body. cbv zeta.
  rewrite skipText_stream_of, Htoks.
  unfold readElementToken. cbv zeta.
  change (next (stream_of sbmlns reg (start_token "apply" [] :: inner) log))
    with (start_token "apply" [], stream_of sbmlns reg inner log).
  change (peek (stream_of sbmlns reg (start_token "apply" [] :: inner) log))
    with (start_token "apply" []).
  cbv iota beta.
  change (readIdClassStyle new_ASTNode (start_token "apply" [])) with new_ASTNode.
  change (checkAttributes _ (start_token "apply" []) _ _)
    with (stream_of sbmlns reg inner log).
  change (tok_name (start_token "apply" [])) with "apply".
  cbn [start_token tok_isStart tok_isEnd tok_kind tok_prefix String.eqb Ascii.eqb
       Bool.eqb andb orb negb].
  unfold checkApplyOperator. cbv zeta. rewrite skipText_stream_of.
  set (X := concat (map read_tokens children) ++ tail) in *.
  assert (Hname : tok_name (peek (stream_of sbmlns reg (drop_text inner) log))
                  = next_name hseg).
  { unfold next_name. rewrite Hinner, drop_text_app by exact Hne.
    unfold peek, stream_of. cbn [mTokens].
    destruct (drop_text hseg); [congruence | reflexivity]. }
  rewrite Hname. fold (not_an_operator (next_name hseg)). rewrite Hop.
  rewrite (readMathML_node_drop_text sbmlns reg fuel new_ASTNode (drop_text inner)
             (hseg ++ X) log "") by (rewrite drop_text_idem; exact Hinner).
  rewrite (Hhead fuel X log Hkh). rewrite app_nil_r.
  set (head := if isName h then ASTNode_setType h AST_FUNCTION else h) in *.
  destruct (may_head_apply_accepted head (stream_of sbmlns reg X log)
              (start_token "apply" []) Hmay) as (Hrej & Htrue & Hfalse).
  rewrite Hrej.
  rewrite (readChildren_apply sbmlns reg k [] rest children head X tail log fuel
             Hgood Htail eq_refl Htrue Hfalse Hfuel).
  unfold readMathML_finish. cbn [tok_name start_token String.eqb Ascii.eqb Bool.eqb].
  reflexivity.
Qed.

End ApplyRead.


(* ====================================================================== *)
(** ** More fuel, same result                                              *)
(* ====================================================================== *)

Ltac same_control Hnode Hloop :=
  repeat (cbv beta iota;
          match goal with
          | |- Some _ = Some _ -> _ => let H := fresh in intros H; exact H
          | |- None = Some _ -> _ => discriminate
          | |- (if ?b then _ else _) = Some _ -> _ => destruct b
          | |- (let '(_, _) := ?x in _) = Some _ -> _ => destruct x
          | |- match ?x with Some _ => _ | None => _ end = Some _ -> _ =>
              let E := fresh "E" in
              destruct x as [[? ?]|] eqn:E;
              [ first [ rewrite (Hnode _ _ _ _ E) | rewrite (Hloop _ _ _ _ _ E) ]
              | discriminate ]
          | |- match ?x with Some _ => _ | None => _ end = Some _ -> _ => destruct x
          | |- _ = Some _ -> _ => first [ apply Hnode | apply Hloop ]
          end).

Section SameResult.

Variables readNode readNode' :
  ASTNode -> XMLInputStream -> string -> option (ASTNode * XMLInputStream).
Variables readLoop readLoop' :
  ASTNode -> XMLInputStream -> XMLToken -> string -> option (ASTNode * XMLInputStream).
Hypothesis Hnode : forall n s p r, readNode n s p = Some r -> readNode' n s p = Some r.
Hypothesis Hloop : forall n s e p r, readLoop n s e p = Some r -> readLoop' n s e p = Some r.

Lemma readMathML_body_same node stream p r :
  readMathML_body readNode readLoop node stream p = Some r ->
  readMathML_body readNode' readLoop' node stream p = Some r.
Proof.
  unfold readMathML_body. cbv zeta. same_control Hnode Hloop.
Qed.

Lemma readChildren_body_same node stream elem p r :
  readChildren_body readNode readLoop node stream elem p = Some r ->
  readChildren_body readNode' readLoop' node stream elem p = Some r.
Proof.
  unfold readChildren_body. cbv zeta. same_control Hnode Hloop.
Qed.

End SameResult.

(** A result the reader reaches with some fuel is the result it reaches
    with any more. *)
Lemma reader_more_fuel (fuel : nat) :
  (forall fuel' node stream p r,
      (fuel <= fuel')%nat ->
      readMathML_node fuel node stream p = Some r ->
      readMathML_node fuel' node stream p = Some r)
  /\ (forall fuel' node stream elem p r,
         (fuel <= fuel')%nat ->
         readChildren fuel node stream elem p = Some r ->
         readChildren fuel' node stream elem p = Some r).
Proof.
  induction fuel as [|fuel [IHnode IHloop]].
  - split; intros; discriminate.
  - split.
    + intros [|fuel'] node stream p r Hle; [lia|].
      rewrite !readMathML_node_S.
      apply readMathML_body_same.
      * intros n s q r'. apply IHnode. lia.
      * intros n s e q r'. apply IHloop. lia.
    + intros [|fuel'] node stream elem p r Hle; [lia|].
      rewrite !readChildren_S.
      apply readChildren_body_same.
      * intros n s q r'. apply IHnode. lia.
      * intros n s e q r'. apply IHloop. lia.
Qed.

(* ====================================================================== *)
(** ** Trees that are read back as written                                 *)
(* ====================================================================== *)


(** With the fuel for its tokens the reader reads a segment as it does
    with any fuel that is enough. *)
Lemma ReadsAs_fuel_for (sbmlns : option SBMLNamespaces) (reg : list (string * ASTNodeType_t))
    (seg : list XMLToken) (c : ASTNode) (errs : SBMLErrorLog) (k fuel : nat)
    (rest : list XMLToken) (log : SBMLErrorLog) :
  ReadsAs sbmlns reg seg c errs k ->
  (2 * List.length (seg ++ rest) + 1 <= fuel)%nat ->
  readMathML_node fuel new_ASTNode (stream_of sbmlns reg (seg ++ rest) log) ""
  = Some (c, stream_of sbmlns reg rest (log ++ errs)).
Proof.
  intros Hread Hfuel.
  destruct (proj1 (reader_returns fuel) new_ASTNode (stream_of sbmlns reg (seg ++ rest) log) "")
    as (n' & s' & Heq & _); [exact Hfuel|].
  pose proof (proj1 (reader_more_fuel fuel) (Nat.max fuel k) _ _ _ _
                (Nat.le_max_l fuel k) Heq) as Hmore.
  rewrite (Hread (Nat.max fuel k) rest log (Nat.le_max_r fuel k)) in Hmore.
  rewrite Heq. symmetry. exact Hmore.
Qed.

Lemma checkFunctionArgs_other (node : ASTNode) :
  type_eqb (getType node) AST_FUNCTION_LOG = false ->
  type_eqb (getType node) AST_FUNCTION_ROOT = false ->
  checkFunctionArgs node = node.
Proof.
  intros Hlog Hroot. unfold checkFunctionArgs. rewrite Hlog, Hroot.
  destruct (getNumChildren node =? 1); reflexivity.
Qed.


(** The function kinds written as [apply] around the element the table
    names and all the children: those named by the table, but for
    [log] and [root], whose first child is wrapped, and [piecewise]. *)
Definition plain_function (t : ASTNodeType_t) : bool :=
  named_by_table t
  && negb (type_eqb t AST_FUNCTION_LOG) && negb (type_eqb t AST_FUNCTION_ROOT)
  && negb (type_eqb t AST_FUNCTION_PIECEWISE).










Section BoundRead.

Variable sbmlns : option SBMLNamespaces.
Variable reg : list (string * ASTNodeType_t).

#[local] Arguments logError : simpl never.
#[local] Arguments util_bsearchStringsI : simpl never.
#[local] Arguments trim : simpl never.
#[local] Arguments readInto : simpl never.
#[local] Arguments readIdClassStyle : simpl never.
#[local] Arguments id_class_style : simpl never.
#[local] Arguments setBvar : simpl never.


End BoundRead.

(* ====================================================================== *)
(** ** Written and read back: rationals and csymbols                       *)
(* ====================================================================== *)






Section MoreLeavesWritten.

Variable double_to_string : float -> string.





End MoreLeavesWritten.


Section MoreLeavesRead.

Variable sbmlns : option SBMLNamespaces.
Variable reg : list (string * ASTNodeType_t).

#[local] Arguments extract_int : simpl never.
#[local] Arguments logError : simpl never.
#[local] Arguments util_bsearchStringsI : simpl never.
#[local] Arguments long_to_string : simpl never.
#[local] Arguments trim : simpl never.
#[local] Arguments readInto : simpl never.
#[local] Arguments readIdClassStyle : simpl never.
#[local] Arguments id_class_style : simpl never.
#[local] Arguments isValidInternalUnitSId : simpl never.
#[local] Arguments registry_getType : simpl never.
#[local] Arguments isValidCSymbol : simpl never.




End MoreLeavesRead.

Section ReadBack.

Variable double_to_string : float -> string.
Variable sbmlns : option SBMLNamespaces.
Variable reg : list (string * ASTNodeType_t).

























































End ReadBack.








(* ====================================================================== *)
(** ** What is not read back as written                                    *)
(* ====================================================================== *)






(** The tokens of minus infinity: an [apply] of [minus] to [infinity],
    written on one line. *)
Lemma minus_infinity_tokens (double_to_string : float -> string)
    (sbmlns : option SBMLNamespaces) (m : ASTNode) :
  xml_run xs_inner
    (writeNode double_to_string sbmlns false (setValue_double (fresh_with_ids m) neg_infinity))
  = (xs_inner,
     [ ws_token; start_token "apply" []; text_token " "; empty_token "minus" []
     ; text_token " "; empty_token "infinity" (id_class_style m)
     ; text_token " "; end_token "apply" ]).
Proof.
  change (writeNode double_to_string sbmlns false
            (setValue_double (fresh_with_ids m) neg_infinity))
    with ([ Out_startElement "apply"; Out_setAutoIndent false; Out_chars " "
          ; Out_startEndElement "minus"; Out_chars " " ]
          ++ writeStartEndElement "infinity" (setValue_double (fresh_with_ids m) neg_infinity)
          ++ [Out_chars " "; Out_endElement "apply"; Out_setAutoIndent true]).
  unfold writeStartEndElement, writeAttributes, id_class_style, isSetId, isSetClass,
    isSetStyle.
  cbn [setValue_double fresh_with_ids mId mClass mStyle].
  destruct (String.eqb (mId m) "") eqn:Ei;
    destruct (String.eqb (mClass m) "") eqn:Ec;
    destruct (String.eqb (mStyle m) "") eqn:Es;
    cbn -[String.eqb]; rewrite ?Ei, ?Ec, ?Es; reflexivity.
Qed.

(** X16: minus infinity is not read back as the number it was written
    from: [writeCN] writes it as an [apply] of [minus] to [infinity],
    and the reader returns what it reads there, a [minus] node whose
    only child is the real node plus infinity (with the [id], [class]
    and [style] of the node written), without logging anything. *)
Theorem minus_infinity_read_as_negation :
  forall (double_to_string : float -> string) (sbmlns : option SBMLNamespaces)
         (reg : list (string * ASTNodeType_t)) (m : ASTNode)
         (rest : list XMLToken) (log : SBMLErrorLog),
    let node := setValue_double (fresh_with_ids m) neg_infinity in
    let stream :=
      mkXMLInputStream
        (segment_tokens (writeNode double_to_string sbmlns false node) ++ rest)
        log sbmlns reg in
    let read :=
      setChildren (ASTNode_of_type AST_MINUS)
        [setValue_double (fresh_with_ids m) infinity] in
    readMathML_node (fuel_for stream) new_ASTNode stream ""
    = Some (read, mkXMLInputStream rest log sbmlns reg)
    /\ isNumber node = true /\ isNumber read = false.
Proof.
  intros dts sbmlns reg m rest log node stream read.
  split; [|split; reflexivity].
  destruct (segment_tokens_run _ _ (minus_infinity_tokens dts sbmlns m)) as [_ Htoks].
  unfold stream, node. rewrite Htoks.
  set (inf := setValue_double (fresh_with_ids m) infinity).
  assert (Hhead : ReadsAs sbmlns reg [text_token " "; empty_token "minus" []]
                    (ASTNode_of_type AST_MINUS) [] 1).
  { intros fuel rest' log' Hfuel. destruct fuel as [|fuel]; [lia|].
    rewrite app_nil_r.
    apply (read_empty_element sbmlns reg "minus" new_ASTNode _ rest' log' fuel);
      [vm_compute; tauto | reflexivity]. }
  assert (Hchild : good_child sbmlns reg 1
                     ([text_token " "; empty_token "infinity" (id_class_style m)], inf, [])).
  { split; [reflexivity|].
    intros fuel rest' log' Hfuel. destruct fuel as [|fuel]; [lia|].
    unfold read_tokens, read_node, read_errors. cbn [fst snd]. rewrite app_nil_r.
    apply (read_empty_element sbmlns reg "infinity" m _ rest' log' fuel);
      [vm_compute; tauto | reflexivity]. }
  assert (Hread : ReadsAs sbmlns reg
                    [ ws_token; start_token "apply" []; text_token " "
                    ; empty_token "minus" []; text_token " "
                    ; empty_token "infinity" (id_class_style m)
                    ; text_token " "; end_token "apply" ] read [] 5).
  { intros fuel rest' log' Hfuel. destruct fuel as [|fuel]; [lia|].
    rewrite (read_apply_head sbmlns reg [text_token " "; empty_token "minus" []]
               (ASTNode_of_type AST_MINUS) 1 1
               [([text_token " "; empty_token "infinity" (id_class_style m)], inf, [])]
               _ ([text_token " "; empty_token "minus" []; text_token " "
                  ; empty_token "infinity" (id_class_style m)
                  ; text_token " "; end_token "apply"] ++ rest')
               ([text_token " "; end_token "apply"] ++ rest') rest' log' fuel Hhead).
    - reflexivity.
    - discriminate.
    - reflexivity.
    - reflexivity.
    - constructor; [exact Hchild | constructor].
    - reflexivity.
    - reflexivity.
    - reflexivity.
    - lia.
    - simpl. lia. }
  pose proof (ReadsAs_fuel_for sbmlns reg _ read [] 5
                (fuel_for (mkXMLInputStream
                             ([ ws_token; start_token "apply" []; text_token " "
                              ; empty_token "minus" []; text_token " "
                              ; empty_token "infinity" (id_class_style m)
                              ; text_token " "; end_token "apply" ] ++ rest)
                             log sbmlns reg))
                rest log Hread) as H.
  unfold stream_of in H. rewrite app_nil_r in H. apply H.
  unfold fuel_for. cbn [mTokens]. lia.
Qed.

Lemma checkAttributes_tokens (s : XMLInputStream) (e : XMLToken) (l v : Z) :
  mTokens (checkAttributes s e l v) = mTokens s.
Proof.
  unfold checkAttributes. cbv zeta. split_ifs; rewrite ?logError_tokens; reflexivity.
Qed.

Lemma readIdClassStyle_kind (n : ASTNode) (e : XMLToken) :
  mType (readIdClassStyle n e) = mType n
  /\ mSemanticsFlag (readIdClassStyle n e) = mSemanticsFlag n
  /\ mName (readIdClassStyle n e) = mName n.
Proof.
  unfold readIdClassStyle. cbv zeta.
  destruct (negb (String.eqb (readInto (tok_attributes e) "id" "") ""));
    destruct (negb (String.eqb (readInto (tok_attributes e) "class" "") ""));
    destruct (negb (String.eqb (readInto (tok_attributes e) "style" "") ""));
    repeat split.
Qed.

Section AttributesKept.

Variable sbmlns : option SBMLNamespaces.
Variable reg : list (string * ASTNodeType_t).

#[local] Arguments logError : simpl never.
#[local] Arguments util_bsearchStringsI : simpl never.
#[local] Arguments trim : simpl never.
#[local] Arguments readInto : simpl never.
#[local] Arguments readIdClassStyle : simpl never.
#[local] Arguments checkAttributes : simpl never.
#[local] Arguments hasAttribute : simpl never.

(** Reading a [ci] that has a [definitionURL]: the node keeps all the
    attributes of the element as its definition URL. *)
Lemma ci_with_url_read (attrs : XMLAttributes) (chars : string) (rest : list XMLToken)
    (log : SBMLErrorLog) (fuel : nat) :
  hasAttribute attrs "definitionURL" = true ->
  exists stream',
    readMathML_node (S fuel) new_ASTNode
      (stream_of sbmlns reg
         (start_token "ci" attrs :: text_token chars :: end_token "ci" :: rest) log) ""
    = Some (setName (setDefinitionURL (readIdClassStyle new_ASTNode (start_token "ci" attrs))
                       attrs) (trim chars),
            stream').
Proof.
  intros Hurl.
  rewrite readMathML_node_S. unfold readMathML_body, readElementToken.
  cbn. rewrite bsearch_ci. cbn.
  unfold setTypeCI. cbn [start_token tok_attributes tok_name String.eqb Ascii.eqb Bool.eqb].
  rewrite Hurl. cbv iota beta.
  unfold next, peek. rewrite checkAttributes_tokens.
  cbn [with_tokens mTokens hd tl tok_characters text_token].
  unfold readMathML_finish. cbn [tok_name String.eqb Ascii.eqb Bool.eqb].
  rewrite checkFunctionArgs_other.
  - eexists. reflexivity.
  - unfold getType, setName, isOperator, isNumber, isInteger, isReal, isUnknown.
    cbn [mType setDefinitionURL].
    rewrite (proj1 (readIdClassStyle_kind new_ASTNode _)). reflexivity.
  - unfold getType, setName, isOperator, isNumber, isInteger, isReal, isUnknown.
    cbn [mType setDefinitionURL].
    rewrite (proj1 (readIdClassStyle_kind new_ASTNode _)). reflexivity.
Qed.

End AttributesKept.

(** X17: the [definitionURL] written for a name is the value of the
    first attribute the [ci] element had when it was read, whatever that
    attribute was: the reader keeps all the attributes of a [ci] that
    has a [definitionURL] as the definition URL of the node, and the
    writer writes the value at index 0 of what the node keeps.  So a
    [ci] whose first attribute is its [id] is written back with the
    [id] in [definitionURL]. *)
Theorem definitionURL_written_from_first_attribute :
  forall (double_to_string : float -> string) (sbmlns : option SBMLNamespaces)
         (reg : list (string * ASTNodeType_t)) (attrs : XMLAttributes) (chars : string)
         (rest : list XMLToken) (log : SBMLErrorLog) (fuel : nat),
    hasAttribute attrs "definitionURL" = true ->
    (1 <= fuel)%nat ->
    exists node stream',
      readMathML_node fuel new_ASTNode
        (mkXMLInputStream
           (start_token "ci" attrs :: text_token chars :: end_token "ci" :: rest)
           log sbmlns reg) ""
      = Some (node, stream')
      /\ mDefinitionURL node = attrs
      /\ writeNode double_to_string sbmlns false node
         = [Out_startElement "ci"; Out_setAutoIndent false]
           ++ writeAttributes node
           ++ [ Out_writeAttribute "definitionURL" (getValue0 attrs)
              ; Out_chars " "; Out_chars (trim chars); Out_chars " "
              ; Out_endElement "ci"; Out_setAutoIndent true ].
Proof.
  intros dts sbmlns reg attrs chars rest log fuel Hurl Hfuel.
  destruct fuel as [|fuel]; [lia|].
  destruct (ci_with_url_read sbmlns reg attrs chars rest log fuel Hurl) as [stream' Hread].
  set (node := setName (setDefinitionURL (readIdClassStyle new_ASTNode (start_token "ci" attrs))
                          attrs) (trim chars)) in *.
  exists node, stream'. split; [exact Hread|]. split; [reflexivity|].
  destruct (readIdClassStyle_kind new_ASTNode (start_token "ci" attrs)) as (Hty & Hsem & _).
  assert (Hkind : mType node = AST_NAME /\ mSemanticsFlag node = false
                  /\ mName node = Some (trim chars) /\ mDefinitionURL node = attrs).
  { unfold node, setName, isOperator, isNumber, isInteger, isReal, isUnknown.
    cbn [mType mSemanticsFlag mName mDefinitionURL setDefinitionURL].
    rewrite Hty, Hsem. repeat split. }
  destruct Hkind as (Hk & Hs & Hn & Hu).
  rewrite writeNode_unfold. unfold getSemanticsFlag. rewrite Hs. cbn [andb].
  unfold writeNode_dispatch, isNumber, isInteger, isReal, isName. rewrite Hk.
  cbn [type_eqb orb]. unfold writeCI, getType, getName. rewrite Hk, Hn, Hu. reflexivity.
Qed.

Lemma definitionURL_written_from_first_attribute_witness :
  exists node stream',
    readMathML_node 1 new_ASTNode
      (mkXMLInputStream
         [ start_token "ci" [("id", "k1"); ("definitionURL", "http://example.org/k")]
         ; text_token "k"; end_token "ci" ]
         [] None []) ""
    = Some (node, stream')
    /\ writeNode (fun _ => "0") None false node
       = [ Out_startElement "ci"; Out_setAutoIndent false
         ; Out_writeAttribute "id" "k1"; Out_writeAttribute "definitionURL" "k1"
         ; Out_chars " "; Out_chars "k"; Out_chars " "
         ; Out_endElement "ci"; Out_setAutoIndent true ].
Proof.
  destruct (definitionURL_written_from_first_attribute (fun _ => "0") None []
              [("id", "k1"); ("definitionURL", "http://example.org/k")] "k" [] [] 1)
    as (node & stream' & Hread & Hurl & Hw).
  - reflexivity.
  - lia.
  - exists node, stream'. split; [exact Hread|].
    rewrite Hw. vm_compute in Hread. injection Hread as <- _. reflexivity.
Defined.

(* ====================================================================== *)
(** ** The empty math element                                              *)
(* ====================================================================== *)

Lemma drop_text_texts (texts rest : list XMLToken) :
  forallb tok_isText texts = true ->
  drop_text (texts ++ rest) = drop_text rest.
Proof.
  induction texts as [|t texts IH]; [reflexivity|].
  simpl. intros H. apply andb_prop in H as [Ht Hts]. rewrite Ht. apply IH, Hts.
Qed.

(** The record [readMathML] logs for a [math] element without an
    element in it. *)
Definition nothing_in_math (sbmlns : option SBMLNamespaces) : SBMLError :=
  mkSBMLError BadMathMLNodeType
    (match sbmlns with Some ns => ns_level ns | None => SBML_DEFAULT_LEVEL end)
    (match sbmlns with Some ns => ns_version ns | None => SBML_DEFAULT_VERSION end)
    "<math> cannot be used directly following a <math> tag.".

(** X18: the two ways of writing an empty [math] element are read
    differently.  For the element without content, delivered as one
    token, [readMathML] returns a fresh node and logs nothing; for a
    start and an end token with at most text between them it returns a
    fresh node as well but logs [BadMathMLNodeType], taking the end of
    [math] for a misplaced element.  Both consume the element and
    nothing more; on an otherwise empty log [readMathMLFromString]
    keeps the node in the first case and discards it in the second. *)
Theorem empty_math_element :
  forall (sbmlns : option SBMLNamespaces) (reg : list (string * ASTNodeType_t))
         (attrs : XMLAttributes) (texts rest : list XMLToken) (log : SBMLErrorLog)
         (fuel : nat),
    forallb tok_isText texts = true ->
    readMathML fuel (mkXMLInputStream (empty_token "math" attrs :: rest) log sbmlns reg) ""
    = Some (new_ASTNode, mkXMLInputStream rest log sbmlns (addSBMLDefinitions reg))
    /\ readMathML fuel
         (mkXMLInputStream (start_token "math" attrs :: texts ++ end_token "math" :: rest)
            log sbmlns reg) ""
       = Some (new_ASTNode,
               mkXMLInputStream rest (log ++ [nothing_in_math sbmlns]) sbmlns
                 (addSBMLDefinitions reg))
    /\ discard_or_return new_ASTNode [] = Some new_ASTNode
    /\ discard_or_return new_ASTNode [nothing_in_math sbmlns] = None.
Proof.
  intros sbmlns reg attrs texts rest log fuel Htexts.
  split; [reflexivity|]. split; [|split; reflexivity].
  unfold readMathML, setSBMLDefinitionURLs. cbv zeta.
  cbn [mTokens mErrorLog mSBMLns mDefinitionURLs].
  change (mkXMLInputStream ?t ?l sbmlns (addSBMLDefinitions reg))
    with (stream_of sbmlns (addSBMLDefinitions reg) t l).
  rewrite skipText_stream_of.
  change (drop_text (start_token "math" attrs :: ?x)) with (start_token "math" attrs :: x).
  change (peek (stream_of sbmlns (addSBMLDefinitions reg) (start_token "math" attrs :: ?x) log))
    with (start_token "math" attrs).
  cbn [start_token tok_name tok_prefix tok_isStart tok_isEnd tok_kind String.eqb Ascii.eqb
       Bool.eqb negb andb].
  change (next (stream_of sbmlns (addSBMLDefinitions reg) (start_token "math" attrs :: ?x) log))
    with (start_token "math" attrs, stream_of sbmlns (addSBMLDefinitions reg) x log).
  cbv iota beta.
  cbn [start_token tok_name tok_prefix tok_isStart tok_isEnd tok_kind String.eqb Ascii.eqb
       Bool.eqb negb andb].
  rewrite skipText_stream_of, (drop_text_texts texts _ Htexts).
  change (drop_text (end_token "math" :: rest)) with (end_token "math" :: rest).
  change (peek (stream_of sbmlns (addSBMLDefinitions reg) (end_token "math" :: rest) log))
    with (end_token "math").
  change (tok_name (end_token "math")) with "math".
  change (isMathMLNodeTag "math" || String.eqb "math" "lambda") with false.
  cbv iota. rewrite logError_as_with_log.
  destruct sbmlns as [ns|]; reflexivity.
Qed.

Lemma empty_math_element_witness :
  readMathML 0
    (mkXMLInputStream [start_token "math" []; text_token " "; end_token "math"] [] None []) ""
  = Some (new_ASTNode,
          mkXMLInputStream [] [nothing_in_math None] None (addSBMLDefinitions []))
  /\ readMathML 0 (mkXMLInputStream [empty_token "math" []] [] None []) ""
     = Some (new_ASTNode, mkXMLInputStream [] [] None (addSBMLDefinitions [])).
Proof.
  destruct (empty_math_element None [] [] [text_token " "] [] [] 0 eq_refl)
    as (H1 & H2 & _).
  split; [exact H2 | exact H1].
Defined.

(* ====================================================================== *)
(** ** The empty piecewise element                                         *)
(* ====================================================================== *)

(** The record [readMathML] logs when what follows the node read is not
    the end of [math]; [name] is the name of the token found there. *)
Definition unexpected_element (sbmlns : option SBMLNamespaces) (name : string) : SBMLError :=
  mkSBMLError InvalidMathElement
    (match sbmlns with Some ns => ns_level ns | None => SBML_DEFAULT_LEVEL end)
    (match sbmlns with Some ns => ns_version ns | None => SBML_DEFAULT_VERSION end)
    ("Unexpected element encountered. The element <" +++ name
     +++ "> should not be encountered here.").

(** X19: a piecewise without children is lost when it is an argument.
    [writePiecewise] writes it as an element without content, and
    [readMathML] does not take that element for closed: its child loop
    goes on into what follows, consumes the end of the enclosing
    [apply], and stops at the end of [math].  So a function of the
    table applied to an empty piecewise is read back as the function
    without any argument, with [InvalidMathElement] logged and the
    whole input consumed. *)
Theorem empty_piecewise_argument_lost :
  forall (double_to_string : float -> string) (getSBMLNamespaceURI : Z -> Z -> string)
         (sbmlns : option SBMLNamespaces) (reg : list (string * ASTNodeType_t))
         (t : ASTNodeType_t),
    plain_function t = true ->
    let written :=
      setChildren (ASTNode_of_type t) [ASTNode_of_type AST_FUNCTION_PIECEWISE] in
    let stream :=
      mkXMLInputStream
        (xml_tokens (writeMathML double_to_string getSBMLNamespaceURI (Some written) sbmlns))
        [] sbmlns reg in
    writeNode double_to_string sbmlns false (ASTNode_of_type AST_FUNCTION_PIECEWISE)
    = [Out_startElement "piecewise"; Out_endElement "piecewise"]
    /\ readMathML (fuel_for stream) stream ""
       = Some (ASTNode_of_type t,
               mkXMLInputStream [] [unexpected_element sbmlns ""] sbmlns
                 (addSBMLDefinitions reg)).
Proof.
  intros dts uri sbmlns reg t Ht written stream.
  split; [reflexivity|].
  unfold stream, written.
  destruct t; try discriminate Ht; destruct sbmlns as [ns|]; vm_compute; reflexivity.
Qed.

Lemma empty_piecewise_argument_lost_witness :
  readMathML
    (fuel_for
       (mkXMLInputStream
          (xml_tokens
             (writeMathML (fun _ => "0") (fun _ _ => "")
                (Some (setChildren (ASTNode_of_type AST_FUNCTION_ABS)
                         [ASTNode_of_type AST_FUNCTION_PIECEWISE])) None))
          [] None []))
    (mkXMLInputStream
       (xml_tokens
          (writeMathML (fun _ => "0") (fun _ _ => "")
             (Some (setChildren (ASTNode_of_type AST_FUNCTION_ABS)
                      [ASTNode_of_type AST_FUNCTION_PIECEWISE])) None))
       [] None []) ""
  = Some (ASTNode_of_type AST_FUNCTION_ABS,
          mkXMLInputStream [] [unexpected_element None ""] None (addSBMLDefinitions [])).
Proof.
  exact (proj2 (empty_piecewise_argument_lost (fun _ => "0") (fun _ _ => "") None []
                  AST_FUNCTION_ABS eq_refl)).
Defined.
